(** * guibender: the computer vision equalizer and its parameters

    A shallow embedding of [CVParameter] and [CVEqualizer] from
    [guibender/settings.py]: the parameter value type with its textual form
    ([__repr__] / [from_string]), and the registry that selects a backend
    algorithm per category, regenerates the parameters of the category,
    marks them for calibration and stores them in a match file.
    The rest of the module follows: the synchronization of an OpenCV object
    with the registry, the equalizer of the desktop control [DCEqualizer]
    and the properties of the class [Settings].

    Conventions of the embedding.
    - The module is Python 2 code (it sets [__metaclass__] and prints with
      a statement), and its interpreter is taken for what the language
      leaves to it: an integer is an [int] up to [sys.maxint] and a [long]
      beyond, [None] orders below every number, and ['%s'] writes a float
      with [str].
    - Python values that a parameter holds are [pyval]: [None], [bool],
      [int], [float] (binary64, the kernel's primitive floats) and [long].
    - A Python [dict] is an association list. The list keeps the keys in
      the order of their first assignment; the interpreter iterates in an
      order of its own, so that a statement about the order of a list is
      about the model, and the statements about the keys of the registry
      speak of the keys only.
    - A method that may raise returns a [result]; a method of the equalizer
      is a state transformer that also returns the state reached when the
      exception left the method, since a mutation done before a [raise]
      stays done.
    - What the interpreter and OpenCV provide and the file only calls
      ([str] and [float] on floating point numbers, [cv2.<name>_create()]
      and the [get...] methods of the object it returns) is the interface
      [Runtime].
    - Text is a string of bytes; the character classes of the regular
      expressions are the ASCII ones. *)

From Stdlib Require Import String Ascii List ZArith Lia Bool.
From Stdlib Require Import Floats.
From Stdlib Require Import DecimalString DecimalZ.
Import ListNotations.

Set Warnings "-inexact-float".
Local Open Scope string_scope.

(** ** Python values and exceptions *)

Inductive pyval : Type :=
| PNone
| PBool (b : bool)
| PInt (z : Z)
| PFloat (x : float)
| PLong (z : Z).

(** What a call may return to [_new_params]: one of the values above, or
    an object of any other type (a string, an array, ...). *)
Inductive pyobj : Type :=
| Scalar (v : pyval)
| Other.

Inductive pyerr : Type :=
| ImageFinderMethodError
| KeyError
| IndexError
| ValueError
| AttributeError
| AssertionError
| TypeError
| IOError
| NoOptionError
| UnboundLocalError
| cv2_error.

Inductive result (A : Type) : Type :=
| Ok (a : A)
| Raise (e : pyerr).

Arguments Ok {A} a.
Arguments Raise {A} e.

Definition is_ok {A} (r : result A) : bool :=
  match r with Ok _ => true | Raise _ => false end.

(** ** Dictionaries

    [d[k]], [d[k] = v], [k in d], [d.keys()], [d.values()] of a [dict]
    with string keys, kept as a list: assigning to a present key keeps its
    place, assigning to an absent key appends it. *)

Definition dict (V : Type) : Type := list (string * V).

Fixpoint dict_get {V} (d : dict V) (k : string) : option V :=
  match d with
  | [] => None
  | (k', v) :: d' => if String.eqb k' k then Some v else dict_get d' k
  end.

Fixpoint dict_set {V} (d : dict V) (k : string) (v : V) : dict V :=
  match d with
  | [] => [(k, v)]
  | (k', v') :: d' =>
      if String.eqb k' k then (k', v) :: d' else (k', v') :: dict_set d' k v
  end.

Definition dict_mem {V} (d : dict V) (k : string) : bool :=
  match dict_get d k with Some _ => true | None => false end.

Definition dict_keys {V} (d : dict V) : list string := map fst d.

Definition dict_values {V} (d : dict V) : list V := map snd d.

(** [value in t] and [t.index(value)] for a tuple of strings. *)
Fixpoint tuple_mem (t : list string) (x : string) : bool :=
  match t with
  | [] => false
  | y :: t' => String.eqb y x || tuple_mem t' x
  end.

Fixpoint tuple_index (t : list string) (x : string) : option nat :=
  match t with
  | [] => None
  | y :: t' =>
      if String.eqb y x then Some O
      else match tuple_index t' x with Some i => Some (S i) | None => None end
  end.

(** ** Numbers

    Comparison of Python numbers is exact also between an [int] or a
    [long] and a [float]; a [bool] compares as 0 or 1; [None] orders below
    every number, and is equal to itself. *)

Definition Z_le_float (z : Z) (x : float) : bool :=
  match Prim2SF x with
  | S754_zero _ => (z <=? 0)%Z
  | S754_infinity s => negb s
  | S754_nan => false
  | S754_finite s m e =>
      let mz := if s then Z.neg m else Z.pos m in
      if (0 <=? e)%Z then (z <=? mz * 2 ^ e)%Z else (z * 2 ^ (- e) <=? mz)%Z
  end.

Definition float_le_Z (x : float) (z : Z) : bool :=
  match Prim2SF x with
  | S754_zero _ => (0 <=? z)%Z
  | S754_infinity s => s
  | S754_nan => false
  | S754_finite s m e =>
      let mz := if s then Z.neg m else Z.pos m in
      if (0 <=? e)%Z then (mz * 2 ^ e <=? z)%Z else (mz <=? z * 2 ^ (- e))%Z
  end.

Inductive pynum : Type :=
| NInt (z : Z)
| NFloat (x : float).

Definition to_num (v : pyval) : option pynum :=
  match v with
  | PNone => None
  | PBool b => Some (NInt (if b then 1 else 0)%Z)
  | PInt z => Some (NInt z)
  | PFloat x => Some (NFloat x)
  | PLong z => Some (NInt z)
  end.

(** [a <= b]. No value of [pyval] makes the comparison raise; the result
    is an option for [py_assert], which takes a condition that may. *)
Definition py_le (a b : pyval) : option bool :=
  match a, b with
  | PNone, _ => Some true
  | _, PNone => Some false
  | _, _ =>
      match to_num a, to_num b with
      | Some (NInt x), Some (NInt y) => Some (x <=? y)%Z
      | Some (NInt x), Some (NFloat y) => Some (Z_le_float x y)
      | Some (NFloat x), Some (NInt y) => Some (float_le_Z x y)
      | Some (NFloat x), Some (NFloat y) => Some (PrimFloat.leb x y)
      | _, _ => None
      end
  end.

(** [a >= b] *)
Definition py_ge (a b : pyval) : option bool := py_le b a.

(** [v != None] *)
Definition is_not_None (v : pyval) : bool :=
  match v with PNone => false | _ => true end.

(** [assert c] where evaluating [c] may itself raise. *)
Definition py_assert (c : option bool) : result unit :=
  match c with
  | Some true => Ok tt
  | Some false => Raise AssertionError
  | None => Raise TypeError
  end.

(** ** Text and the regular expressions of [from_string]

    The three patterns of [from_string] are sequences of literals, groups
    of the shape [(class+)] and a final [$]. [re.match] anchors a pattern at
    the start of the text only. A [+] is greedy: it takes the longest run of
    the class first and gives characters back one at a time until the rest
    of the pattern matches. *)

Definition newline : ascii := Ascii.ascii_of_nat 10.

Definition is_digit (c : ascii) : bool :=
  let n := nat_of_ascii c in (48 <=? n)%nat && (n <=? 57)%nat.

(** [.] *)
Definition cls_dot (c : ascii) : bool := negb (Ascii.eqb c newline).

(** [[\d.None]] *)
Definition cls_digit_dot_None (c : ascii) : bool :=
  is_digit c || Ascii.eqb c "." || Ascii.eqb c "N" || Ascii.eqb c "o"
  || Ascii.eqb c "n" || Ascii.eqb c "e".

(** [[\d.]] *)
Definition cls_digit_dot (c : ascii) : bool :=
  is_digit c || Ascii.eqb c ".".

(** [\w] *)
Definition cls_word (c : ascii) : bool :=
  let n := nat_of_ascii c in
  is_digit c || ((65 <=? n)%nat && (n <=? 90)%nat)
  || ((97 <=? n)%nat && (n <=? 122)%nat) || Ascii.eqb c "_".

Inductive re_item : Type :=
| Lit (s : string)
| Group (cls : ascii -> bool)
| Dollar.

(** The text left after the literal [l] at the start of [s]. *)
Fixpoint strip_prefix (l s : string) : option string :=
  match l with
  | EmptyString => Some s
  | String a l' =>
      match s with
      | EmptyString => None
      | String b s' => if Ascii.eqb a b then strip_prefix l' s' else None
      end
  end.

(** [(cls+)] followed by the continuation [k]: the captured run and the
    result of [k] on the text after it, the longest run first. *)
Fixpoint re_plus {A} (cls : ascii -> bool) (k : string -> option A)
    (s : string) : option (string * A) :=
  match s with
  | EmptyString => None
  | String c s' =>
      if cls c then
        match re_plus cls k s' with
        | Some (g, r) => Some (String c g, r)
        | None =>
            match k s' with
            | Some r => Some (String c EmptyString, r)
            | None => None
            end
        end
      else None
  end.

(** [$]: the end of the text, or the newline that ends the text. *)
Definition re_dollar (s : string) : bool :=
  match s with
  | EmptyString => true
  | String c EmptyString => Ascii.eqb c newline
  | _ => false
  end.

(** [re.match(pattern, s)]: the groups of the match, or [None]. *)
Fixpoint re_match (pattern : list re_item) (s : string)
    : option (list string) :=
  match pattern with
  | [] => Some []
  | Lit l :: rest =>
      match strip_prefix l s with
      | Some s' => re_match rest s'
      | None => None
      end
  | Group cls :: rest =>
      match re_plus cls (re_match rest) s with
      | Some (g, gs) => Some (g :: gs)
      | None => None
      end
  | Dollar :: rest => if re_dollar s then re_match rest s else None
  end.

(** [r"<value='(.+)' min='([\d.None]+)' max='([\d.None]+)'"
    r" delta='([\d.]+)' tolerance='([\d.]+)' fixed='(\w+)'>"] *)
Definition parameter_pattern : list re_item :=
  [ Lit "<value='"; Group cls_dot;
    Lit "' min='"; Group cls_digit_dot_None;
    Lit "' max='"; Group cls_digit_dot_None;
    Lit "' delta='"; Group cls_digit_dot;
    Lit "' tolerance='"; Group cls_digit_dot;
    Lit "' fixed='"; Group cls_word;
    Lit "'>" ].

(** [r"\d+$"] *)
Definition int_pattern : list re_item := [ Group is_digit; Dollar ].

(** [r"[\d.]+"] *)
Definition float_pattern : list re_item := [ Group cls_digit_dot ].

(** [re.match(pattern, s)] is not [None]. *)
Definition matches (pattern : list re_item) (s : string) : bool :=
  match re_match pattern s with Some _ => true | None => false end.

(** [s] without the newline that ends it. *)
Fixpoint rstrip_newline (s : string) : string :=
  match s with
  | EmptyString => EmptyString
  | String c EmptyString =>
      if Ascii.eqb c newline then EmptyString else String c EmptyString
  | String c s' => String c (rstrip_newline s')
  end.

(** The number that [int(s)] gives for the texts that reach it, digits
    that a newline may follow: [int] skips the white space around the
    digits and accepts leading zeros. [None] stands for the [ValueError].
    The number is of any size; whether the result is an [int] or a [long]
    is decided where [int] is called, in [parse_arg]. *)
Definition py_int (s : string) : option Z :=
  match rstrip_newline s with
  | EmptyString => None
  | t => option_map Z.of_uint (NilEmpty.uint_of_string t)
  end.

(** ** The runtime

    [str_float x] is ['%s' % x] for a float [x]; [float_of_string s] is
    [float(s)], [None] when it raises [ValueError]; [maxint] is
    [sys.maxint], the largest [int]; [cv2_create name] is
    [getattr(cv2, name)()], the object seen through [dir]: its attribute
    names in the order of [dir], each with what calling the attribute
    without arguments gives (only the attributes whose name starts with
    [get] are ever called). *)

Definition backend : Type := list (string * result pyobj).

Class Runtime : Type := {
  str_float : float -> string;
  float_of_string : string -> option float;
  maxint : Z;
  cv2_create : string -> result backend
}.

(** ['%s' % v] *)
Definition py_str `{Runtime} (v : pyval) : string :=
  match v with
  | PNone => "None"
  | PBool true => "True"
  | PBool false => "False"
  | PInt z => NilZero.string_of_int (Z.to_int z)
  | PFloat x => str_float x
  | PLong z => NilZero.string_of_int (Z.to_int z)
  end.

(** ** CVParameter *)

Record CVParameter : Type := {
  value : pyval;
  delta : pyval;
  tolerance : pyval;
  range : pyval * pyval;
  fixed : pyval
}.

(** [CVParameter.__init__(value, min_val, max_val, delta, tolerance, fixed)];
    the type of a [long] is neither [bool] nor [int]. *)
Definition CVParameter_init (value min_val max_val delta tolerance fixed : pyval)
    : result CVParameter :=
  let '(delta, tolerance) :=
    match value with
    | PBool _ => (PFloat 0.0, PFloat 1.0)
    | PInt _ => (PInt 1, PFloat 0.9)
    | _ => (delta, tolerance)
    end in
  match (if is_not_None min_val then py_assert (py_ge value min_val) else Ok tt) with
  | Raise e => Raise e
  | Ok _ =>
      match (if is_not_None max_val then py_assert (py_le value max_val) else Ok tt) with
      | Raise e => Raise e
      | Ok _ =>
          Ok {| value := value; delta := delta; tolerance := tolerance;
                range := (min_val, max_val); fixed := fixed |}
      end
  end.

(** The defaults of the constructor: [min_val=None, max_val=None,
    delta=1.0, tolerance=0.1, fixed=True]. *)
Definition default_delta : pyval := PFloat 1.0.
Definition default_tolerance : pyval := PFloat 0.1.
Definition default_fixed : pyval := PBool true.

(** [CVParameter.__repr__] *)
Definition CVParameter_repr `{Runtime} (q : CVParameter) : string :=
  "<value='" ++ py_str (value q)
  ++ "' min='" ++ py_str (fst (range q))
  ++ "' max='" ++ py_str (snd (range q))
  ++ "' delta='" ++ py_str (delta q)
  ++ "' tolerance='" ++ py_str (tolerance q)
  ++ "' fixed='" ++ py_str (fixed q) ++ "'>".

(** The body of the loop of [from_string]: one captured text to a value.
    [int] of digits gives an [int] up to [sys.maxint] and a [long]
    beyond. *)
Definition parse_arg `{Runtime} (arg : string) : result pyval :=
  if String.eqb arg "None" then Ok PNone
  else if String.eqb arg "True" then Ok (PBool true)
  else if String.eqb arg "False" then Ok (PBool false)
  else if matches int_pattern arg then
    match py_int arg with
    | Some z => Ok (if (z <=? maxint)%Z then PInt z else PLong z)
    | None => Raise ValueError
    end
  else if matches float_pattern arg then
    match float_of_string arg with
    | Some x => Ok (PFloat x)
    | None => Raise ValueError
    end
  else Raise ValueError.

(** The loop of [from_string]: it raises at the first text it refuses. *)
Fixpoint parse_args `{Runtime} (string_args : list string)
    : result (list pyval) :=
  match string_args with
  | [] => Ok []
  | arg :: rest =>
      match parse_arg arg with
      | Raise e => Raise e
      | Ok v =>
          match parse_args rest with
          | Raise e => Raise e
          | Ok args => Ok (v :: args)
          end
      end
  end.

(** [CVParameter.from_string(raw)]. When the pattern does not match,
    [re.match] returns [None] and [.group] on it raises [AttributeError]. *)
Definition from_string `{Runtime} (raw : string) : result CVParameter :=
  match re_match parameter_pattern raw with
  | None => Raise AttributeError
  | Some string_args =>
      match parse_args string_args with
      | Raise e => Raise e
      | Ok [a1; a2; a3; a4; a5; a6] => CVParameter_init a1 a2 a3 a4 a5 a6
      | Ok _ => Raise TypeError
      end
  end.

(** ** CVEqualizer

    The attributes [p] (the parameters registry: category, then parameter
    name) and [_current] (category to the index of its algorithm) are the
    state. The attribute [algorithms] is assigned once in [__init__] and
    never again: it is the constant below. *)

Record CVEqualizer : Type := {
  p : dict (dict CVParameter);
  _current : dict nat
}.

Definition algorithms : dict (list string) :=
  [ ("find_methods", ["autopy"; "template"; "feature"; "hybrid"]);
    ("template_matchers", ["sqdiff"; "ccorr"; "ccoeff"; "sqdiff_normed";
                           "ccorr_normed"; "ccoeff_normed"]);
    ("feature_matchers", ["BruteForce"; "BruteForce-L1"; "BruteForce-Hamming";
                          "BruteForce-Hamming(2)"]);
    ("feature_detectors", ["ORB"; "BRISK"; "KAZE"; "AKAZE"; "MSER";
                           "AgastFeatureDetector"; "FastFeatureDetector";
                           "GFTTDetector"; "SimpleBlobDetector"; "oldSURF"]);
    ("feature_extractors", ["ORB"; "BRISK"; "KAZE"; "AKAZE"]) ].

Definition full_names : dict string :=
  [ ("find", "find_methods");
    ("tmatch", "template_matchers");
    ("fdetect", "feature_detectors");
    ("fextract", "feature_extractors");
    ("fmatch", "feature_matchers") ].

(** A method of the equalizer: the result and the state it leaves. *)
Definition M (A : Type) : Type := CVEqualizer -> result A * CVEqualizer.

Definition ret {A} (a : A) : M A := fun self => (Ok a, self).

Definition raise {A} (e : pyerr) : M A := fun self => (Raise e, self).

Definition bind {A B} (m : M A) (k : A -> M B) : M B :=
  fun self =>
    match m self with
    | (Ok a, self') => k a self'
    | (Raise e, self') => (Raise e, self')
    end.

Definition lift {A} (r : result A) : M A := fun self => (r, self).

Definition read : M CVEqualizer := fun self => (Ok self, self).

Definition write (self' : CVEqualizer) : M unit := fun _ => (Ok tt, self').

Declare Scope py_scope.
Delimit Scope py_scope with py.
Notation "x <- m ;; k" := (bind m (fun x => k))
  (at level 61, m at next level, right associativity) : py_scope.
Notation "m ;; k" := (bind m (fun _ => k))
  (at level 61, right associativity) : py_scope.
Local Open Scope py_scope.

(** [d[k]] and [t[i]] *)
Definition getitem {V} (d : dict V) (k : string) : result V :=
  match dict_get d k with Some v => Ok v | None => Raise KeyError end.

Definition tuple_getitem (t : list string) (i : nat) : result string :=
  match nth_error t i with Some a => Ok a | None => Raise IndexError end.

(** [CVEqualizer.get_backend(category)]; the logging line reads
    [self._current[category]] before anything else. *)
Definition get_backend (category : string) : M string :=
  self <- read ;;
  i <- lift (getitem (_current self) category) ;;
  name <- lift (getitem full_names category) ;;
  t <- lift (getitem algorithms name) ;;
  lift (tuple_getitem t i).

(** [self.p[category] = {}] *)
Definition p_reset (category : string) : M unit :=
  self <- read ;;
  write {| p := dict_set (p self) category []; _current := _current self |}.

(** [self.p[category][name] = q] *)
Definition p_setitem (category name : string) (q : CVParameter) : M unit :=
  self <- read ;;
  params <- lift (getitem (p self) category) ;;
  write {| p := dict_set (p self) category (dict_set params name q);
           _current := _current self |}.

(** [self.p[category][name] = CVParameter(...)]: the constructor runs
    first. *)
Definition p_new (category name : string) (q : result CVParameter) : M unit :=
  q' <- lift q ;;
  p_setitem category name q'.

(** [attribute.replace("get", "")] *)
Fixpoint remove_get (s : string) : string :=
  match s with
  | String "g" (String "e" (String "t" r)) => remove_get r
  | String c r => String c (remove_get r)
  | EmptyString => EmptyString
  end.

Definition is_fdetect_or_fextract (category : string) : bool :=
  tuple_mem ["fdetect"; "fextract"] category.

(** [type(val) in [bool, int, float, type(None)]] *)
Definition is_scalar (val : pyval) : bool :=
  match val with
  | PLong _ => false
  | _ => true
  end.

(** The loop of [_new_params] over [dir(new_backend)]. *)
Fixpoint examine (category : string) (attributes : backend) : M unit :=
  match attributes with
  | [] => ret tt
  | (attribute, call) :: rest =>
      if negb (String.prefix "get" attribute) then examine category rest
      else
        let param := remove_get attribute in
        obj <- lift call ;;
        match obj with
        | Other => examine category rest
        | Scalar val =>
            if negb (is_scalar val) then examine category rest
            else
              (if is_fdetect_or_fextract category && String.eqb param "firstLevel" then
                 p_new category param
                   (CVParameter_init val (PInt 0) (PInt 100)
                      default_delta default_tolerance default_fixed)
               else if is_fdetect_or_fextract category && String.eqb param "nFeatures" then
                 p_new category param
                   (CVParameter_init val PNone PNone
                      (PInt 100) default_tolerance default_fixed)
               else if is_fdetect_or_fextract category && String.eqb param "WTA_K" then
                 p_new category param
                   (CVParameter_init val (PInt 2) (PInt 4)
                      default_delta default_tolerance default_fixed)
               else if is_fdetect_or_fextract category && String.eqb param "scaleFactor" then
                 p_new category param
                   (CVParameter_init val (PFloat 1.01) (PFloat 2.0)
                      default_delta default_tolerance default_fixed)
               else
                 p_new category param
                   (CVParameter_init val PNone PNone
                      default_delta default_tolerance default_fixed)) ;;
              examine category rest
        end
  end.

(** [CVParameter(v)], [CVParameter(v, lo, hi)], [CVParameter(v, lo, hi, d)]
    and [CVParameter(v, lo, hi, d, t)] *)
Definition CVParameter1 (v : pyval) : result CVParameter :=
  CVParameter_init v PNone PNone default_delta default_tolerance default_fixed.

Definition CVParameter3 (v lo hi : pyval) : result CVParameter :=
  CVParameter_init v lo hi default_delta default_tolerance default_fixed.

Definition CVParameter4 (v lo hi d : pyval) : result CVParameter :=
  CVParameter_init v lo hi d default_tolerance default_fixed.

Definition CVParameter5 (v lo hi d t : pyval) : result CVParameter :=
  CVParameter_init v lo hi d t default_fixed.

(** [CVEqualizer._new_params(category, new)] *)
Definition _new_params `{Runtime} (category new : string) : M unit :=
  p_reset category ;;
  if String.eqb category "find" then
    p_new category "similarity"
      (CVParameter5 (PFloat 0.9) (PFloat 0.0) (PFloat 1.0) (PFloat 0.1) (PFloat 0.1)) ;;
    (if tuple_mem ["feature"; "hybrid"] new then
       p_new category "ransacReprojThreshold"
         (CVParameter5 (PFloat 0.0) (PFloat 0.0) (PFloat 200.0) (PFloat 10.0) (PFloat 1.0))
     else ret tt) ;;
    (if tuple_mem ["template"; "hybrid"] new then
       p_new category "nocolor" (CVParameter1 (PBool false))
     else ret tt) ;;
    (if String.eqb new "hybrid" then
       p_new category "front_similarity"
         (CVParameter5 (PFloat 0.8) (PFloat 0.0) (PFloat 1.0) (PFloat 0.1) (PFloat 0.1))
     else if String.eqb new "2to1hybrid" then
       p_new category "x" (CVParameter3 (PInt 1000) (PInt 1) PNone) ;;
       p_new category "y" (CVParameter3 (PInt 1000) (PInt 1) PNone) ;;
       p_new category "dx" (CVParameter3 (PInt 100) (PInt 1) PNone) ;;
       p_new category "dy" (CVParameter3 (PInt 100) (PInt 1) PNone)
     else ret tt)
  else if String.eqb category "tmatch" then ret tt
  else if String.eqb category "fdetect" then
    p_new category "nzoom"
      (CVParameter5 (PFloat 4.0) (PFloat 1.0) (PFloat 10.0) (PFloat 1.0) (PFloat 1.0)) ;;
    p_new category "hzoom"
      (CVParameter5 (PFloat 4.0) (PFloat 1.0) (PFloat 10.0) (PFloat 1.0) (PFloat 1.0)) ;;
    if String.eqb new "oldSURF" then
      p_new category "oldSURFdetect" (CVParameter1 (PInt 85))
    else
      new_backend <- lift (cv2_create (new ++ "_create")) ;;
      examine category new_backend
  else if String.eqb category "fextract" then
    new_backend <- lift (cv2_create (new ++ "_create")) ;;
    examine category new_backend
  else if String.eqb category "fmatch" then
    if String.eqb new "in-house-region" then
      p_new category "refinements" (CVParameter3 (PInt 50) (PInt 1) PNone) ;;
      p_new category "recalc_interval" (CVParameter3 (PInt 10) (PInt 1) PNone) ;;
      p_new category "variants_k" (CVParameter3 (PInt 100) (PInt 1) PNone) ;;
      p_new category "variants_ratio"
        (CVParameter3 (PFloat 0.33) (PFloat 0.0001) (PFloat 1.0))
    else
      p_new category "ratioThreshold"
        (CVParameter4 (PFloat 0.65) (PFloat 0.0) (PFloat 1.0) (PFloat 0.1)) ;;
      p_new category "ratioTest" (CVParameter1 (PBool false)) ;;
      p_new category "symmetryTest" (CVParameter1 (PBool false))
      (* both branches of the test for "in-house-raw" return here *)
  else
    (* no branch bound [new_backend] *)
    raise UnboundLocalError.

(** [self._current[category] = i] *)
Definition current_setitem (category : string) (i : nat) : M unit :=
  self <- read ;;
  write {| p := p self; _current := dict_set (_current self) category i |}.

(** [CVEqualizer.set_backend(category, value)] *)
Definition set_backend `{Runtime} (category value : string) : M unit :=
  name <- lift (getitem full_names category) ;;
  t <- lift (getitem algorithms name) ;;
  if negb (tuple_mem t value) then raise ImageFinderMethodError
  else
    _new_params category value ;;
    match tuple_index t value with
    | Some i => current_setitem category i
    | None => raise ValueError
    end.

(** [CVEqualizer.configure_backend(find_image, template_match,
    feature_detect, feature_extract, feature_match)], each a name or
    [None]. *)
Definition set_backend_if `{Runtime} (category : string) (value : option string)
    : M unit :=
  match value with
  | Some v => set_backend category v
  | None => ret tt
  end.

Definition configure_backend `{Runtime}
    (find_image template_match feature_detect feature_extract feature_match
     : option string) : M unit :=
  set_backend_if "find" find_image ;;
  set_backend_if "tmatch" template_match ;;
  set_backend_if "fdetect" feature_detect ;;
  set_backend_if "fextract" feature_extract ;;
  set_backend_if "fmatch" feature_match.

(** The settings [__init__] reads: the class attributes of [Settings],
    with the values they have when nobody changed them. *)
Record Settings : Type := {
  template_match_backend : string;
  feature_detect_backend : string;
  feature_extract_backend : string;
  feature_match_backend : string
}.

Definition Settings_default : Settings :=
  {| template_match_backend := "ccoeff_normed";
     feature_detect_backend := "ORB";
     feature_extract_backend := "ORB";
     feature_match_backend := "BruteForce-Hamming" |}.

(** The attributes at the start of [CVEqualizer.__init__]. *)
Definition CVEqualizer_empty : CVEqualizer :=
  {| p := [ ("find", []); ("tmatch", []); ("fextract", []);
            ("fmatch", []); ("fdetect", []) ];
     _current := [] |}.

(** [CVEqualizer(backend)] *)
Definition CVEqualizer_init `{Runtime} (settings : Settings)
    (backend : option string) : result unit * CVEqualizer :=
  match backend with
  | None => (Ok tt, CVEqualizer_empty)
  | Some b =>
      configure_backend (Some b)
        (Some (template_match_backend settings))
        (Some (feature_detect_backend settings))
        (Some (feature_extract_backend settings))
        (Some (feature_match_backend settings))
        CVEqualizer_empty
  end.

(** [param == "bytes"] in [can_calibrate], where [param] is a value of the
    dictionary, a [CVParameter]: the class defines no [__eq__], so the
    comparison of the object with a string is the one of identities and is
    [False]. *)
Definition CVParameter_eq_str (param : CVParameter) (s : string) : bool := false.

Definition set_fixed (param : CVParameter) (f : pyval) : CVParameter :=
  {| value := value param; delta := delta param; tolerance := tolerance param;
     range := range param; fixed := f |}.

(** [CVEqualizer.can_calibrate(mark, category)] *)
Definition can_calibrate (mark : bool) (category : string) : M unit :=
  self <- read ;;
  if negb (dict_mem (p self) category) then raise ImageFinderMethodError
  else
    params <- lift (getitem (p self) category) ;;
    let params' :=
      map (fun '(name, param) =>
             if String.eqb category "fextract" && CVParameter_eq_str param "bytes"
             then (name, set_fixed param (PBool true))
             else (name, set_fixed param (PBool (negb mark))))
          params in
    write {| p := dict_set (p self) category params';
             _current := _current self |}.

(** ** Match files

    A match file is modelled by what the [RawConfigParser] holds when it is
    written and after it is read: the sections in order, each with its
    options in order and the text of every value (a value that is set to a
    [CVParameter] is written as its [__repr__]). The files are a dictionary
    from the file name to such a content. *)

Definition matchfile : Type := dict (dict string).

Definition files : Type := dict matchfile.

(** [parser.set(section, option, value)] for a section that exists. *)
Definition parser_set (parser : matchfile) (section option value : string)
    : matchfile :=
  match dict_get parser section with
  | Some options => dict_set parser section (dict_set options option value)
  | None => parser
  end.

(** [parser.get(section, option)] for a section that exists. *)
Definition parser_get (options : dict string) (option : string) : result string :=
  match dict_get options option with
  | Some v => Ok v
  | None => Raise NoOptionError
  end.

(** The inner loop of [to_match_file]. *)
Fixpoint write_options `{Runtime} (section : string) (params : dict CVParameter)
    (parser : matchfile) : matchfile :=
  match params with
  | [] => parser
  | (option, q) :: rest =>
      write_options section rest (parser_set parser section option (CVParameter_repr q))
  end.

(** The outer loop of [to_match_file]. *)
Fixpoint write_sections `{Runtime} (self : CVEqualizer) (sections : list string)
    (parser : matchfile) : result matchfile :=
  match sections with
  | [] => Ok parser
  | section :: rest =>
      let parser :=
        if negb (dict_mem parser section) then dict_set parser section []
        else parser in
      match fst (get_backend section self) with
      | Raise e => Raise e
      | Ok name =>
          let parser := parser_set parser section "backend" name in
          match getitem (p self) section with
          | Raise e => Raise e
          | Ok params => write_sections self rest (write_options section params parser)
          end
      end
  end.

(** [CVEqualizer.to_match_file(filename_without_extention)]: the files
    after the call. The file is opened only after the parser is filled. *)
Definition to_match_file `{Runtime} (self : CVEqualizer)
    (filename_without_extention : string) (fs : files) : result files :=
  match write_sections self (dict_keys (p self)) [] with
  | Raise e => Raise e
  | Ok parser => Ok (dict_set fs (filename_without_extention ++ ".match") parser)
  end.

(** The inner loop of [from_match_file]. *)
Fixpoint read_options `{Runtime} (category : string) (section : dict string)
    (options : list string) : M unit :=
  match options with
  | [] => ret tt
  | option :: rest =>
      if String.eqb option "backend" then read_options category section rest
      else
        param_string <- lift (parser_get section option) ;;
        param <- lift (from_string param_string) ;;
        p_setitem category option param ;;
        read_options category section rest
  end.

(** The outer loop of [from_match_file]. *)
Fixpoint read_sections `{Runtime} (parser : matchfile) (categories : list string)
    : M unit :=
  match categories with
  | [] => ret tt
  | category :: rest =>
      match dict_get parser category with
      | Some section =>
          section_backend <- lift (parser_get section "backend") ;;
          current <- get_backend category ;;
          (if negb (String.eqb section_backend current)
           then set_backend category section_backend
           else ret tt) ;;
          read_options category section (dict_keys section)
      | None => ret tt
      end ;;
      read_sections parser rest
  end.

(** [CVEqualizer.from_match_file(filename_without_extention)] *)
Definition from_match_file `{Runtime} (filename_without_extention : string)
    (fs : files) : M unit :=
  match dict_get fs (filename_without_extention ++ ".match") with
  | None => raise IOError
  | Some parser =>
      self <- read ;;
      read_sections parser (dict_keys (p self))
  end.

(** ** A runtime to run the model on

    An instance of [Runtime] for running the definitions on examples:
    [str] and [float] of CPython 2.7 on floats, the [sys.maxint] of a
    64-bit build of it on Linux, and an OpenCV that provides the ORB and
    BRISK classes with a few of their attributes.

    [str] rounds a float to twelve significant digits and drops the zeros
    at their end; it writes them in positional notation when the decimal
    point falls within at most four zeros before and twelve digits after
    their start, with an exponent of at least two digits otherwise. *)

(** The float nearest to [(-1)^s * m * 10^e] (ties to even), [m >= 0]. *)
Definition round_decimal (s : bool) (m e : Z) : float :=
  match m with
  | Zpos mp =>
      if (0 <=? e)%Z then
        SF2Prim (binary_normalize prec emax (Z.pos mp * 10 ^ e) 0 s)
      else
        match (10 ^ (- e))%Z with
        | Zpos d => SF2Prim (SFdiv prec emax (S754_finite s mp 0) (S754_finite false d 0))
        | _ => nan
        end
  | _ => if s then neg_zero else zero
  end.

(** The decimal digits of [z]. *)
Definition digits_of (z : Z) : string := NilZero.string_of_int (Z.to_int z).

(** [n] zeros. *)
Fixpoint zeros (n : nat) : string :=
  match n with O => "" | S n' => String "0" (zeros n') end.

(** [10^g <= num / den] for positive [num] and [den]. *)
Definition pow10_le (num den g : Z) : bool :=
  if (0 <=? g)%Z then (10 ^ g * den <=? num)%Z else (den <=? num * 10 ^ (- g))%Z.

(** [floor (log10 (num / den))] for positive [num] and [den]: the estimate
    from the binary logarithms is off by less than two. *)
Definition floor_log10 (num den : Z) : Z :=
  let g := ((Z.log2 num - Z.log2 den) * 1233 / 4096)%Z in
  match find (pow10_le num den) [g + 2; g + 1; g; g - 1; g - 2]%Z with
  | Some g' => g'
  | None => (g - 3)%Z
  end.

(** Drop the zeros at the end of the digits [d] of [d * 10^e]. *)
Fixpoint strip_zeros (fuel : nat) (d e : Z) : Z * Z :=
  match fuel with
  | O => (d, e)
  | S fuel' =>
      if ((d mod 10 =? 0) && negb (d =? 0))%Z then strip_zeros fuel' (d / 10)%Z (e + 1)%Z
      else (d, e)
  end.

(** The positive [num / den] rounded to [n] significant digits, to the
    nearest and to the even digit when two are as near: the digits [d] and
    the exponent [e] of [d * 10^e]. *)
Definition round_digits (n num den : Z) : Z * Z :=
  let k := (n - 1 - floor_log10 num den)%Z in
  let sn := if (0 <=? k)%Z then (num * 10 ^ k)%Z else num in
  let sd := if (0 <=? k)%Z then den else (den * 10 ^ (- k))%Z in
  let lo := (sn / sd)%Z in
  let below := (sn - lo * sd)%Z in
  let above := (sd - below)%Z in
  if ((below <? above) || ((below =? above) && Z.even lo))%Z then (lo, (- k)%Z)
  else ((lo + 1)%Z, (- k)%Z).

(** The twelve digits of the positive finite float [m * 2^e], without
    zeros at their end. *)
Definition twelve_digits (m : positive) (e : Z) : Z * Z :=
  let num := if (0 <=? e)%Z then (Z.pos m * 2 ^ e)%Z else Z.pos m in
  let den := if (0 <=? e)%Z then 1%Z else (2 ^ (- e))%Z in
  let '(d, e') := round_digits 12 num den in
  strip_zeros 400 d e'.

(** The text of the digits [d] of [d * 10^e], as ['%.12g'] lays them out,
    with [.0] after digits that have neither point nor exponent. *)
Definition format_digits (d e : Z) : string :=
  let ds := digits_of d in
  let n := Z.of_nat (String.length ds) in
  let decpt := (n + e)%Z in
  if ((decpt <=? -4) || (12 <? decpt))%Z then
    let ex := (decpt - 1)%Z in
    let mant :=
      match ds with
      | String c EmptyString => ds
      | String c r => String c (String "." r)
      | EmptyString => ds
      end in
    let exs := digits_of (Z.abs ex) in
    mant ++ "e" ++ (if (ex <? 0)%Z then "-" else "+")
         ++ (if (Z.abs ex <? 10)%Z then "0" else "") ++ exs
  else if (decpt <=? 0)%Z then "0." ++ zeros (Z.to_nat (- decpt)) ++ ds
  else if (n <=? decpt)%Z then ds ++ zeros (Z.to_nat (decpt - n)) ++ ".0"
  else substring 0 (Z.to_nat decpt) ds ++ "."
       ++ substring (Z.to_nat decpt) (Z.to_nat (n - decpt)) ds.

(** [str(x)], which is ['%s' % x]. *)
Definition py_str_float (x : float) : string :=
  match Prim2SF x with
  | S754_zero s => if s then "-0.0" else "0.0"
  | S754_infinity s => if s then "-inf" else "inf"
  | S754_nan => "nan"
  | S754_finite s m e =>
      let '(d, e') := twelve_digits m e in
      (if s then "-" else "") ++ format_digits d e'
  end.

(** White space that [float] skips at both ends of its argument, a byte
    string. *)
Definition is_space (c : ascii) : bool :=
  let n := nat_of_ascii c in
  ((9 <=? n)%nat && (n <=? 13)%nat) || (n =? 32)%nat.

(** [s.lstrip()] *)
Fixpoint lstrip (s : string) : string :=
  match s with
  | String c s' => if is_space c then lstrip s' else s
  | EmptyString => s
  end.

(** [s.rstrip()] *)
Fixpoint rstrip (s : string) : string :=
  match s with
  | String c s' =>
      match rstrip s' with
      | EmptyString => if is_space c then EmptyString else String c EmptyString
      | r => String c r
      end
  | EmptyString => s
  end.

(** The lower case of an ASCII letter. *)
Definition lower (c : ascii) : ascii :=
  let n := nat_of_ascii c in
  if (65 <=? n)%nat && (n <=? 90)%nat then ascii_of_nat (n + 32) else c.

(** [s.lower()] *)
Fixpoint lowercase (s : string) : string :=
  match s with
  | String c s' => String (lower c) (lowercase s')
  | EmptyString => s
  end.

(** The digits at the start of [s], possibly none, and the text left. *)
Fixpoint digit_part (s : string) : string * string :=
  match s with
  | String c s' =>
      if is_digit c then let '(d, r) := digit_part s' in (String c d, r)
      else (EmptyString, s)
  | EmptyString => (EmptyString, s)
  end.

(** The number that the digits [d] write. *)
Definition Z_of_digits (d : string) : Z :=
  match NilEmpty.uint_of_string d with
  | Some u => Z.of_uint u
  | None => 0%Z
  end.

(** The exponent part: [e] or [E], a sign, digits. *)
Definition exponent_part (s : string) : option (Z * string) :=
  match s with
  | String c s' =>
      if Ascii.eqb (lower c) "e" then
        let '(neg, s'') :=
          match s' with
          | String "-" t => (true, t)
          | String "+" t => (false, t)
          | _ => (false, s')
          end in
        match digit_part s'' with
        | (EmptyString, _) => None
        | (d, r) => Some (if neg then (- Z_of_digits d)%Z else Z_of_digits d, r)
        end
      else Some (0%Z, s)
  | EmptyString => Some (0%Z, s)
  end.

(** [float(s)]; [None] when it raises [ValueError]. *)
Definition py_float (s : string) : option float :=
  let s := rstrip (lstrip s) in
  let '(neg, s) :=
    match s with
    | String "-" t => (true, t)
    | String "+" t => (false, t)
    | _ => (false, s)
    end in
  let l := lowercase s in
  if String.eqb l "inf" || String.eqb l "infinity" then
    Some (if neg then neg_infinity else infinity)
  else if String.eqb l "nan" then Some nan
  else
    let '(ip, r) := digit_part s in
    let '(fp, r) :=
      match r with
      | String "." r' => digit_part r'
      | _ => (EmptyString, r)
      end in
    if (String.length ip + String.length fp =? 0)%nat then None
    else
      match exponent_part r with
      | Some (ex, EmptyString) =>
          let m := Z_of_digits (ip ++ fp) in
          let e := (ex - Z.of_nat (String.length fp))%Z in
          let top := (e + Z.of_nat (String.length ip + String.length fp))%Z in
          if (m =? 0)%Z then Some (if neg then neg_zero else zero)
          else if (400 <? top)%Z then Some (if neg then neg_infinity else infinity)
          else if (top <? -400)%Z then Some (if neg then neg_zero else zero)
          else Some (round_decimal neg m e)
      | _ => None
      end.

(** [dir] of the objects [cv2.ORB_create()] and [cv2.BRISK_create()],
    shortened, with the value each getter returns; the other names of the
    catalog are absent from this [cv2]. *)
Definition sample_cv2 (name : string) : result backend :=
  if String.eqb name "ORB_create" then
    Ok [ ("compute", Raise TypeError);
         ("detect", Raise TypeError);
         ("getDefaultName", Ok Other);
         ("getEdgeThreshold", Ok (Scalar (PInt 31)));
         ("getFirstLevel", Ok (Scalar (PInt 0)));
         ("getMaxFeatures", Ok (Scalar (PInt 500)));
         ("getScaleFactor", Ok (Scalar (PFloat 1.2000000476837158)));
         ("getWTA_K", Ok (Scalar (PInt 2)));
         ("setEdgeThreshold", Raise TypeError) ]
  else if String.eqb name "BRISK_create" then
    Ok [ ("compute", Raise TypeError);
         ("getDefaultName", Ok Other);
         ("getOctaves", Ok (Scalar (PInt 3)));
         ("getThreshold", Ok (Scalar (PInt 30))) ]
  else Raise AttributeError.

(** The runtime of the examples. *)
Definition sample_runtime : Runtime :=
  {| str_float := py_str_float;
     float_of_string := py_float;
     maxint := 9223372036854775807;
     cv2_create := sample_cv2 |}.

(** ** Examples to run the model on *)

(** [self.p[category][name].value = v], the edit of a value that the
    calibration and the synchronization with a backend make. *)
Definition edit_value (category name : string) (v : pyval) : M unit :=
  self <- read ;;
  params <- lift (getitem (p self) category) ;;
  q <- lift (getitem params name) ;;
  p_setitem category name
    {| value := v; delta := delta q; tolerance := tolerance q;
       range := range q; fixed := fixed q |}.

(** [CVEqualizer("hybrid")] with the settings nobody changed, on the
    runtime of the examples. *)
Definition hybrid_equalizer : CVEqualizer :=
  snd (@CVEqualizer_init sample_runtime Settings_default (Some "hybrid")).

(** The same after [set_backend("fdetect", "oldSURF")] and an edit of the
    value of [similarity]. *)
Definition tuned_equalizer : CVEqualizer :=
  snd ((@set_backend sample_runtime "fdetect" "oldSURF" ;;
        edit_value "find" "similarity" (PFloat 0.75)) hybrid_equalizer).

(** The same after [set_backend("fextract", "BRISK")]: no parameter is
    left with a float of more than twelve digits. *)
Definition brisk_equalizer : CVEqualizer :=
  snd (@set_backend sample_runtime "fextract" "BRISK" tuned_equalizer).

(** The tuned equalizer with the detection threshold edited to a negative
    value. *)
Definition negative_equalizer : CVEqualizer :=
  snd (edit_value "fdetect" "oldSURFdetect" (PInt (-5)) tuned_equalizer).

(** A match file whose section for the extractors has an option [bytes]. *)
Definition bytes_files : files :=
  [ ("brief.match",
     [ ("fextract",
        [ ("backend", "ORB");
          ("bytes",
           "<value='32' min='None' max='None' delta='1' tolerance='0.9' fixed='True'>") ]) ]) ].








(** * The synchronization, the desktop control and the settings *)

(** ** CVEqualizer.sync_backend_to_params

    The method is handed an object of OpenCV. It reads [dir(backend)] and
    [hasattr(backend, name)] and calls setters, [getattr(backend,
    name)(val)]: what these give is the interface [Backend], [call] being
    the object after the call or the exception of the setter. *)

Class Backend (object : Type) : Type := {
  dir : object -> list string;
  hasattr : object -> string -> bool;
  call : object -> string -> pyval -> result object
}.

(** [attribute.replace("get", "set")] *)
Fixpoint replace_get_set (s : string) : string :=
  match s with
  | String "g" (String "e" (String "t" r)) =>
      String "s" (String "e" (String "t" (replace_get_set r)))
  | String c r => String c (replace_get_set r)
  | EmptyString => EmptyString
  end.

(** The loop of [sync_backend_to_params] over [dir(backend)]. *)
Fixpoint sync_attributes {object} `{Backend object} (category : string)
    (attributes : list string) (backend : object) : M object :=
  match attributes with
  | [] => ret backend
  | attribute :: rest =>
      if negb (String.prefix "get" attribute) then sync_attributes category rest backend
      else
        let param := remove_get attribute in
        self <- read ;;
        params <- lift (getitem (p self) category) ;;
        if dict_mem params param then
          q <- lift (getitem params param) ;;
          let val := value q in
          let set_attribute := replace_get_set attribute in
          if negb (hasattr backend set_attribute) then
            sync_attributes category rest backend
          else
            backend' <- lift (call backend set_attribute val) ;;
            edit_value category param val ;;
            sync_attributes category rest backend'
        else sync_attributes category rest backend
  end.

(** [CVEqualizer.sync_backend_to_params(backend, category)] *)
Definition sync_backend_to_params {object} `{Backend object} (backend : object)
    (category : string) : M object :=
  skip <- (if String.eqb category "find" || String.eqb category "tmatch" then ret true
           else if String.eqb category "fdetect" then
             current <- get_backend category ;;
             ret (String.eqb current "oldSURF")
           else ret false) ;;
  if skip then ret backend
  else if String.eqb category "fmatch" then
    current <- get_backend category ;;
    if tuple_mem ["in-house-raw"; "in-house-region"] current then ret backend
    else ret backend
  else sync_attributes category (dir backend) backend.

(** An object to run the method on: it has the attributes that [dir]
    lists and keeps, in order, the calls of its setters with their
    arguments; no call fails. *)
Record recorder : Type := {
  names : list string;
  calls : list (string * pyval)
}.

Definition recorder_backend : Backend recorder :=
  {| dir := names;
     hasattr := fun o name => tuple_mem (names o) name;
     call := fun o name val =>
               Ok {| names := names o; calls := (calls o ++ [(name, val)])%list |} |}.

(** ** DCEqualizer and DCScreen

    The equalizer of the desktop control has attributes and methods with
    the names of those of [CVEqualizer]: the module [DC] holds them. Its
    method [sync_backend_to_params] connects to the screen of the backend
    and is left out. *)

(** What a parameter of the desktop control or a setting holds: a scalar,
    a text, or an object of another type (a Qemu monitor), which compares
    by identity. *)
Inductive pyany : Type :=
| Py (v : pyval)
| Text (s : string)
| Object (id : nat).

Module DC.

Record DCEqualizer : Type := {
  p : dict pyany;
  _current : option string
}.

Definition algorithms : list string := ["autopy"; "qemu"; "vncdotool"].

(** [self.p[name] = v] *)
Definition p_setitem (name : string) (v : pyany) (self : DCEqualizer) : DCEqualizer :=
  {| p := dict_set (p self) name v; _current := _current self |}.

(** [DCEqualizer._new_params(new)] *)
Definition _new_params (new : string) (self : DCEqualizer) : DCEqualizer :=
  let self := {| p := []; _current := _current self |} in
  if String.eqb new "autopy" then p_setitem "os_type" (Text "linux") self
  else if String.eqb new "qemu" then p_setitem "qemu_monitor" (Py PNone) self
  else if String.eqb new "vncdotool" then
    p_setitem "vnc_port" (Py (PInt 0)) (p_setitem "vnc_hostname" (Text "localhost") self)
  else self.

(** [DCEqualizer.configure_backend(name, *args)] *)
Definition configure_backend (name : string) (args : list pyany) (self : DCEqualizer)
    : DCEqualizer :=
  let self := {| p := p self; _current := Some name |} in
  let self := _new_params name self in
  if String.eqb name "vncdotool" then
    match args with
    | [a0; a1] => p_setitem "vnc_port" a1 (p_setitem "vnc_hostname" a0 self)
    | [a0] => p_setitem "vnc_port" a0 self
    | _ => self
    end
  else if String.eqb name "qemu" then
    match args with
    | [a0] => p_setitem "qemu_monitor" a0 self
    | _ => self
    end
  else self.

(** [DCEqualizer(backend)] *)
Definition DCEqualizer_init (backend : option string) : DCEqualizer :=
  let self := {| p := []; _current := None |} in
  match backend with
  | Some b => configure_backend b [] self
  | None => self
  end.

(** [DCEqualizer.get_backend()]: the name, or [None]. *)
Definition get_backend (self : DCEqualizer) : option string := _current self.

(** [DCScreen()] *)
Record DCScreen : Type := {
  backend : pyany;
  pointer : Z * Z;
  width : Z;
  height : Z;
  keymap : pyany;
  mousemap : pyany;
  modmap : pyany
}.

Definition DCScreen_init : DCScreen :=
  {| backend := Py PNone; pointer := (0, 0)%Z; width := 0; height := 0;
     keymap := Py PNone; mousemap := Py PNone; modmap := Py PNone |}.

End DC.

(** ** The settings

    The attributes of the class [Settings] are a name space from the
    attribute names to what they hold; each property is a method that
    returns the attribute when it is called with [None] and assigns it
    otherwise. The module [Static] holds these methods, the static
    properties of the metaclass. *)

Module Static.

Definition namespace : Type := dict pyany.

(** The attributes as the class statement leaves them ([logging.ERROR]
    is 40). *)
Definition initial : namespace :=
  [ ("_click_delay", Py (PFloat 0.1));
    ("_drag_delay", Py (PFloat 0.5));
    ("_drop_delay", Py (PFloat 0.5));
    ("_keys_delay", Py (PFloat 0.2));
    ("_type_delay", Py (PFloat 0.1));
    ("_rescan_speed_on_find", Py (PFloat 0.2));
    ("_screen_autoconnect", Py (PBool true));
    ("_preprocess_special_chars", Py (PBool true));
    ("_save_needle_on_error", Py (PBool true));
    ("_image_logging_level", Py (PInt 40));
    ("_image_logging_destination", Text "./imglog");
    ("_image_logging_step_width", Py (PInt 3));
    ("_image_quality", Py (PInt 3));
    ("_desktop_control_backend", Text "autopy");
    ("_find_image_backend", Text "hybrid");
    ("_template_match_backend", Text "ccoeff_normed");
    ("_feature_detect_backend", Text "ORB");
    ("_feature_extract_backend", Text "ORB");
    ("_feature_match_backend", Text "BruteForce-Hamming") ].

(** What a property returns and the name space it leaves. *)
Definition method : Type := namespace -> result pyany * namespace.

(** [return Settings.<attribute>] *)
Definition getattr (attribute : string) : method :=
  fun ns => (match dict_get ns attribute with
             | Some v => Ok v
             | None => Raise AttributeError
             end, ns).

(** [Settings.<attribute> = value]; the method then returns [None]. *)
Definition setattr (attribute : string) (value : pyany) : method :=
  fun ns => (Ok (Py PNone), dict_set ns attribute value).

(** [value == b] for a [bool] [b]: numbers compare by value. *)
Definition eq_bool (value : pyany) (b : bool) : bool :=
  match value with
  | Py v =>
      match py_le v (PBool b), py_le (PBool b) v with
      | Some x, Some y => x && y
      | _, _ => false
      end
  | _ => false
  end.

(** The methods without a check. *)
Definition plain_property (attribute : string) (value : pyany) : method :=
  match value with
  | Py PNone => getattr attribute
  | _ => setattr attribute value
  end.

(** The methods that check [value == True or value == False]. *)
Definition boolean_property (attribute : string) (value : pyany) : method :=
  match value with
  | Py PNone => getattr attribute
  | _ =>
      if eq_bool value true || eq_bool value false then setattr attribute value
      else fun ns => (Raise ValueError, ns)
  end.

Definition click_delay : pyany -> method := plain_property "_click_delay".
Definition delay_after_drag : pyany -> method := plain_property "_drag_delay".
Definition delay_before_drop : pyany -> method := plain_property "_drop_delay".
Definition delay_before_keys : pyany -> method := plain_property "_keys_delay".
Definition delay_between_keys : pyany -> method := plain_property "_type_delay".
Definition rescan_speed_on_find : pyany -> method :=
  plain_property "_rescan_speed_on_find".
Definition screen_autoconnect : pyany -> method :=
  boolean_property "_screen_autoconnect".
Definition preprocess_special_chars : pyany -> method :=
  boolean_property "_preprocess_special_chars".
Definition save_needle_on_error : pyany -> method :=
  boolean_property "_save_needle_on_error".
Definition image_logging_level : pyany -> method :=
  plain_property "_image_logging_level".
Definition image_logging_step_width : pyany -> method :=
  plain_property "_image_logging_step_width".
Definition image_quality : pyany -> method := plain_property "_image_quality".
Definition image_logging_destination : pyany -> method :=
  plain_property "_image_logging_destination".

(** [value not in ["autopy", "qemu", "vncdotool"]] *)
Definition desktop_control_backend (value : pyany) : method :=
  match value with
  | Py PNone => getattr "_desktop_control_backend"
  | _ =>
      if negb (match value with
               | Text s => tuple_mem ["autopy"; "qemu"; "vncdotool"] s
               | _ => false
               end)
      then fun ns => (Raise ValueError, ns)
      else setattr "_desktop_control_backend" value
  end.

Definition find_image_backend : pyany -> method := plain_property "_find_image_backend".
Definition template_match_backend : pyany -> method :=
  plain_property "_template_match_backend".
Definition feature_detect_backend : pyany -> method :=
  plain_property "_feature_detect_backend".
Definition feature_extract_backend : pyany -> method :=
  plain_property "_feature_extract_backend".
Definition feature_match_backend : pyany -> method :=
  plain_property "_feature_match_backend".

End Static.

(** * Notions used in the statements *)

(** The [delta] and [tolerance] that the constructor keeps for a value. *)
Definition forced (v d t : pyval) : pyval * pyval :=
  match v with
  | PBool _ => (PFloat 0.0, PFloat 1.0)
  | PInt _ => (PInt 1, PFloat 0.9)
  | _ => (d, t)
  end.

(** The equalizer [self] after [self.p[category] = params]. *)
Definition with_params (self : CVEqualizer) (category : string)
    (params : dict CVParameter) : CVEqualizer :=
  {| p := dict_set (p self) category params; _current := _current self |}.

(** The equalizer [self] after [self._current[category] = i]. *)
Definition with_current (self : CVEqualizer) (category : string) (i : nat)
    : CVEqualizer :=
  {| p := p self; _current := dict_set (_current self) category i |}.

(** Every parameter of the mapping is excluded from calibration. *)
Definition all_fixed (params : dict CVParameter) : Prop :=
  forall n q, In (n, q) params -> fixed q = PBool true.

(** The method [m] reads and writes the parameters of [category] only, in
    the same way whatever the rest of the equalizer is, and keeps them all
    fixed. *)
Definition frames {A} (category : string) (m : M A) : Prop :=
  forall ps, all_fixed ps ->
    exists r ps', all_fixed ps' /\
      forall self, m (with_params self category ps) = (r, with_params self category ps').

(** [self.algorithms[full_names[category]]] *)
Definition catalog (category : string) : option (list string) :=
  match dict_get full_names category with
  | Some name => dict_get algorithms name
  | None => None
  end.

(** Every character of [s] is in the class. *)
Fixpoint all_in (cls : ascii -> bool) (s : string) : bool :=
  match s with
  | EmptyString => true
  | String c s' => cls c && all_in cls s'
  end.

(** The text [t] is empty or starts outside of the class: a run of the
    class that reaches [t] ends there. *)
Definition stops (cls : ascii -> bool) (t : string) : Prop :=
  match t with
  | EmptyString => True
  | String c _ => cls c = false
  end.

(** The continuation [k] fails on every proper suffix of [s]. *)
Fixpoint later_none {A} (k : string -> option A) (s : string) : Prop :=
  match s with
  | EmptyString => True
  | String _ s' => k s' = None /\ later_none k s'
  end.

(** The literal [l] starts at some position of [s]. *)
Fixpoint occurs (l s : string) : bool :=
  match strip_prefix l s with
  | Some _ => true
  | None =>
      match s with
      | EmptyString => false
      | String _ s' => occurs l s'
      end
  end.

(** The characters of a field other than the value: no quote, no space. *)
Definition cls_field (c : ascii) : bool :=
  negb (Ascii.eqb c "'") && negb (Ascii.eqb c " ").

(** A float whose text [from_string] takes for a float and [float] reads
    back as the same float. *)
Definition reads_back `{Runtime} (x : float) : Prop :=
  all_in cls_dot (str_float x) = true
  /\ matches float_pattern (str_float x) = true
  /\ matches int_pattern (str_float x) = false
  /\ float_of_string (str_float x) = Some x.

(** Moreover the text is made of digits and dots only. *)
Definition plain `{Runtime} (x : float) : Prop :=
  reads_back x /\ all_in cls_digit_dot (str_float x) = true.

(** What the pattern and the loop of [from_string] accept in each field.
    An integer is written with digits only and read as what it is: an
    [int] up to [sys.maxint], a [long] beyond. *)
Definition int_ok `{Runtime} (z : Z) : Prop := (0 <= z <= maxint)%Z.

Definition long_ok `{Runtime} (z : Z) : Prop := (0 <= z)%Z /\ (maxint < z)%Z.

(** The value: any text on one line that the loop reads. *)
Definition value_ok `{Runtime} (v : pyval) : Prop :=
  match v with
  | PNone | PBool _ => True
  | PInt z => int_ok z
  | PFloat x => reads_back x
  | PLong z => long_ok z
  end.

(** A bound: the class of the pattern has no letter of [True] or [False]. *)
Definition bound_ok `{Runtime} (v : pyval) : Prop :=
  match v with
  | PNone => True
  | PBool _ => False
  | PInt z => int_ok z
  | PFloat x => plain x
  | PLong z => long_ok z
  end.

(** [delta] and [tolerance]: digits and dots only. *)
Definition step_ok `{Runtime} (v : pyval) : Prop :=
  match v with
  | PNone | PBool _ => False
  | PInt z => int_ok z
  | PFloat x => plain x
  | PLong z => long_ok z
  end.

(** [fixed]: letters, digits and the underscore only. *)
Definition flag_ok `{Runtime} (v : pyval) : Prop :=
  match v with
  | PNone | PBool _ => True
  | PInt z => int_ok z
  | PFloat _ => False
  | PLong z => long_ok z
  end.

(** The text of [v] is not empty, lies in the class and is read as [v]. *)
Definition text_ok `{Runtime} (cls : ascii -> bool) (v : pyval) : Prop :=
  py_str v <> "" /\ all_in cls (py_str v) = true /\ parse_arg (py_str v) = Ok v.

(** The section that [to_match_file] writes for a category with the
    algorithm [a] and the parameters [params]. *)
Definition section_of `{Runtime} (a : string) (params : dict CVParameter)
    : dict string :=
  ("backend", a) :: map (fun '(n, q) => (n, CVParameter_repr q)) params.

(** Parameters that a match file can hold: distinct names, none of them
    [backend], and texts that [from_string] reads. *)
Definition storable `{Runtime} (params : dict CVParameter) : Prop :=
  NoDup (dict_keys params)
  /\ ~ In "backend" (dict_keys params)
  /\ forall n q, In (n, q) params -> is_ok (from_string (CVParameter_repr q)) = true.

(** Parameters that are read back from their texts as they are. *)
Definition faithful `{Runtime} (params : dict CVParameter) : Prop :=
  forall n q, In (n, q) params -> from_string (CVParameter_repr q) = Ok q.

(** The parameter that a load makes of a stored parameter. *)
Definition decoded `{Runtime} (q : CVParameter) : CVParameter :=
  match from_string (CVParameter_repr q) with
  | Ok q' => q'
  | Raise _ => q
  end.

(** The equalizers [s] and [s'] hold the same for the category [c]. *)
Definition same_at (c : string) (s s' : CVEqualizer) : Prop :=
  dict_get (_current s') c = dict_get (_current s) c
  /\ dict_get (p s') c = dict_get (p s) c.

(** The keys of the registry, in the order in which [__init__] writes
    them. *)
Definition categories : list string :=
  ["find"; "tmatch"; "fextract"; "fmatch"; "fdetect"].

(** The category [c] is in the file with the algorithm [a] and the
    parameters [params], and the equalizer [s] can take it. *)
Definition ready `{Runtime} (parser : matchfile) (c a : string)
    (params : dict CVParameter) (s : CVEqualizer) : Prop :=
  dict_get parser c = Some (section_of a params)
  /\ storable params
  /\ exists t cur ps,
       catalog c = Some t /\ fst (get_backend c s) = Ok cur
       /\ dict_get (p s) c = Some ps
       /\ (a = cur \/ (tuple_mem t a = true
                       /\ forall self, fst (set_backend c a self) = Ok tt)).

(** The equalizer [s] has the algorithm [a] for [c] and each parameter of
    [params] in its decoded form. *)
Definition loaded `{Runtime} (c a : string) (params : dict CVParameter)
    (s : CVEqualizer) : Prop :=
  fst (get_backend c s) = Ok a
  /\ exists ps', dict_get (p s) c = Some ps'
                 /\ forall n q, In (n, q) params -> dict_get ps' n = Some (decoded q).

(** ** Notions of the further properties *)

(** The value lies within the bounds that are given. *)
Definition within (v mn mx : pyval) : Prop :=
  (mn <> PNone -> py_ge v mn = Some true) /\ (mx <> PNone -> py_le v mx = Some true).


(** The argument that [configure_backend] has for a category. *)
Definition configured
    (find_image template_match feature_detect feature_extract feature_match
     : option string) (category : string) : option string :=
  if String.eqb category "find" then find_image
  else if String.eqb category "tmatch" then template_match
  else if String.eqb category "fdetect" then feature_detect
  else if String.eqb category "fextract" then feature_extract
  else if String.eqb category "fmatch" then feature_match
  else None.

(** The category [c] of [s] has the algorithm [a] and the parameters that
    [_new_params] makes for it. *)
Definition selected `{Runtime} (c a : string) (s : CVEqualizer) : Prop :=
  fst (get_backend c s) = Ok a
  /\ dict_get (p s) c = dict_get (p (snd (_new_params c a CVEqualizer_empty))) c.

(** The keys of the registry of [s] are the five categories. *)
Definition has_categories (s : CVEqualizer) : Prop :=
  forall c, In c (dict_keys (p s)) <-> In c categories.

(** The method [m] leaves the keys of a registry that has the five
    categories as they are. *)
Definition keeps_categories {A} (m : M A) : Prop :=
  forall s, (forall c, In c categories -> In c (dict_keys (p s))) ->
            dict_keys (p (snd (m s))) = dict_keys (p s).

(** What a parameter is apart from its mark for the calibration. *)
Definition unmarked (q : CVParameter) : pyval * pyval * pyval * (pyval * pyval) :=
  (value q, delta q, tolerance q, range q).

(** The algorithm of a category that has one. *)
Definition backend_name (self : CVEqualizer) (category : string) : string :=
  match fst (get_backend category self) with
  | Ok a => a
  | Raise _ => ""
  end.

(** The sections of the match file of an equalizer: one per category in
    the order of the registry, the algorithm first, then the parameters in
    their order. *)
Definition sections_of `{Runtime} (self : CVEqualizer) : matchfile :=
  map (fun '(c, params) => (c, section_of (backend_name self c) params)) (p self).

(** The category [c] of [s] holds what the section says: its algorithm
    is the one under [backend] and each other option is a parameter, read
    by [from_string]. *)
Definition holds_section `{Runtime} (section : dict string) (c : string)
    (s : CVEqualizer) : Prop :=
  (exists a, parser_get section "backend" = Ok a /\ fst (get_backend c s) = Ok a)
  /\ forall o raw,
       o <> "backend" -> dict_get section o = Some raw ->
       exists params q,
         dict_get (p s) c = Some params /\ from_string raw = Ok q
         /\ dict_get params o = Some q.

(** The bounds and the [delta] that [_new_params] passes to the
    constructor for a parameter it finds on the OpenCV object. *)
Definition refinement (param : string) : pyval * pyval * pyval :=
  if String.eqb param "firstLevel" then (PInt 0, PInt 100, default_delta)
  else if String.eqb param "nFeatures" then (PNone, PNone, PInt 100)
  else if String.eqb param "WTA_K" then (PInt 2, PInt 4, default_delta)
  else if String.eqb param "scaleFactor" then (PFloat 1.01, PFloat 2.0, default_delta)
  else (PNone, PNone, default_delta).

(** The parameter that [_new_params] makes of the value [v] of the getter
    [g]. *)
Definition introspected (g : string) (v : pyval) : result CVParameter :=
  let '(lo, hi, d) := refinement (remove_get g) in
  CVParameter_init v lo hi d default_tolerance default_fixed.

(** The getter [g] with the value [v] is the only getter of its
    parameter among the attributes. *)
Definition only_getter (attrs : backend) (g : string) (v : pyval) : Prop :=
  forall g' call, In (g', call) attrs -> String.prefix "get" g' = true ->
                  remove_get g' = remove_get g -> (g', call) = (g, Ok (Scalar v)).

(** The settings that [CVEqualizer.__init__] reads, when they are
    texts. *)
Definition settings_of (ns : Static.namespace) : option Settings :=
  match dict_get ns "_template_match_backend", dict_get ns "_feature_detect_backend",
        dict_get ns "_feature_extract_backend", dict_get ns "_feature_match_backend" with
  | Some (Text tm), Some (Text fd), Some (Text fe), Some (Text fm) =>
      Some {| template_match_backend := tm; feature_detect_backend := fd;
              feature_extract_backend := fe; feature_match_backend := fm |}
  | _, _, _, _ => None
  end.

(** The settings of the algorithms with their attributes and the
    categories they are for. *)
Definition backend_settings : list ((pyany -> Static.method) * string * string) :=
  [ (Static.template_match_backend, "_template_match_backend", "tmatch");
    (Static.feature_detect_backend, "_feature_detect_backend", "fdetect");
    (Static.feature_extract_backend, "_feature_extract_backend", "fextract");
    (Static.feature_match_backend, "_feature_match_backend", "fmatch") ].

(** The boolean settings with their attributes. *)
Definition boolean_settings : list ((pyany -> Static.method) * string) :=
  [ (Static.screen_autoconnect, "_screen_autoconnect");
    (Static.preprocess_special_chars, "_preprocess_special_chars");
    (Static.save_needle_on_error, "_save_needle_on_error") ].

(** The calls of setters that [sync_backend_to_params] makes for the
    attributes [attributes] of an object whose attributes are [names]: for
    each getter that names a parameter and has a setter, the setter with
    the value of the parameter. *)
Definition pushes (params : dict CVParameter) (names attributes : list string)
    : list (string * pyval) :=
  flat_map (fun attribute =>
              if String.prefix "get" attribute then
                match dict_get params (remove_get attribute) with
                | Some q =>
                    if tuple_mem names (replace_get_set attribute)
                    then [(replace_get_set attribute, value q)]
                    else []
                | None => []
                end
              else [])
           attributes.

(** * Properties *)

(** ** Dictionaries *)

Section DictFacts.
Context {V : Type}.
Implicit Types (d : dict V) (k : string) (v : V).

Lemma dict_get_set_same d k v : dict_get (dict_set d k v) k = Some v.
Proof.
  induction d as [|[k' v'] d IH]; simpl.
  - now rewrite String.eqb_refl.
  - destruct (String.eqb k' k) eqn:E; simpl; rewrite E; auto.
Qed.

Lemma dict_get_set_other d k k' v :
  k' <> k -> dict_get (dict_set d k v) k' = dict_get d k'.
Proof.
  intros N. induction d as [|[k0 v0] d IH]; simpl.
  - destruct (String.eqb_spec k k'); congruence.
  - destruct (String.eqb_spec k0 k); simpl.
    + subst. destruct (String.eqb_spec k k'); congruence.
    + now rewrite IH.
Qed.

Lemma dict_set_set d k v v' : dict_set (dict_set d k v) k v' = dict_set d k v'.
Proof.
  induction d as [|[k0 v0] d IH]; simpl.
  - now rewrite String.eqb_refl.
  - destruct (String.eqb k0 k) eqn:E; simpl; rewrite E; congruence.
Qed.

Lemma dict_keys_set_present d k v :
  In k (dict_keys d) -> dict_keys (dict_set d k v) = dict_keys d.
Proof.
  induction d as [|[k0 v0] d IH]; simpl; [tauto|].
  intros [->|I].
  - now rewrite String.eqb_refl.
  - destruct (String.eqb k0 k); simpl; [reflexivity|]. now rewrite IH.
Qed.

Lemma dict_get_In_keys d k v : dict_get d k = Some v -> In k (dict_keys d).
Proof.
  induction d as [|[k0 v0] d IH]; simpl; [discriminate|].
  destruct (String.eqb_spec k0 k); auto.
Qed.

Lemma dict_get_not_In d k : ~ In k (dict_keys d) -> dict_get d k = None.
Proof.
  induction d as [|[k0 v0] d IH]; simpl; [reflexivity|].
  intros N. destruct (String.eqb_spec k0 k); [tauto|]. apply IH. tauto.
Qed.

Lemma dict_keys_In_get d k : In k (dict_keys d) -> exists v, dict_get d k = Some v.
Proof.
  induction d as [|[k0 v0] d IH]; simpl; [tauto|].
  intros I. destruct (String.eqb_spec k0 k); [eauto|].
  apply IH. destruct I; congruence.
Qed.

Lemma dict_get_In d k v : dict_get d k = Some v -> In (k, v) d.
Proof.
  induction d as [|[k0 v0] d IH]; simpl; [discriminate|].
  destruct (String.eqb_spec k0 k); [intros [= ->]; subst; auto | auto].
Qed.

Lemma dict_In_get d k v : NoDup (dict_keys d) -> In (k, v) d -> dict_get d k = Some v.
Proof.
  induction d as [|[k0 v0] d IH]; simpl; [tauto|].
  intros ND [[= -> ->]|I].
  - now rewrite String.eqb_refl.
  - inversion ND as [|? ? N ND']; subst.
    destruct (String.eqb_spec k0 k); [|auto].
    subst. exfalso. apply N. change (In (fst (k, v)) (map fst d)). now apply in_map.
Qed.

Lemma dict_mem_true d k : dict_mem d k = true <-> In k (dict_keys d).
Proof.
  unfold dict_mem. split.
  - destruct (dict_get d k) eqn:E; [|discriminate]. intros _. eapply dict_get_In_keys; eauto.
  - intros I. destruct (dict_keys_In_get _ _ I) as [v ->]. reflexivity.
Qed.
End DictFacts.

Lemma tuple_mem_In t x : tuple_mem t x = true <-> In x t.
Proof.
  induction t as [|y t IH]; simpl; [split; [discriminate|tauto]|].
  rewrite orb_true_iff, IH, String.eqb_eq. tauto.
Qed.

Lemma tuple_index_getitem t x :
  tuple_mem t x = true ->
  exists i, tuple_index t x = Some i /\ tuple_getitem t i = Ok x.
Proof.
  induction t as [|y t IH]; simpl; [discriminate|].
  destruct (String.eqb_spec y x) as [->|N]; simpl.
  - intros _. exists O. split; reflexivity.
  - intros I. destruct (IH I) as (i & -> & G). exists (S i). split; [reflexivity|exact G].
Qed.

(** ** The constructor *)

Lemma CVParameter_init_Ok v mn mx d t f q :
  CVParameter_init v mn mx d t f = Ok q ->
  q = {| value := v; delta := fst (forced v d t); tolerance := snd (forced v d t);
         range := (mn, mx); fixed := f |}.
Proof.
  unfold CVParameter_init, forced.
  destruct v; simpl;
    (destruct (if is_not_None mn then _ else _); [|discriminate]);
    (destruct (if is_not_None mx then _ else _); [|discriminate]);
    intros [= <-]; reflexivity.
Qed.

Lemma CVParameter_init_fixed v mn mx d t f q :
  CVParameter_init v mn mx d t f = Ok q -> fixed q = f.
Proof. intros E. apply CVParameter_init_Ok in E. now subst. Qed.

Lemma from_string_init `{Runtime} raw q :
  from_string raw = Ok q ->
  exists v mn mx d t f, CVParameter_init v mn mx d t f = Ok q.
Proof.
  unfold from_string.
  destruct (re_match parameter_pattern raw) as [gs|]; [|discriminate].
  destruct (parse_args gs) as [[|a1 [|a2 [|a3 [|a4 [|a5 [|a6 [|a7 l]]]]]]]|];
    try discriminate.
  intros E. now exists a1, a2, a3, a4, a5, a6.
Qed.


(** What [parse_arg] makes of a text that it takes for an integer. *)
Lemma parse_arg_integer `{Runtime} g z :
  parse_arg g = Ok (PInt z) \/ parse_arg g = Ok (PLong z) ->
  py_int g = Some z
  /\ parse_arg g = Ok (if (z <=? maxint)%Z then PInt z else PLong z).
Proof.
  unfold parse_arg.
  destruct (String.eqb g "None"); [intros [|]; discriminate|].
  destruct (String.eqb g "True"); [intros [|]; discriminate|].
  destruct (String.eqb g "False"); [intros [|]; discriminate|].
  destruct (matches int_pattern g).
  - destruct (py_int g) as [z'|]; [|intros [|]; discriminate].
    destruct (z' <=? maxint)%Z eqn:L; intros [[= <-]|[= <-]];
      rewrite ?L; auto.
  - destruct (matches float_pattern g); [|intros [|]; discriminate].
    destruct (float_of_string g); intros [|]; discriminate.
Qed.

Lemma parse_args_In `{Runtime} groups : forall vs v,
  parse_args groups = Ok vs -> In v vs -> exists g, In g groups /\ parse_arg g = Ok v.
Proof.
  induction groups as [|g groups IH]; cbn [parse_args]; intros vs v.
  - intros [= <-] [].
  - destruct (parse_arg g) as [v0|] eqn:E0; [|discriminate].
    destruct (parse_args groups) as [vs0|]; [|discriminate].
    intros [= <-] [<-|I].
    + exists g. split; [now left|exact E0].
    + destruct (IH vs0 v eq_refl I) as (g' & I' & E'). exists g'. split; [now right|exact E'].
Qed.

Lemma from_string_value `{Runtime} raw q :
  from_string raw = Ok q -> exists g, parse_arg g = Ok (value q).
Proof.
  unfold from_string.
  destruct (re_match parameter_pattern raw) as [gs|]; [|discriminate].
  destruct (parse_args gs) as [vs|] eqn:Ep; [|discriminate].
  destruct vs as [|a1 [|a2 [|a3 [|a4 [|a5 [|a6 [|a7 l]]]]]]]; try discriminate.
  intros E. pose proof (CVParameter_init_Ok _ _ _ _ _ _ _ E) as ->. cbn [value].
  destruct (parse_args_In gs _ a1 Ep (or_introl eq_refl)) as (g & _ & Eg). eauto.
Qed.

(** C7, as the code has it. A parameter that the constructor or
    [from_string] returns has, when its value is a [bool], [delta = 0.0]
    and [tolerance = 1.0] (in Python [0.0 == 0] and [1.0 == 1]), and when
    its value is of the type [int], [delta = 1] and [tolerance = 0.9],
    whatever [delta] and [tolerance] the caller passed or the text held.
    The value that [from_string] makes of digits is of the type [int] when
    the number is at most [sys.maxint]: a [long] that it returns is above
    it. A [long] that the constructor is given keeps the [delta] and the
    [tolerance] that come with it. *)
Theorem forced_delta_tolerance `{Runtime} v mn mx d t f raw q :
  CVParameter_init v mn mx d t f = Ok q \/ from_string raw = Ok q ->
  (forall b, value q = PBool b -> delta q = PFloat 0.0 /\ tolerance q = PFloat 1.0)
  /\ (forall z, value q = PInt z -> delta q = PInt 1 /\ tolerance q = PFloat 0.9)
  /\ (forall z, from_string raw = Ok q -> value q = PLong z -> (maxint < z)%Z)
  /\ (forall z, CVParameter_init v mn mx d t f = Ok q -> value q = PLong z ->
                delta q = d /\ tolerance q = t).
Proof.
  intros E.
  assert (exists v mn mx d t f, CVParameter_init v mn mx d t f = Ok q) as I.
  { destruct E as [E|E]; [now exists v, mn, mx, d, t, f | eapply from_string_init; eauto]. }
  destruct I as (v' & mn' & mx' & d' & t' & f' & E').
  apply CVParameter_init_Ok in E'.
  split; [|split; [|split]].
  - subst q. simpl. intros ? ->; simpl; split; reflexivity.
  - subst q. simpl. intros ? ->; simpl; split; reflexivity.
  - intros z Es Ev. destruct (from_string_value raw q Es) as [g Eg].
    rewrite Ev in Eg.
    destruct (parse_arg_integer g z (or_intror Eg)) as [_ Eg'].
    rewrite Eg in Eg'. apply Z.ltb_lt. rewrite Z.ltb_antisym.
    destruct (z <=? maxint)%Z; [discriminate|reflexivity].
  - clear E E'. intros z Ei. apply CVParameter_init_Ok in Ei. subst q. simpl.
    intros ->. split; reflexivity.
Qed.

(** ** Running the methods of the equalizer

    The statements below follow one category through a method. *)

Lemma with_params_twice self c ps ps' :
  with_params (with_params self c ps) c ps' = with_params self c ps'.
Proof. unfold with_params; simpl. now rewrite dict_set_set. Qed.

Lemma with_params_get self c ps : dict_get (p (with_params self c ps)) c = Some ps.
Proof. apply dict_get_set_same. Qed.

Lemma with_params_get_other self c c' ps :
  c' <> c -> dict_get (p (with_params self c ps)) c' = dict_get (p self) c'.
Proof. intros N. now apply dict_get_set_other. Qed.

Lemma all_fixed_nil : all_fixed [].
Proof. intros n q []. Qed.

Lemma In_dict_set {V} (d : dict V) k v k' v' :
  In (k', v') (dict_set d k v) -> (k', v') = (k, v) \/ In (k', v') d.
Proof.
  induction d as [|[k0 v0] d IH]; simpl.
  - intros [E|[]]; auto.
  - destruct (String.eqb_spec k0 k); simpl.
    + subst. intros [E|I]; auto.
    + intros [E|I]; auto. destruct (IH I); auto.
Qed.

Lemma all_fixed_set ps n q :
  all_fixed ps -> fixed q = PBool true -> all_fixed (dict_set ps n q).
Proof.
  intros A F n' q' I. apply In_dict_set in I. destruct I as [[= -> ->]|I]; eauto.
Qed.

Lemma p_reset_run c self : p_reset c self = (Ok tt, with_params self c []).
Proof. reflexivity. Qed.

Lemma p_setitem_run c n q self ps :
  p_setitem c n q (with_params self c ps) = (Ok tt, with_params self c (dict_set ps n q)).
Proof.
  unfold p_setitem, bind, read, lift, write, getitem.
  rewrite with_params_get. unfold with_params at 2 3. simpl.
  now rewrite dict_set_set.
Qed.

Lemma frames_ret {A} c (a : A) : frames c (ret a).
Proof. intros ps F. exists (Ok a), ps. split; [exact F|reflexivity]. Qed.

Lemma frames_raise {A} c e : frames c (@raise A e).
Proof. intros ps F. exists (Raise e), ps. split; [exact F|reflexivity]. Qed.

Lemma frames_lift {A} c (r : result A) : frames c (lift r).
Proof. intros ps F. exists r, ps. split; [exact F|reflexivity]. Qed.

Lemma frames_bind {A B} c (m : M A) (k : A -> M B) :
  frames c m -> (forall a, frames c (k a)) -> frames c (bind m k).
Proof.
  intros Fm Fk ps F. destruct (Fm ps F) as (r & ps1 & F1 & E1).
  destruct r as [a|e].
  - destruct (Fk a ps1 F1) as (r2 & ps2 & F2 & E2).
    exists r2, ps2. split; [exact F2|]. intros self. unfold bind. now rewrite E1, E2.
  - exists (Raise e), ps1. split; [exact F1|]. intros self. unfold bind. now rewrite E1.
Qed.

Lemma frames_p_setitem c n q : fixed q = PBool true -> frames c (p_setitem c n q).
Proof.
  intros Fq ps F. exists (Ok tt), (dict_set ps n q).
  split; [now apply all_fixed_set|]. intros self. apply p_setitem_run.
Qed.

Lemma frames_p_new c n r :
  (forall q, r = Ok q -> fixed q = PBool true) -> frames c (p_new c n r).
Proof.
  intros Hr ps F. destruct r as [q|e].
  - exists (Ok tt), (dict_set ps n q). split.
    + apply all_fixed_set; auto.
    + intros self. unfold p_new, bind, lift. apply p_setitem_run.
  - exists (Raise e), ps. split; [exact F|reflexivity].
Qed.

Lemma frames_p_new_init c n v mn mx d t :
  frames c (p_new c n (CVParameter_init v mn mx d t default_fixed)).
Proof. apply frames_p_new. intros q E. now apply CVParameter_init_fixed in E. Qed.

Create HintDb frames.
#[local] Hint Resolve frames_ret frames_raise frames_lift frames_p_new_init : frames.
#[local] Hint Extern 1 (frames _ (p_new _ _ (CVParameter1 _))) =>
  unfold CVParameter1 : frames.
#[local] Hint Extern 1 (frames _ (p_new _ _ (CVParameter3 _ _ _))) =>
  unfold CVParameter3 : frames.
#[local] Hint Extern 1 (frames _ (p_new _ _ (CVParameter4 _ _ _ _))) =>
  unfold CVParameter4 : frames.
#[local] Hint Extern 1 (frames _ (p_new _ _ (CVParameter5 _ _ _ _ _))) =>
  unfold CVParameter5 : frames.
#[local] Hint Extern 2 (frames _ (bind _ _)) =>
  apply frames_bind; [|intros ?] : frames.
#[local] Hint Extern 2 (frames _ (if ?b then _ else _)) => destruct b : frames.

Lemma frames_examine c attributes : frames c (examine c attributes).
Proof.
  induction attributes as [|[attribute call] rest IH]; simpl.
  - apply frames_ret.
  - destruct (negb (String.prefix "get" attribute)); [exact IH|].
    apply frames_bind; [apply frames_lift|]. intros [val|]; [|exact IH].
    destruct (negb (is_scalar val)); [exact IH|].
    apply frames_bind; [|intros _; exact IH].
    repeat match goal with
           | |- frames _ (if ?b then _ else _) => destruct b
           end; apply frames_p_new_init.
Qed.

Lemma frames_new_params_body `{Runtime} c new :
  exists body, (forall self, _new_params c new self = body (with_params self c []))
               /\ frames c body.
Proof.
  eexists. split; [intros self; unfold _new_params; unfold bind at 1;
                   rewrite p_reset_run; reflexivity|].
  pose proof (frames_examine c) as Hex.
  repeat match goal with
         | |- frames _ (if ?b then _ else _) => destruct b
         | |- frames _ (bind _ _) => apply frames_bind; [|intros ?]
         | |- frames _ (examine _ _) => apply Hex
         | |- _ => solve [auto with frames]
         end.
Qed.

(** [_new_params] replaces the parameters of the category by a mapping
    that does not depend on the equalizer it runs on, nor does its
    outcome; all the parameters it creates are fixed. *)
Lemma new_params_run `{Runtime} c new :
  exists r ps, all_fixed ps /\
    forall self, _new_params c new self = (r, with_params self c ps).
Proof.
  destruct (frames_new_params_body c new) as (body & E & F).
  destruct (F [] all_fixed_nil) as (r & ps & Fps & Eb).
  exists r, ps. split; [exact Fps|]. intros self. now rewrite E, Eb.
Qed.

Lemma new_params_from_empty `{Runtime} c new r0 s0 ps0 :
  _new_params c new CVEqualizer_empty = (r0, s0) ->
  dict_get (p s0) c = Some ps0 ->
  forall self, _new_params c new self = (r0, with_params self c ps0).
Proof.
  intros E G self. destruct (new_params_run c new) as (r & ps & _ & Run).
  rewrite Run in E. injection E as <- <-.
  rewrite with_params_get in G. injection G as <-. apply Run.
Qed.

Lemma set_backend_run `{Runtime} c t a :
  catalog c = Some t -> tuple_mem t a = true ->
  exists r ps i,
    all_fixed ps /\ tuple_index t a = Some i /\ tuple_getitem t i = Ok a /\
    (forall self, _new_params c a self = (r, with_params self c ps)) /\
    forall self,
      set_backend c a self =
      match r with
      | Ok _ => (Ok tt, with_current (with_params self c ps) c i)
      | Raise e => (Raise e, with_params self c ps)
      end.
Proof.
  unfold catalog.
  destruct (dict_get full_names c) as [name|] eqn:En; [|discriminate].
  intros C I.
  destruct (new_params_run c a) as (r & ps & F & Run).
  destruct (tuple_index_getitem t a I) as (i & Ei & Gi).
  exists r, ps, i. repeat split; auto.
  intros self. unfold set_backend, bind, lift, getitem.
  rewrite En, C, I. simpl. rewrite Run, Ei. destruct r; reflexivity.
Qed.

Lemma get_backend_with_current c t a i self :
  catalog c = Some t -> tuple_getitem t i = Ok a ->
  get_backend c (with_current self c i) = (Ok a, with_current self c i).
Proof.
  unfold catalog.
  destruct (dict_get full_names c) as [name|] eqn:En; [|discriminate].
  intros C G.
  unfold get_backend, bind, read, lift, getitem, with_current. cbn [_current].
  rewrite dict_get_set_same, En, C, G. reflexivity.
Qed.

Lemma closed_form_new_params `{Runtime} c t a :
  catalog c = Some t -> tuple_mem t a = true ->
  In c ["find"; "tmatch"; "fmatch"] \/ a = "oldSURF" ->
  fst (_new_params c a CVEqualizer_empty) = Ok tt.
Proof.
  intros C I Hc. apply tuple_mem_In in I.
  assert (In c ["find"; "tmatch"; "fmatch"; "fdetect"; "fextract"]) as Ic.
  { destruct (dict_get full_names c) eqn:E; unfold catalog in C; rewrite E in C;
      [|discriminate].
    apply dict_get_In_keys in E. simpl in E. simpl. tauto. }
  simpl in Ic, Hc.
  repeat match goal with
         | D : _ \/ _ |- _ => destruct D
         | D : False |- _ => destruct D
         end; subst; try discriminate;
    try (injection C as <-; simpl in I;
         repeat match goal with
                | D : _ \/ _ |- _ => destruct D
                | D : False |- _ => destruct D
                end; subst; try discriminate; reflexivity).
Qed.

(** C4. Selecting an algorithm [a] of the catalog of a category [c]
    replaces the parameters of [c] by a mapping [defaults] that is the same
    from every equalizer, so nothing of an earlier edit or of the
    parameters of another algorithm is carried over, also when [a] was
    selected already; the outcome [r] is the same too, and it is a success
    for the categories whose defaults are written out in the code. *)
Theorem set_backend_restores_defaults `{Runtime} c t a :
  catalog c = Some t -> tuple_mem t a = true ->
  exists r defaults,
    (In c ["find"; "tmatch"; "fmatch"] \/ a = "oldSURF" -> r = Ok tt) /\
    forall self,
      fst (set_backend c a self) = r /\
      dict_get (p (snd (set_backend c a self))) c = Some defaults /\
      dict_get (p (snd (_new_params c a CVEqualizer_empty))) c = Some defaults /\
      (r = Ok tt -> fst (get_backend c (snd (set_backend c a self))) = Ok a).
Proof.
  intros C I.
  destruct (set_backend_run c t a C I) as (r & ps & i & F & Ei & Gi & RunN & Run).
  exists (match r with Ok _ => Ok tt | Raise e => Raise e end), ps. split.
  - intros Hc. pose proof (closed_form_new_params c t a C I Hc) as E.
    rewrite RunN in E. simpl in E. now rewrite E.
  - intros self. rewrite Run, RunN. destruct r as [[]|e]; cbn [fst snd].
    + split; [reflexivity|]. split; [apply with_params_get|].
      split; [apply with_params_get|].
      intros _. now rewrite (get_backend_with_current c t a i _ C Gi).
    + split; [reflexivity|]. split; [apply with_params_get|].
      split; [apply with_params_get|]. discriminate.
Qed.

Lemma set_backend_from_empty `{Runtime} c t a r0 s0 ps0 :
  catalog c = Some t -> tuple_mem t a = true ->
  _new_params c a CVEqualizer_empty = (r0, s0) ->
  dict_get (p s0) c = Some ps0 ->
  exists i, tuple_index t a = Some i /\
    forall self,
      set_backend c a self =
      match r0 with
      | Ok _ => (Ok tt, with_current (with_params self c ps0) c i)
      | Raise e => (Raise e, with_params self c ps0)
      end.
Proof.
  intros C I E G.
  destruct (set_backend_run c t a C I) as (r & ps & i & _ & Ei & _ & RunN & Run).
  rewrite RunN in E. injection E as <- <-.
  rewrite with_params_get in G. injection G as <-.
  exists i. split; [exact Ei|exact Run].
Qed.

(** C5. For a category [c] with catalog [t] and a name [a] outside of
    [t], [set_backend] raises [ImageFinderMethodError] and the equalizer is
    the one before the call: selection and parameters are untouched. *)
Theorem set_backend_unsupported `{Runtime} c t a self :
  catalog c = Some t -> tuple_mem t a = false ->
  set_backend c a self = (Raise ImageFinderMethodError, self).
Proof.
  unfold catalog.
  destruct (dict_get full_names c) as [name|] eqn:En; [|discriminate].
  intros C I. unfold set_backend, bind, lift, getitem.
  now rewrite En, C, I.
Qed.

(** C6, as the code has it. For a category [c] that is neither a key of
    [full_names] nor of the registry, the three methods fail at once and
    leave the equalizer as it was: [can_calibrate] with
    [ImageFinderMethodError], [get_backend] and [set_backend] with the
    [KeyError] of the dictionary they index. *)
Theorem unknown_category_fails `{Runtime} c self :
  dict_get full_names c = None -> dict_mem (p self) c = false ->
  get_backend c self = (Raise KeyError, self)
  /\ (forall a, set_backend c a self = (Raise KeyError, self))
  /\ (forall mark, can_calibrate mark c self = (Raise ImageFinderMethodError, self)).
Proof.
  intros En Ep. split; [|split].
  - unfold get_backend, bind, read, lift, getitem.
    destruct (dict_get (_current self) c); now rewrite ?En.
  - intros a. unfold set_backend, bind, lift, getitem. now rewrite En.
  - intros mark. unfold can_calibrate, bind, read. now rewrite Ep.
Qed.

(** C9. After [set_backend("find", "hybrid")] the parameters of [find]
    are exactly [similarity], [ransacReprojThreshold], [nocolor] and
    [front_similarity], in this order, with the values 0.9, 0.0, [False]
    and 0.8. *)
Theorem find_hybrid_defaults `{Runtime} self :
  fst (set_backend "find" "hybrid" self) = Ok tt /\
  exists params,
    dict_get (p (snd (set_backend "find" "hybrid" self))) "find" = Some params /\
    map (fun '(name, q) => (name, value q)) params =
      [ ("similarity", PFloat 0.9); ("ransacReprojThreshold", PFloat 0.0);
        ("nocolor", PBool false); ("front_similarity", PFloat 0.8) ].
Proof.
  destruct (set_backend_from_empty "find" _ "hybrid" (Ok tt) _ _
              eq_refl eq_refl eq_refl eq_refl) as (i & _ & Run).
  rewrite Run. cbn [fst snd]. split; [reflexivity|].
  eexists. split; [apply with_params_get|reflexivity].
Qed.

(** C10. Every parameter that [_new_params] creates is built with the
    default [fixed=True] of the constructor: after [_new_params], and after
    a [set_backend] that succeeded, each parameter of the category is
    excluded from calibration. *)
Theorem new_params_are_fixed `{Runtime} c a self self' params n q :
  self' = snd (_new_params c a self) \/ set_backend c a self = (Ok tt, self') ->
  dict_get (p self') c = Some params ->
  dict_get params n = Some q ->
  fixed q = default_fixed /\ default_fixed = PBool true.
Proof.
  intros Hs Gp Gq. split; [|reflexivity]. apply dict_get_In in Gq.
  destruct Hs as [->|Hs].
  - destruct (new_params_run c a) as (r & ps & F & Run).
    rewrite Run in Gp. cbn [snd] in Gp. rewrite with_params_get in Gp.
    injection Gp as <-. eapply F; eauto.
  - destruct (catalog c) as [t|] eqn:C.
    + destruct (tuple_mem t a) eqn:I.
      * destruct (set_backend_run c t a C I) as (r & ps & i & F & _ & _ & _ & Run).
        rewrite Run in Hs. destruct r; [|discriminate].
        injection Hs as <-.
        change (dict_get (p (with_params self c ps)) c = Some params) in Gp.
        rewrite with_params_get in Gp. injection Gp as <-. eapply F; eauto.
      * exfalso. revert Hs. unfold catalog in C.
        unfold set_backend, bind, lift, getitem.
        destruct (dict_get full_names c) as [name|]; [|discriminate].
        now rewrite C, I.
    + exfalso. revert Hs. unfold catalog in C. unfold set_backend, bind, lift, getitem.
      destruct (dict_get full_names c) as [name|]; [|discriminate].
      now rewrite C.
Qed.

(** [can_calibrate] on a category of the registry: the branch that forces
    [fixed = True] is never taken, every parameter gets [fixed = not mark]. *)
Lemma can_calibrate_run mark c self params :
  dict_get (p self) c = Some params ->
  can_calibrate mark c self =
  (Ok tt, with_params self c
            (map (fun '(n, q) => (n, set_fixed q (PBool (negb mark)))) params)).
Proof.
  intros G. unfold can_calibrate, bind, read, lift, write, getitem, dict_mem.
  rewrite G. cbn [negb]. unfold with_params. do 3 f_equal.
  apply map_ext. intros [n q]. unfold CVParameter_eq_str.
  now rewrite andb_false_r.
Qed.

(** ** Text *)

Lemma append_nil_r s : s ++ "" = s.
Proof. induction s; simpl; congruence. Qed.

Lemma all_in_impl (cls cls' : ascii -> bool) s :
  (forall c, cls c = true -> cls' c = true) ->
  all_in cls s = true -> all_in cls' s = true.
Proof.
  intros I. induction s as [|c s IH]; simpl; [reflexivity|].
  rewrite !andb_true_iff. intros [Hc Hs]. auto.
Qed.

Lemma strip_prefix_app l s : strip_prefix l (l ++ s) = Some s.
Proof. induction l as [|a l IH]; simpl; [reflexivity|]. now rewrite Ascii.eqb_refl. Qed.

Lemma re_plus_none_stops {A} cls (k : string -> option A) t :
  stops cls t -> re_plus cls k t = None.
Proof. destruct t as [|c t]; simpl; [reflexivity|]. now intros ->. Qed.

Lemma re_plus_none_later {A} cls (k : string -> option A) s :
  later_none k s -> re_plus cls k s = None.
Proof.
  induction s as [|c s IH]; simpl; [reflexivity|].
  intros [K L]. rewrite (IH L), K. now destruct (cls c).
Qed.

(** A run that cannot go on, or whose longer versions all fail, is the
    group that [re_plus] captures. *)
Lemma re_plus_run {A} cls (k : string -> option A) f t r :
  f <> "" -> all_in cls f = true ->
  stops cls t \/ later_none k t ->
  k t = Some r ->
  re_plus cls k (f ++ t) = Some (f, r).
Proof.
  intros N Hf Ht K. induction f as [|c f IH]; [congruence|].
  simpl in Hf. apply andb_true_iff in Hf. destruct Hf as [Hc Hf].
  simpl. rewrite Hc. destruct f as [|c' f].
  - simpl. rewrite K.
    now destruct Ht as [S|L];
      [rewrite (re_plus_none_stops _ _ _ S)|rewrite (re_plus_none_later _ _ _ L)].
  - rewrite IH; [reflexivity|discriminate|exact Hf].
Qed.

Lemma re_match_lit l rest s :
  re_match (Lit l :: rest) (l ++ s) = re_match rest s.
Proof. simpl. now rewrite strip_prefix_app. Qed.

Lemma re_match_group cls rest f t gs :
  f <> "" -> all_in cls f = true ->
  stops cls t \/ later_none (re_match rest) t ->
  re_match rest t = Some gs ->
  re_match (Group cls :: rest) (f ++ t) = Some (f :: gs).
Proof. intros N Hf Ht K. simpl. now rewrite (re_plus_run cls _ f t gs N Hf Ht K). Qed.

Lemma occurs_later_none l rest s :
  occurs l s = false ->
  re_match (Lit l :: rest) s = None /\ later_none (re_match (Lit l :: rest)) s.
Proof.
  induction s as [|c s IH]; simpl occurs; cbn [re_match later_none];
    destruct (strip_prefix l _) eqn:E; try discriminate; auto.
Qed.

Lemma later_none_cons l rest c s :
  occurs l s = false -> later_none (re_match (Lit l :: rest)) (String c s).
Proof. intros O. destruct (occurs_later_none l rest s O). now split. Qed.

Lemma occurs_cons l c s :
  strip_prefix l (String c s) = None -> occurs l s = false ->
  occurs l (String c s) = false.
Proof. intros E O. simpl occurs. now rewrite E. Qed.

Lemma occurs_quote_field l f t :
  all_in cls_field f = true -> occurs (String "'" l) t = false ->
  occurs (String "'" l) (f ++ t) = false.
Proof.
  intros Hf O. induction f as [|c f IH]; [exact O|].
  simpl in Hf. apply andb_true_iff in Hf. destruct Hf as [Hc Hf].
  apply occurs_cons; [|auto].
  cbn [strip_prefix]. unfold cls_field in Hc.
  apply andb_true_iff in Hc. destruct Hc as [Hq _].
  rewrite Ascii.eqb_sym. now destruct (Ascii.eqb c "'").
Qed.

Lemma occurs_quote_space_field l f t :
  f <> "" -> all_in cls_field f = true ->
  occurs (String "'" (String " " l)) t = false ->
  occurs (String "'" (String " " l)) (String "'" (f ++ t)) = false.
Proof.
  intros N Hf O. apply occurs_cons; [|now apply occurs_quote_field].
  destruct f as [|c f]; [congruence|].
  simpl in Hf. apply andb_true_iff in Hf. destruct Hf as [Hc _].
  unfold cls_field in Hc. apply andb_true_iff in Hc. destruct Hc as [_ Hs].
  cbn [strip_prefix append]. rewrite Ascii.eqb_refl, (Ascii.eqb_sym " " c).
  now destruct (Ascii.eqb c " ").
Qed.

Lemma cls_digit_dot_None_field c : cls_digit_dot_None c = true -> cls_field c = true.
Proof.
  intros Hc. unfold cls_field.
  destruct (Ascii.eqb_spec c "'") as [->|_]; [discriminate|].
  destruct (Ascii.eqb_spec c " ") as [->|_]; [discriminate|reflexivity].
Qed.

Lemma cls_digit_dot_field c : cls_digit_dot c = true -> cls_field c = true.
Proof.
  intros Hc. unfold cls_field.
  destruct (Ascii.eqb_spec c "'") as [->|_]; [discriminate|].
  destruct (Ascii.eqb_spec c " ") as [->|_]; [discriminate|reflexivity].
Qed.

Lemma cls_word_field c : cls_word c = true -> cls_field c = true.
Proof.
  intros Hc. unfold cls_field.
  destruct (Ascii.eqb_spec c "'") as [->|_]; [discriminate|].
  destruct (Ascii.eqb_spec c " ") as [->|_]; [discriminate|reflexivity].
Qed.


(** ** Reading back what [__repr__] writes *)

Lemma matches_group_start cls c t : cls c = true -> matches [Group cls] (String c t) = true.
Proof.
  intros Hc. unfold matches. cbn [re_match re_plus]. rewrite Hc.
  now destruct (re_plus cls (fun _ => Some []) t) as [[g r]|].
Qed.

Lemma matches_group_inv cls t :
  matches [Group cls] t = true -> exists c t', t = String c t' /\ cls c = true.
Proof.
  unfold matches. destruct t as [|c t']; cbn [re_match re_plus]; [discriminate|].
  destruct (cls c) eqn:Hc; [eauto|discriminate].
Qed.

Lemma not_keyword t :
  matches float_pattern t = true ->
  String.eqb t "None" = false /\ String.eqb t "True" = false
  /\ String.eqb t "False" = false.
Proof.
  intros Hm. apply matches_group_inv in Hm. destruct Hm as (c & t' & -> & Hc).
  cbn [String.eqb].
  destruct (Ascii.eqb_spec c "N") as [->|_]; [discriminate|].
  destruct (Ascii.eqb_spec c "T") as [->|_]; [discriminate|].
  destruct (Ascii.eqb_spec c "F") as [->|_]; [discriminate|].
  auto.
Qed.

Lemma is_digit_classes c :
  is_digit c = true ->
  cls_dot c = true /\ cls_digit_dot_None c = true /\ cls_digit_dot c = true
  /\ cls_word c = true.
Proof.
  intros Hc. unfold cls_digit_dot_None, cls_digit_dot, cls_word. rewrite Hc.
  cbn [orb]. repeat split. unfold cls_dot.
  destruct (Ascii.eqb_spec c newline) as [->|_]; [discriminate|reflexivity].
Qed.

Lemma digits_all_in u : all_in is_digit (NilEmpty.string_of_uint u) = true.
Proof. induction u; simpl; auto. Qed.

Lemma rstrip_newline_digits t : all_in is_digit t = true -> rstrip_newline t = t.
Proof.
  induction t as [|c t IH]; [reflexivity|].
  cbn [all_in]. rewrite andb_true_iff. intros [Hc Ht].
  cbn [rstrip_newline]. destruct t as [|c' t'].
  - destruct (Ascii.eqb_spec c newline) as [->|_]; [discriminate|reflexivity].
  - now rewrite (IH Ht).
Qed.

Lemma parse_arg_digits `{Runtime} t z :
  t <> "" -> all_in is_digit t = true ->
  option_map Z.of_uint (NilEmpty.uint_of_string t) = Some z ->
  parse_arg t = Ok (if (z <=? maxint)%Z then PInt z else PLong z).
Proof.
  intros N Hd Hz.
  assert (matches float_pattern t = true) as Hf.
  { destruct t as [|c t']; [congruence|]. cbn [all_in] in Hd.
    apply andb_true_iff in Hd. destruct Hd as [Hc _].
    apply matches_group_start. now apply is_digit_classes. }
  destruct (not_keyword t Hf) as (K1 & K2 & K3).
  unfold parse_arg. rewrite K1, K2, K3.
  assert (matches int_pattern t = true) as ->.
  { unfold matches, int_pattern. rewrite <- (append_nil_r t).
    now rewrite (re_match_group is_digit [Dollar] t "" [] N Hd (or_introl I) eq_refl). }
  unfold py_int. rewrite (rstrip_newline_digits t Hd).
  destruct t; [congruence|]. now rewrite Hz.
Qed.

Lemma uint_text u :
  NilZero.string_of_uint u <> ""
  /\ all_in is_digit (NilZero.string_of_uint u) = true
  /\ option_map Z.of_uint (NilEmpty.uint_of_string (NilZero.string_of_uint u))
     = Some (Z.of_uint u).
Proof.
  assert (u = Decimal.Nil
          \/ (NilZero.string_of_uint u = NilEmpty.string_of_uint u
              /\ NilEmpty.string_of_uint u <> "")) as [->|[-> N]].
  { destruct u; cbn; auto; right; split; auto; discriminate. }
  - repeat split. discriminate.
  - split; [exact N|]. split; [apply digits_all_in|]. now rewrite NilEmpty.usu.
Qed.

Lemma digits_text `{Runtime} z :
  (0 <= z)%Z ->
  py_str (PInt z) <> "" /\ all_in is_digit (py_str (PInt z)) = true
  /\ parse_arg (py_str (PInt z))
     = Ok (if (z <=? maxint)%Z then PInt z else PLong z).
Proof.
  intros Hz. cbn [py_str].
  pose proof (DecimalZ.of_to z) as E.
  destruct (Z.to_int z) as [u|u] eqn:Eu.
  - cbn [NilZero.string_of_int]. cbn [Z.of_int] in E.
    destruct (uint_text u) as (N & D & P). rewrite E in P.
    split; [exact N|]. split; [exact D|]. now apply parse_arg_digits.
  - exfalso. destruct z; try discriminate. lia.
Qed.

Lemma int_text_ok `{Runtime} cls z :
  (forall c, is_digit c = true -> cls c = true) ->
  int_ok z -> text_ok cls (PInt z).
Proof.
  intros Hcls [Hz Hm]. destruct (digits_text z Hz) as (N & D & P).
  apply Z.leb_le in Hm. rewrite Hm in P.
  repeat split; auto. eapply all_in_impl; eauto.
Qed.

Lemma long_text_ok `{Runtime} cls z :
  (forall c, is_digit c = true -> cls c = true) ->
  long_ok z -> text_ok cls (PLong z).
Proof.
  intros Hcls [Hz Hm]. destruct (digits_text z Hz) as (N & D & P).
  apply Z.leb_gt in Hm. rewrite Hm in P.
  repeat split; auto. eapply all_in_impl; eauto.
Qed.

Lemma float_text_ok `{Runtime} cls x :
  reads_back x -> all_in cls (str_float x) = true -> text_ok cls (PFloat x).
Proof.
  intros (Hd & Hf & Hi & Hx) Hc. unfold text_ok. cbn [py_str].
  destruct (not_keyword _ Hf) as (K1 & K2 & K3).
  repeat split; auto.
  - intros E. rewrite E in Hf. discriminate.
  - unfold parse_arg. now rewrite K1, K2, K3, Hi, Hf, Hx.
Qed.

Lemma value_text_ok `{Runtime} v : value_ok v -> text_ok cls_dot v.
Proof.
  destruct v as [|[|]|z|x|z]; cbn [value_ok]; intros Hv;
    try (unfold text_ok; cbn [py_str]; repeat split; [discriminate]).
  - apply int_text_ok; [apply is_digit_classes|exact Hv].
  - apply float_text_ok; [exact Hv|apply Hv].
  - apply long_text_ok; [apply is_digit_classes|exact Hv].
Qed.

Lemma bound_text_ok `{Runtime} v : bound_ok v -> text_ok cls_digit_dot_None v.
Proof.
  destruct v as [|[|]|z|x|z]; cbn [bound_ok]; intros Hv; try contradiction;
    try (unfold text_ok; cbn [py_str]; repeat split; [discriminate]).
  - apply int_text_ok; [apply is_digit_classes|exact Hv].
  - destruct Hv as [Hr Hp]. apply float_text_ok; [exact Hr|].
    eapply all_in_impl; [|exact Hp].
    intros c Hc. unfold cls_digit_dot in Hc. unfold cls_digit_dot_None.
    now rewrite Hc.
  - apply long_text_ok; [apply is_digit_classes|exact Hv].
Qed.

Lemma step_text_ok `{Runtime} v : step_ok v -> text_ok cls_digit_dot v.
Proof.
  destruct v as [|[|]|z|x|z]; cbn [step_ok]; intros Hv; try contradiction.
  - apply int_text_ok; [apply is_digit_classes|exact Hv].
  - destruct Hv as [Hr Hp]. now apply float_text_ok.
  - apply long_text_ok; [apply is_digit_classes|exact Hv].
Qed.

Lemma flag_text_ok `{Runtime} v : flag_ok v -> text_ok cls_word v.
Proof.
  destruct v as [|[|]|z|x|z]; cbn [flag_ok]; intros Hv; try contradiction;
    try (unfold text_ok; cbn [py_str]; repeat split; [discriminate]).
  - apply int_text_ok; [apply is_digit_classes|exact Hv].
  - apply long_text_ok; [apply is_digit_classes|exact Hv].
Qed.

Lemma CVParameter_init_again v mn mx d t f q :
  CVParameter_init v mn mx d t f = Ok q ->
  CVParameter_init (value q) (fst (range q)) (snd (range q))
    (delta q) (tolerance q) (fixed q) = Ok q.
Proof.
  intros E. pose proof (CVParameter_init_Ok _ _ _ _ _ _ _ E) as Eq.
  rewrite Eq at 1 2 3 4 5 6. cbn [value range delta tolerance fixed fst snd].
  revert E. unfold CVParameter_init, forced.
  destruct v; cbn [fst snd];
    (destruct (if is_not_None mn then _ else _); [|discriminate]);
    (destruct (if is_not_None mx then _ else _); [|discriminate]);
    auto.
Qed.


(** ** Texts that [from_string] refuses *)







(** ** Writing and reading a match file *)

Lemma dict_set_fresh {V} (d : dict V) k v :
  ~ In k (dict_keys d) -> dict_set d k v = (d ++ [(k, v)])%list.
Proof.
  induction d as [|[k0 v0] d IH]; cbn [dict_set dict_keys map fst In app];
    [reflexivity|].
  intros N. destruct (String.eqb_spec k0 k); [tauto|]. rewrite IH; tauto.
Qed.

Lemma dict_keys_set_In {V} (d : dict V) k v k' :
  In k' (dict_keys (dict_set d k v)) -> k' = k \/ In k' (dict_keys d).
Proof.
  induction d as [|[k0 v0] d IH]; cbn [dict_set dict_keys map fst In].
  - intros [<-|[]]; auto.
  - destruct (String.eqb_spec k0 k); cbn [map fst In]; [tauto|].
    intros [E|I]; [tauto|]. destruct (IH I); auto.
Qed.

Lemma write_options_run `{Runtime} section params :
  forall (parser : matchfile) opts,
    dict_get parser section = Some opts ->
    NoDup (dict_keys params) ->
    (forall n, In n (dict_keys params) -> ~ In n (dict_keys opts)) ->
    write_options section params parser =
    dict_set parser section
      (opts ++ map (fun '(n, q) => (n, CVParameter_repr q)) params)%list.
Proof.
  induction params as [|[n q] params IH]; intros parser opts G ND Fr.
  - cbn [write_options map]. rewrite app_nil_r.
    clear ND Fr. revert G. induction parser as [|[k v] parser IHp];
      cbn [dict_get dict_set]; [discriminate|].
    destruct (String.eqb k section); [now intros [= ->]|].
    intros G. now rewrite <- IHp.
  - cbn [write_options]. unfold parser_set. rewrite G.
    cbn [dict_keys map fst] in ND, Fr. inversion ND as [|? ? Nn ND']; subst.
    rewrite (dict_set_fresh opts n) by (apply (Fr n); now left).
    rewrite (IH _ (opts ++ [(n, CVParameter_repr q)])%list).
    + rewrite dict_set_set. cbn [map]. now rewrite <- app_assoc.
    + apply dict_get_set_same.
    + exact ND'.
    + intros n' I' I''. unfold dict_keys in I''. rewrite map_app in I''.
      apply in_app_or in I''. destruct I'' as [I''|[<-|[]]].
      * apply (Fr n'); [now right|exact I''].
      * now apply Nn.
Qed.

Lemma write_sections_run `{Runtime} self cs :
  forall parser : matchfile,
    NoDup cs ->
    (forall c, In c cs -> ~ In c (dict_keys parser)) ->
    (forall c, In c cs ->
       exists a params,
         fst (get_backend c self) = Ok a /\ dict_get (p self) c = Some params
         /\ NoDup (dict_keys params) /\ ~ In "backend" (dict_keys params)) ->
    exists parser',
      write_sections self cs parser = Ok parser'
      /\ (forall c, In c cs ->
            exists a params,
              fst (get_backend c self) = Ok a /\ dict_get (p self) c = Some params
              /\ dict_get parser' c = Some (section_of a params))
      /\ (forall c, ~ In c cs -> dict_get parser' c = dict_get parser c).
Proof.
  induction cs as [|c cs IH]; intros parser ND Fr Hc.
  - exists parser. cbn [write_sections].
    split; [reflexivity|]. split; [intros ? []|reflexivity].
  - inversion ND as [|? ? Nc ND']; subst.
    destruct (Hc c (or_introl eq_refl)) as (a & params & Ea & Gp & NDp & Nb).
    cbn [write_sections].
    assert (dict_mem parser c = false) as ->.
    { unfold dict_mem. rewrite dict_get_not_In; [reflexivity|]. apply Fr. now left. }
    cbn [negb]. rewrite Ea. unfold getitem. rewrite Gp.
    unfold parser_set at 1. rewrite dict_get_set_same, dict_set_set.
    cbn [dict_set].
    rewrite (write_options_run c params _ [("backend", a)]);
      [|apply dict_get_set_same|exact NDp|].
    2:{ intros n I [<-|[]]. contradiction. }
    rewrite dict_set_set. fold (section_of a params).
    destruct (IH (dict_set parser c (section_of a params)) ND') as (parser' & E & Hin & Hout).
    + intros c' I' I''. apply dict_keys_set_In in I''. destruct I'' as [->|I''].
      * contradiction.
      * apply (Fr c'); [now right|exact I''].
    + intros c' I'. apply Hc. now right.
    + exists parser'. split; [exact E|]. split.
      * intros c' [<-|I']; [|now apply Hin].
        exists a, params. repeat split; auto.
        rewrite (Hout c Nc). apply dict_get_set_same.
      * intros c' N'. rewrite Hout by (intros I'; apply N'; now right).
        apply dict_get_set_other. intros ->. apply N'. now left.
Qed.

Lemma dict_set_id {V} (d : dict V) k v : dict_get d k = Some v -> dict_set d k v = d.
Proof.
  induction d as [|[k0 v0] d IH]; cbn [dict_get dict_set]; [discriminate|].
  destruct (String.eqb k0 k); [now intros [= ->]|]. intros G. now rewrite IH.
Qed.

Lemma with_params_id self c ps : dict_get (p self) c = Some ps -> with_params self c ps = self.
Proof. intros G. unfold with_params. rewrite (dict_set_id _ _ _ G). now destruct self. Qed.

Lemma get_backend_state c s : get_backend c s = (fst (get_backend c s), s).
Proof.
  unfold get_backend, bind, read, lift.
  destruct (getitem (_current s) c); [|reflexivity].
  destruct (getitem full_names c); [|reflexivity].
  now destruct (getitem algorithms a0).
Qed.

Lemma get_backend_same c s s' :
  dict_get (_current s') c = dict_get (_current s) c ->
  fst (get_backend c s') = fst (get_backend c s).
Proof.
  intros E. unfold get_backend, bind, read, lift, getitem. rewrite E.
  destruct (dict_get (_current s) c); [|reflexivity].
  destruct (dict_get full_names c); [|reflexivity].
  now destruct (dict_get algorithms s0).
Qed.

Lemma get_backend_in_catalog c s a :
  fst (get_backend c s) = Ok a ->
  exists t, catalog c = Some t /\ tuple_mem t a = true.
Proof.
  unfold get_backend, bind, read, lift, getitem, catalog.
  destruct (dict_get (_current s) c) as [i|]; [|discriminate].
  destruct (dict_get full_names c) as [name|]; [|discriminate].
  destruct (dict_get algorithms name) as [t|]; [|discriminate].
  cbn [fst]. unfold tuple_getitem.
  destruct (nth_error t i) eqn:En; [|discriminate]. intros [= ->].
  exists t. split; [reflexivity|]. apply tuple_mem_In. eapply nth_error_In; eauto.
Qed.

Lemma section_of_backend `{Runtime} a params :
  parser_get (section_of a params) "backend" = Ok a.
Proof. reflexivity. Qed.

Lemma section_of_keys `{Runtime} a params :
  dict_keys (section_of a params) = "backend" :: dict_keys params.
Proof.
  unfold section_of, dict_keys. cbn [map fst]. f_equal.
  rewrite map_map. apply map_ext. now intros [n q].
Qed.

Lemma section_of_get `{Runtime} a params n q :
  NoDup (dict_keys params) -> n <> "backend" -> In (n, q) params ->
  dict_get (section_of a params) n = Some (CVParameter_repr q).
Proof.
  intros ND N I. unfold section_of. cbn [dict_get].
  destruct (String.eqb_spec "backend" n); [congruence|].
  apply dict_In_get.
  - unfold dict_keys. rewrite map_map.
    erewrite map_ext; [exact ND|]. now intros [n' q'].
  - change (n, CVParameter_repr q)
      with ((fun '(n, q) => (n, CVParameter_repr q)) (n, q)).
    now apply in_map.
Qed.

Lemma read_options_run `{Runtime} c section items :
  forall ps self,
    (forall n q, In (n, q) items ->
       n <> "backend" /\ dict_get section n = Some (CVParameter_repr q)
       /\ is_ok (from_string (CVParameter_repr q)) = true) ->
    read_options c section (map fst items) (with_params self c ps) =
    (Ok tt, with_params self c
              (fold_left (fun ps '(n, q) => dict_set ps n (decoded q)) items ps)).
Proof.
  induction items as [|[n q] items IH]; intros ps self Hi; [reflexivity|].
  destruct (Hi n q (or_introl eq_refl)) as (N & G & F).
  cbn [map fst read_options fold_left].
  destruct (String.eqb_spec n "backend"); [congruence|].
  unfold bind, lift, parser_get. rewrite G. unfold decoded.
  destruct (from_string (CVParameter_repr q)) as [q'|e]; [|discriminate].
  rewrite p_setitem_run. apply IH. intros n1 q1 I. apply Hi. now right.
Qed.

Lemma fold_set_get_other `{Runtime} items :
  forall ps n,
    ~ In n (map fst items) ->
    dict_get (fold_left (fun ps '(n, q) => dict_set ps n (decoded q)) items ps) n
    = dict_get ps n.
Proof.
  induction items as [|[n0 q0] items IH]; intros ps n N; [reflexivity|].
  cbn [fold_left]. cbn [map fst In] in N. rewrite IH by tauto.
  apply dict_get_set_other. intros ->. tauto.
Qed.

Lemma fold_set_get `{Runtime} items :
  forall ps n q,
    NoDup (map fst items) -> In (n, q) items ->
    dict_get (fold_left (fun ps '(n, q) => dict_set ps n (decoded q)) items ps) n
    = Some (decoded q).
Proof.
  induction items as [|[n0 q0] items IH]; intros ps n q ND I; [destruct I|].
  cbn [map fst] in ND. inversion ND as [|? ? N0 ND']; subst.
  cbn [fold_left]. destruct I as [[= -> ->]|I].
  - rewrite fold_set_get_other by exact N0. apply dict_get_set_same.
  - now apply IH.
Qed.

Lemma storable_items `{Runtime} a params :
  storable params ->
  forall n q, In (n, q) params ->
    n <> "backend"
    /\ dict_get (section_of a params) n = Some (CVParameter_repr q)
    /\ is_ok (from_string (CVParameter_repr q)) = true.
Proof.
  intros (ND & Nb & Hs) n q I.
  assert (n <> "backend") as N.
  { intros ->. apply Nb. change (In (fst ("backend", q)) (map fst params)).
    now apply in_map. }
  split; [exact N|]. split; [now apply section_of_get|]. eapply Hs; eauto.
Qed.

(** What [from_match_file] does with the section of one category. *)
Lemma read_section_run `{Runtime} c a params t cur ps s :
  storable params -> catalog c = Some t ->
  fst (get_backend c s) = Ok cur -> dict_get (p s) c = Some ps ->
  a = cur \/ (tuple_mem t a = true /\ forall self, fst (set_backend c a self) = Ok tt) ->
  exists s',
    (section_backend <- lift (parser_get (section_of a params) "backend") ;;
     current <- get_backend c ;;
     (if negb (String.eqb section_backend current)
      then set_backend c section_backend
      else ret tt) ;;
     read_options c (section_of a params) (dict_keys (section_of a params))) s
    = (Ok tt, s')
    /\ fst (get_backend c s') = Ok a
    /\ (exists ps', dict_get (p s') c = Some ps'
                    /\ forall n q, In (n, q) params -> dict_get ps' n = Some (decoded q))
    /\ forall c', c' <> c -> same_at c' s s'.
Proof.
  intros St C Ecur Gp Hreg.
  pose proof (storable_items a params St) as Hitems.
  destruct St as (ND & _ & _).
  unfold bind at 1. unfold lift at 1. rewrite section_of_backend.
  unfold bind at 1. rewrite (get_backend_state c s), Ecur.
  rewrite section_of_keys. cbn [read_options String.eqb Ascii.eqb Bool.eqb].
  change (dict_keys params) with (map fst params).
  destruct (String.eqb_spec a cur) as [->|Na]; cbn [negb].
  - unfold bind at 1, ret.
    pose proof (read_options_run c _ params ps s Hitems) as Er.
    rewrite (with_params_id s c ps Gp) in Er. rewrite Er.
    eexists. split; [reflexivity|]. split; [|split].
    + now rewrite (get_backend_same c s) by reflexivity.
    + eexists. split; [apply with_params_get|].
      intros n q I. now apply fold_set_get.
    + intros c' N. split; [reflexivity|]. now apply with_params_get_other.
  - destruct Hreg as [->|[It Hok]]; [congruence|].
    destruct (set_backend_run c t a C It) as (r & ps0 & i & _ & _ & Gi & _ & Run).
    specialize (Hok s). rewrite Run in Hok. destruct r as [[]|e]; [|discriminate].
    unfold bind at 1. rewrite Run.
    change (with_current (with_params s c ps0) c i)
      with (with_params (with_current s c i) c ps0).
    rewrite (read_options_run c _ params ps0 (with_current s c i) Hitems).
    eexists. split; [reflexivity|]. split; [|split].
    + rewrite (get_backend_same c (with_current s c i)) by reflexivity.
      now rewrite (get_backend_with_current c t a i s C Gi).
    + eexists. split; [apply with_params_get|].
      intros n q I. now apply fold_set_get.
    + intros c' N. split.
      * cbn [_current with_params with_current]. now apply dict_get_set_other.
      * now rewrite with_params_get_other.
Qed.

Lemma ready_same `{Runtime} parser c a params s s' :
  same_at c s s' -> ready parser c a params s -> ready parser c a params s'.
Proof.
  intros [Ec Ep] (G & St & t & cur & ps & C & Eb & Gp & Hr).
  split; [exact G|]. split; [exact St|]. exists t, cur, ps.
  split; [exact C|]. split; [now rewrite (get_backend_same c s s' Ec)|].
  split; [now rewrite Ep|exact Hr].
Qed.

Lemma loaded_same `{Runtime} c a params s s' :
  same_at c s s' -> loaded c a params s -> loaded c a params s'.
Proof.
  intros [Ec Ep] (Eb & ps' & Gp & Hq).
  split; [now rewrite (get_backend_same c s s' Ec)|].
  exists ps'. split; [now rewrite Ep|exact Hq].
Qed.

Lemma read_sections_run `{Runtime} (parser : matchfile) stored cs :
  forall s,
    NoDup cs ->
    (forall c, In c cs ->
       exists a params, stored c = Some (a, params) /\ ready parser c a params s) ->
    exists s',
      read_sections parser cs s = (Ok tt, s')
      /\ (forall c a params, In c cs -> stored c = Some (a, params) ->
            loaded c a params s')
      /\ (forall c, ~ In c cs -> same_at c s s').
Proof.
  induction cs as [|c cs IH]; intros s ND Hr.
  - exists s. split; [reflexivity|]. split; [intros ? ? ? []|].
    intros c _. split; reflexivity.
  - inversion ND as [|? ? Nc ND']; subst.
    destruct (Hr c (or_introl eq_refl))
      as (a & params & Es & G & St & t & cur & ps & C & Eb & Gp & Hreg).
    destruct (read_section_run c a params t cur ps s St C Eb Gp Hreg)
      as (s1 & E1 & Eb1 & Hp1 & Hsame1).
    destruct (IH s1 ND') as (s' & E' & Hl' & Hsame').
    { intros c' I'. destruct (Hr c' (or_intror I')) as (a' & params' & Es' & R').
      exists a', params'. split; [exact Es'|].
      eapply ready_same; [|exact R']. apply Hsame1. intros ->. contradiction. }
    exists s'. split; [|split].
    + cbn [read_sections]. rewrite G. unfold bind at 1. now rewrite E1.
    + intros c' a' params' [<-|I'] Es'.
      * rewrite Es in Es'. injection Es' as <- <-.
        eapply loaded_same; [apply (Hsame' c Nc)|]. now split.
      * now apply Hl'.
    + intros c' N'. destruct (Hsame1 c') as [A1 B1]; [intros ->; apply N'; now left|].
      destruct (Hsame' c') as [A2 B2]; [intros I'; apply N'; now right|].
      split; congruence.
Qed.

Lemma NoDup_categories : NoDup categories.
Proof.
  unfold categories.
  repeat (constructor; [cbn [In]; intuition discriminate|]). constructor.
Qed.

Lemma set_backend_ok_everywhere `{Runtime} c t a self0 :
  catalog c = Some t -> tuple_mem t a = true ->
  fst (set_backend c a self0) = Ok tt ->
  forall self, fst (set_backend c a self) = Ok tt.
Proof.
  intros C I E self.
  destruct (set_backend_run c t a C I) as (r & ps & i & _ & _ & _ & _ & Run).
  rewrite Run in E. rewrite Run. now destruct r.
Qed.

(** C2, as the code has it. Let [R] be an equalizer with an algorithm
    selected in each of the five categories and parameters that a match
    file can hold (distinct names other than [backend]) and that are read
    back from their texts as they are, and [R0] an equalizer of the same
    catalog with a selection in each category, as a freshly constructed
    one with a preselected backend is, for which the regenerations that
    the load triggers succeed. Then saving [R] and loading the file into
    [R0] succeed, the loaded equalizer has the selections of [R], and each
    parameter of [R] is in it as it was in [R]: with its value, its
    bounds, its [delta], its [tolerance] and its mark. *)
Theorem match_file_roundtrip `{Runtime} R R0 name (fs : files) :
  NoDup (dict_keys (p R)) -> has_categories R ->
  NoDup (dict_keys (p R0)) -> has_categories R0 ->
  (forall c, In c categories -> is_ok (fst (get_backend c R)) = true) ->
  (forall c params, In c categories -> dict_get (p R) c = Some params ->
                    storable params /\ faithful params) ->
  (forall c, In c categories -> is_ok (fst (get_backend c R0)) = true) ->
  (forall c a, In c categories ->
               fst (get_backend c R) = Ok a -> fst (get_backend c R0) <> Ok a ->
               fst (set_backend c a R0) = Ok tt) ->
  exists fs' R',
    to_match_file R name fs = Ok fs'
    /\ from_match_file name fs' R0 = (Ok tt, R')
    /\ (forall c, In c categories -> fst (get_backend c R') = fst (get_backend c R))
    /\ (forall c params n q,
          dict_get (p R) c = Some params -> dict_get params n = Some q ->
          exists params',
            dict_get (p R') c = Some params' /\ dict_get params' n = Some q).
Proof.
  intros NDR KR NDR0 KR0 SelR StR SelR0 Regen.
  assert (forall c, In c categories ->
            exists a params, fst (get_backend c R) = Ok a
                             /\ dict_get (p R) c = Some params) as HR.
  { intros c I. specialize (SelR c I).
    destruct (fst (get_backend c R)) as [a|]; [|discriminate].
    apply KR in I. destruct (dict_keys_In_get _ _ I) as [params G]. eauto. }
  destruct (write_sections_run R (dict_keys (p R)) [] NDR)
    as (parser & Ew & Hin & _).
  { intros c _ []. }
  { intros c I. apply KR in I. destruct (HR c I) as (a & params & Ea & G).
    destruct (StR c params I G) as ((ND & Nb & _) & _). eauto 6. }
  set (stored c := match fst (get_backend c R), dict_get (p R) c with
                   | Ok a, Some params => Some (a, params)
                   | _, _ => None
                   end).
  destruct (read_sections_run parser stored (dict_keys (p R0)) R0 NDR0)
    as (R' & Er & Hl & _).
  { intros c I0. assert (In c categories) as I by now apply KR0.
    destruct (Hin c (proj2 (KR c) I)) as (a & params & Ea & G & Gs).
    exists a, params. split; [unfold stored; now rewrite Ea, G|].
    split; [exact Gs|]. split; [now apply (StR c)|].
    destruct (get_backend_in_catalog c R a Ea) as (t & C & It).
    specialize (SelR0 c I).
    destruct (fst (get_backend c R0)) as [cur|] eqn:Ecur; [|discriminate].
    destruct (dict_keys_In_get _ _ I0) as [ps Gp].
    exists t, cur, ps. repeat split; auto.
    destruct (String.eqb_spec a cur) as [->|N]; [now left|right].
    split; [exact It|]. apply (set_backend_ok_everywhere c t a R0 C It).
    apply Regen; [exact I|exact Ea|]. rewrite Ecur. congruence. }
  exists (dict_set fs (name ++ ".match") parser), R'.
  split; [|split; [|split]].
  - unfold to_match_file. now rewrite Ew.
  - unfold from_match_file. rewrite dict_get_set_same.
    unfold bind at 1, read. exact Er.
  - intros c I. destruct (HR c I) as (a & params & Ea & G).
    destruct (Hl c a params (proj2 (KR0 c) I)) as [Eb _];
      [unfold stored; now rewrite Ea, G|].
    now rewrite Eb, Ea.
  - intros c params n q G Gq.
    assert (In c categories) as I by (apply KR; eapply dict_get_In_keys; eauto).
    destruct (HR c I) as (a & params0 & Ea & G0).
    rewrite G in G0. injection G0 as <-.
    destruct (Hl c a params (proj2 (KR0 c) I)) as (_ & ps' & Gp' & Hq);
      [unfold stored; now rewrite Ea, G|].
    apply dict_get_In in Gq. specialize (Hq n q Gq).
    destruct (StR c params I G) as (_ & Hf).
    unfold decoded in Hq. rewrite (Hf n q Gq) in Hq.
    exists ps'. auto.
Qed.

(** ** The theorems at work on the examples *)



Ltac each_category I :=
  cbn [categories In] in I;
  repeat match type of I with
         | _ \/ _ => destruct I as [I|I]
         | False => destruct I
         end;
  subst.

Ltac split_In J :=
  cbn [In] in J;
  repeat match type of J with
         | _ \/ _ => destruct J as [J|J]
         | False => destruct J
         end.

Ltac solve_storable :=
  split;
  [ cbn [dict_keys map fst];
    repeat first [ apply NoDup_nil
                 | apply NoDup_cons; [cbn [In]; intuition discriminate|] ]
  | split;
    [ cbn [dict_keys map fst In]; intuition discriminate
    | let n := fresh "n" in
      let q := fresh "q" in
      let J := fresh "J" in
      intros n q J; split_In J; injection J as <- <-; vm_compute; reflexivity ] ].

Ltac solve_faithful :=
  let n := fresh "n" in
  let q := fresh "q" in
  let J := fresh "J" in
  intros n q J; split_In J; injection J as <- <-; vm_compute; reflexivity.

(** C2: the tuned equalizer with the extractor [BRISK] is saved and loaded
    into a fresh [CVEqualizer("hybrid")]. *)
Lemma match_file_roundtrip_witness :
  exists fs' R',
    @to_match_file sample_runtime brisk_equalizer "cfg" [] = Ok fs'
    /\ @from_match_file sample_runtime "cfg" fs' hybrid_equalizer = (Ok tt, R')
    /\ (forall c, In c categories ->
          fst (get_backend c R') = fst (get_backend c brisk_equalizer))
    /\ (forall c params n q,
          dict_get (p brisk_equalizer) c = Some params -> dict_get params n = Some q ->
          exists params',
            dict_get (p R') c = Some params' /\ dict_get params' n = Some q).
Proof.
  apply (@match_file_roundtrip sample_runtime brisk_equalizer hybrid_equalizer "cfg" []).
  - exact NoDup_categories.
  - intros c. reflexivity.
  - exact NoDup_categories.
  - intros c. reflexivity.
  - intros c I. each_category I; reflexivity.
  - intros c params I G. each_category I; vm_compute in G; injection G as <-;
      (split; [solve_storable|solve_faithful]).
  - intros c I. each_category I; reflexivity.
  - intros c a I Ea Ne. each_category I; vm_compute in Ea; injection Ea as <-;
      try (exfalso; apply Ne; vm_compute; reflexivity);
      vm_compute; reflexivity.
Defined.

(** C2: an equalizer without selections, [CVEqualizer()], cannot be saved;
    the match file of an equalizer with a negative value cannot be loaded;
    no match file can be loaded into [CVEqualizer()]; and a fresh
    [CVEqualizer("hybrid")] that is saved and loaded into another has a
    scale factor of the detector [ORB] that is not the one it had: the
    file holds twelve digits of it. *)
Lemma match_file_roundtrip_fails :
  @to_match_file sample_runtime CVEqualizer_empty "cfg" [] = Raise KeyError
  /\ (exists fs',
        @to_match_file sample_runtime negative_equalizer "cfg" [] = Ok fs'
        /\ fst (@from_match_file sample_runtime "cfg" fs' hybrid_equalizer)
           = Raise ValueError)
  /\ (exists fs',
        @to_match_file sample_runtime tuned_equalizer "cfg" [] = Ok fs'
        /\ fst (@from_match_file sample_runtime "cfg" fs' CVEqualizer_empty)
           = Raise KeyError)
  /\ (exists fs' R' params params',
        @to_match_file sample_runtime hybrid_equalizer "cfg" [] = Ok fs'
        /\ @from_match_file sample_runtime "cfg" fs' hybrid_equalizer = (Ok tt, R')
        /\ dict_get (p hybrid_equalizer) "fdetect" = Some params
        /\ dict_get (p R') "fdetect" = Some params'
        /\ option_map value (dict_get params "ScaleFactor")
           = Some (PFloat 1.2000000476837158)
        /\ option_map value (dict_get params' "ScaleFactor")
           = Some (PFloat 1.20000004768)
        /\ PrimFloat.eqb 1.2000000476837158 1.20000004768 = false).
Proof.
  split; [reflexivity|]. split; [|split].
  - eexists. split; [vm_compute; reflexivity|]. vm_compute. reflexivity.
  - eexists. split; [vm_compute; reflexivity|]. vm_compute. reflexivity.
  - do 4 eexists. split; [vm_compute; reflexivity|].
    split; [vm_compute; reflexivity|]. split; [vm_compute; reflexivity|].
    split; [vm_compute; reflexivity|]. split; [vm_compute; reflexivity|].
    split; vm_compute; reflexivity.
Qed.

(** C3. The parameter [bytes] of the extractors, here loaded from a match
    file, is marked for calibration by [can_calibrate(True, "fextract")]
    like every other parameter: the test that should force it to stay
    fixed compares the parameter object with the name. *)
Theorem can_calibrate_does_not_force_bytes :
  exists self params q,
    (@from_match_file sample_runtime "brief" bytes_files ;;
     can_calibrate true "fextract") hybrid_equalizer = (Ok tt, self)
    /\ dict_get (p self) "fextract" = Some params
    /\ dict_get params "bytes" = Some q
    /\ fixed q = PBool false.
Proof.
  do 3 eexists.
  split; [vm_compute; reflexivity|].
  split; [vm_compute; reflexivity|].
  split; [vm_compute; reflexivity|]. reflexivity.
Qed.

(** C4: [set_backend("find", "hybrid")]; on the tuned equalizer, whose
    [similarity] was edited to 0.75 while [hybrid] was selected, it brings
    back the parameters of a fresh [CVEqualizer("hybrid")]. *)
Lemma set_backend_restores_defaults_witness :
  (exists r defaults,
      (In "find" ["find"; "tmatch"; "fmatch"] \/ "hybrid" = "oldSURF" -> r = Ok tt) /\
      forall self,
        fst (@set_backend sample_runtime "find" "hybrid" self) = r /\
        dict_get (p (snd (@set_backend sample_runtime "find" "hybrid" self))) "find"
        = Some defaults /\
        dict_get (p (snd (@_new_params sample_runtime "find" "hybrid" CVEqualizer_empty)))
          "find" = Some defaults /\
        (r = Ok tt ->
         fst (get_backend "find"
                (snd (@set_backend sample_runtime "find" "hybrid" self)))
         = Ok "hybrid"))
  /\ option_map (map (fun '(n, q) => (n, value q)))
       (dict_get (p tuned_equalizer) "find")
     = Some [ ("similarity", PFloat 0.75); ("ransacReprojThreshold", PFloat 0.0);
              ("nocolor", PBool false); ("front_similarity", PFloat 0.8) ]
  /\ dict_get (p (snd (@set_backend sample_runtime "find" "hybrid" tuned_equalizer)))
       "find"
     = dict_get (p hybrid_equalizer) "find".
Proof.
  split.
  - exact (@set_backend_restores_defaults sample_runtime "find"
             ["autopy"; "template"; "feature"; "hybrid"] "hybrid" eq_refl eq_refl).
  - split; vm_compute; reflexivity.
Defined.

(** C5: a name outside of the catalog of [find]. *)
Lemma set_backend_unsupported_witness :
  @set_backend sample_runtime "find" "not-a-real-algorithm" tuned_equalizer
  = (Raise ImageFinderMethodError, tuned_equalizer).
Proof.
  exact (@set_backend_unsupported sample_runtime "find"
           ["autopy"; "template"; "feature"; "hybrid"] "not-a-real-algorithm"
           tuned_equalizer eq_refl eq_refl).
Defined.

(** C6: the category [colour] is unknown. *)
Lemma unknown_category_fails_witness :
  get_backend "colour" hybrid_equalizer = (Raise KeyError, hybrid_equalizer)
  /\ (forall a, @set_backend sample_runtime "colour" a hybrid_equalizer
                = (Raise KeyError, hybrid_equalizer))
  /\ (forall mark, can_calibrate mark "colour" hybrid_equalizer
                   = (Raise ImageFinderMethodError, hybrid_equalizer)).
Proof.
  exact (@unknown_category_fails sample_runtime "colour" hybrid_equalizer
           eq_refl eq_refl).
Defined.

(** C6: [get_backend] and [set_backend] raise the [KeyError] of a
    dictionary, not the error of the module, for an unknown category. *)
Lemma unknown_category_KeyError :
  fst (get_backend "colour" hybrid_equalizer) = Raise KeyError
  /\ fst (@set_backend sample_runtime "colour" "hybrid" hybrid_equalizer)
     = Raise KeyError
  /\ fst (can_calibrate true "colour" hybrid_equalizer)
     = Raise ImageFinderMethodError.
Proof. repeat split; reflexivity. Qed.

(** C7: a [bool] built with other steps, an [int] read from a text that
    holds other steps, and a [long] read from a text. *)
Lemma forced_delta_tolerance_witness :
  exists qb qi ql,
    CVParameter_init (PBool true) PNone PNone (PFloat 5.0) (PFloat 7.0) (PBool false)
    = Ok qb
    /\ @from_string sample_runtime
         "<value='85' min='None' max='None' delta='5.0' tolerance='7.0' fixed='True'>"
       = Ok qi
    /\ @from_string sample_runtime
         "<value='18446744073709551616' min='None' max='None' delta='5.0' tolerance='7.0' fixed='True'>"
       = Ok ql
    /\ (delta qb = PFloat 0.0 /\ tolerance qb = PFloat 1.0)
    /\ (delta qi = PInt 1 /\ tolerance qi = PFloat 0.9)
    /\ (value ql = PLong 18446744073709551616
        /\ (@maxint sample_runtime < 18446744073709551616)%Z).
Proof.
  do 3 eexists.
  split; [reflexivity|]. split; [vm_compute; reflexivity|].
  split; [vm_compute; reflexivity|]. split; [|split].
  - refine (proj1 (@forced_delta_tolerance sample_runtime (PBool true) PNone PNone
                     (PFloat 5.0) (PFloat 7.0) (PBool false) "" _ (or_introl eq_refl))
                  true eq_refl).
  - exact (proj1 (proj2 (@forced_delta_tolerance sample_runtime PNone PNone PNone PNone
                           PNone PNone
                           "<value='85' min='None' max='None' delta='5.0' tolerance='7.0' fixed='True'>"
                           {| value := PInt 85; delta := PInt 1; tolerance := PFloat 0.9;
                              range := (PNone, PNone); fixed := PBool true |}
                           (or_intror eq_refl)))
                 85%Z eq_refl).
  - split; [reflexivity|].
    exact (proj1 (proj2 (proj2
                   (@forced_delta_tolerance sample_runtime PNone PNone PNone PNone
                      PNone PNone
                      "<value='18446744073709551616' min='None' max='None' delta='5.0' tolerance='7.0' fixed='True'>"
                      {| value := PLong 18446744073709551616;
                         delta := PFloat 5.0; tolerance := PFloat 7.0;
                         range := (PNone, PNone); fixed := PBool true |}
                      (or_intror eq_refl))))
                 18446744073709551616%Z eq_refl eq_refl).
Defined.

(** C7: an integer above [sys.maxint] is a [long], whose type is not
    [int]: it keeps the [delta] and the [tolerance] that the text holds or
    the caller passes. *)
Lemma long_value_keeps_delta_tolerance :
  @from_string sample_runtime
    "<value='18446744073709551616' min='None' max='None' delta='5.0' tolerance='7.0' fixed='True'>"
  = Ok {| value := PLong 18446744073709551616;
          delta := PFloat 5.0; tolerance := PFloat 7.0;
          range := (PNone, PNone); fixed := PBool true |}
  /\ CVParameter_init (PLong 18446744073709551616) PNone PNone
       (PFloat 5.0) (PFloat 7.0) (PBool true)
     = Ok {| value := PLong 18446744073709551616;
             delta := PFloat 5.0; tolerance := PFloat 7.0;
             range := (PNone, PNone); fixed := PBool true |}.
Proof. split; [vm_compute; reflexivity|reflexivity]. Qed.



(** C10: the parameters of the detectors after [set_backend("fdetect",
    "ORB")], discovered ones included. *)
Lemma new_params_are_fixed_witness :
  exists self' params q,
    @set_backend sample_runtime "fdetect" "ORB" hybrid_equalizer = (Ok tt, self')
    /\ dict_get (p self') "fdetect" = Some params
    /\ dict_get params "MaxFeatures" = Some q
    /\ fixed q = default_fixed /\ default_fixed = PBool true.
Proof.
  do 3 eexists.
  split; [vm_compute; reflexivity|].
  split; [vm_compute; reflexivity|].
  split; [vm_compute; reflexivity|].
  eapply (@new_params_are_fixed sample_runtime "fdetect" "ORB" hybrid_equalizer
            _ _ "MaxFeatures");
    [right; vm_compute; reflexivity|vm_compute; reflexivity|vm_compute; reflexivity].
Defined.

(** * Further properties *)

(** ** The constructor and the decoder *)

Lemma is_not_None_true v : is_not_None v = true <-> v <> PNone.
Proof. destruct v; simpl; split; congruence. Qed.

Lemma CVParameter_init_cases v mn mx d t f :
  CVParameter_init v mn mx d t f =
  match (if is_not_None mn then py_assert (py_ge v mn) else Ok tt) with
  | Raise e => Raise e
  | Ok _ =>
      match (if is_not_None mx then py_assert (py_le v mx) else Ok tt) with
      | Raise e => Raise e
      | Ok _ => Ok {| value := v; delta := fst (forced v d t);
                      tolerance := snd (forced v d t);
                      range := (mn, mx); fixed := f |}
      end
  end.
Proof. unfold CVParameter_init, forced. now destruct v. Qed.

Lemma py_assert_Ok c : py_assert c = Ok tt <-> c = Some true.
Proof. destruct c as [[|]|]; simpl; split; congruence. Qed.

Lemma CVParameter_init_within v mn mx d t f q :
  CVParameter_init v mn mx d t f = Ok q -> within v mn mx.
Proof.
  rewrite CVParameter_init_cases. unfold within.
  destruct (is_not_None mn) eqn:Emn.
  - destruct (py_ge v mn) as [[|]|]; cbn [py_assert]; try discriminate.
    destruct (is_not_None mx) eqn:Emx.
    + destruct (py_le v mx) as [[|]|]; cbn [py_assert]; try discriminate. auto.
    + intros _. split; [auto|]. intros N. apply is_not_None_true in N. congruence.
  - destruct (is_not_None mx) eqn:Emx.
    + destruct (py_le v mx) as [[|]|]; cbn [py_assert]; try discriminate.
      intros _. split; [|auto]. intros N. apply is_not_None_true in N. congruence.
    + intros _. split; intros N; apply is_not_None_true in N; congruence.
Qed.

Lemma py_le_total a b : py_le a b = Some true \/ py_le a b = Some false.
Proof.
  unfold py_le.
  destruct a as [|ba|za|xa|za], b as [|bb|zb|xb|zb]; cbn [to_num]; auto;
    match goal with |- context [Some ?c] => destruct c; auto end.
Qed.

(** X1. How the constructor checks the bounds. A parameter without a value
    passes every upper bound and no lower bound, since [None] orders below
    every number: [CVParameter(None, mn, mx)] raises [AssertionError] when
    a lower bound is given and returns otherwise. An [int] between two
    [int] is accepted exactly when it is not below the lower and not above
    the upper one, and raises [AssertionError] otherwise. *)
Theorem constructor_checks_bounds d t f :
  (forall mn mx,
      CVParameter_init PNone mn mx d t f
      = if is_not_None mn then Raise AssertionError
        else Ok {| value := PNone; delta := d; tolerance := t;
                   range := (mn, mx); fixed := f |})
  /\ (forall v lo hi,
         CVParameter_init (PInt v) (PInt lo) (PInt hi) d t f
         = if ((lo <=? v) && (v <=? hi))%Z
           then Ok {| value := PInt v; delta := PInt 1; tolerance := PFloat 0.9;
                      range := (PInt lo, PInt hi); fixed := f |}
           else Raise AssertionError).
Proof.
  split.
  - intros mn mx. rewrite CVParameter_init_cases. unfold py_ge, py_le.
    destruct mn, mx; reflexivity.
  - intros v lo hi. rewrite CVParameter_init_cases.
    unfold py_ge, py_le. cbn [is_not_None to_num forced fst snd].
    destruct (lo <=? v)%Z, (v <=? hi)%Z; reflexivity.
Qed.

(** X2. A value below the lower bound or above the upper bound makes the
    constructor raise [AssertionError], whatever the other arguments
    are. *)
Theorem constructor_rejects_out_of_bounds v mn mx d t f :
  (mn <> PNone /\ py_ge v mn = Some false)
  \/ (mx <> PNone /\ py_le v mx = Some false) ->
  CVParameter_init v mn mx d t f = Raise AssertionError.
Proof.
  intros Hout. rewrite CVParameter_init_cases.
  destruct Hout as [[N E]|[N E]].
  - apply is_not_None_true in N. now rewrite N, E.
  - apply is_not_None_true in N. rewrite N, E. cbn [py_assert].
    destruct (is_not_None mn); [|reflexivity].
    destruct (py_le_total mn v) as [E'|E']; unfold py_ge; now rewrite E'.
Qed.

(** X3. A parameter that [from_string] returns lies within its own
    bounds: a text whose value is outside of the bounds it states is never
    read as a parameter. *)
Theorem decoded_parameter_within_bounds `{Runtime} raw q :
  from_string raw = Ok q -> within (value q) (fst (range q)) (snd (range q)).
Proof.
  intros E. destruct (from_string_init raw q E) as (v & mn & mx & d & t & f & Ei).
  pose proof (CVParameter_init_Ok _ _ _ _ _ _ _ Ei) as ->. cbn [value range fst snd].
  eapply CVParameter_init_within; eauto.
Qed.



Lemma append_assoc (a b c : string) : (a ++ b) ++ c = a ++ b ++ c.
Proof. induction a as [|x a IH]; cbn [append]; congruence. Qed.

(** The pattern of [from_string] on a text of the shape that [__repr__]
    writes followed by any text in which the label of the second field
    does not occur: the groups are the fields. *)
Lemma re_match_parameter_then f1 f2 f3 f4 f5 f6 rest :
  f1 <> "" -> all_in cls_dot f1 = true ->
  f2 <> "" -> all_in cls_digit_dot_None f2 = true ->
  f3 <> "" -> all_in cls_digit_dot_None f3 = true ->
  f4 <> "" -> all_in cls_digit_dot f4 = true ->
  f5 <> "" -> all_in cls_digit_dot f5 = true ->
  f6 <> "" -> all_in cls_word f6 = true ->
  occurs "' min='" rest = false ->
  re_match parameter_pattern
    ("<value='" ++ f1 ++ "' min='" ++ f2 ++ "' max='" ++ f3 ++ "' delta='" ++ f4
     ++ "' tolerance='" ++ f5 ++ "' fixed='" ++ f6 ++ "'>" ++ rest)
  = Some [f1; f2; f3; f4; f5; f6].
Proof.
  intros N1 H1 N2 H2 N3 H3 N4 H4 N5 H5 N6 H6 Hr.
  pose proof (all_in_impl _ _ _ cls_digit_dot_None_field H2) as F2.
  pose proof (all_in_impl _ _ _ cls_digit_dot_None_field H3) as F3.
  pose proof (all_in_impl _ _ _ cls_digit_dot_field H4) as F4.
  pose proof (all_in_impl _ _ _ cls_digit_dot_field H5) as F5.
  pose proof (all_in_impl _ _ _ cls_word_field H6) as F6.
  unfold parameter_pattern. rewrite re_match_lit.
  apply re_match_group; auto.
  - right. cbn [append]. apply later_none_cons.
    repeat first [ apply occurs_quote_space_field; [assumption|assumption|]
                 | apply occurs_cons; [reflexivity|] ].
    exact Hr.
  - rewrite re_match_lit. apply re_match_group; [assumption|assumption|now left|].
    rewrite re_match_lit. apply re_match_group; [assumption|assumption|now left|].
    rewrite re_match_lit. apply re_match_group; [assumption|assumption|now left|].
    rewrite re_match_lit. apply re_match_group; [assumption|assumption|now left|].
    rewrite re_match_lit. apply re_match_group; [assumption|assumption|now left|].
    rewrite re_match_lit. reflexivity.
Qed.

(** X5. [from_string] matches at the start of the text only: the text of
    a parameter whose attributes are of the kinds of C1, followed by any
    text in which [' min='] does not occur, is read as the parameter. *)
Theorem from_string_ignores_trailing_text `{Runtime} v mn mx d t f q rest :
  CVParameter_init v mn mx d t f = Ok q ->
  value_ok (value q) ->
  bound_ok (fst (range q)) -> bound_ok (snd (range q)) ->
  step_ok (delta q) -> step_ok (tolerance q) ->
  flag_ok (fixed q) ->
  occurs "' min='" rest = false ->
  from_string (CVParameter_repr q ++ rest) = Ok q.
Proof.
  intros E Hv Hlo Hhi Hd Ht Hf Hr.
  destruct (value_text_ok _ Hv) as (N1 & C1 & P1).
  destruct (bound_text_ok _ Hlo) as (N2 & C2 & P2).
  destruct (bound_text_ok _ Hhi) as (N3 & C3 & P3).
  destruct (step_text_ok _ Hd) as (N4 & C4 & P4).
  destruct (step_text_ok _ Ht) as (N5 & C5 & P5).
  destruct (flag_text_ok _ Hf) as (N6 & C6 & P6).
  unfold from_string, CVParameter_repr.
  repeat rewrite append_assoc.
  rewrite re_match_parameter_then by assumption.
  cbn [parse_args]. rewrite P1, P2, P3, P4, P5, P6.
  eapply CVParameter_init_again; eauto.
Qed.

(** ** One category at a time *)

Lemma same_at_refl c s : same_at c s s.
Proof. split; reflexivity. Qed.

Lemma same_at_trans c s1 s2 s3 : same_at c s1 s2 -> same_at c s2 s3 -> same_at c s1 s3.
Proof. intros [A1 B1] [A2 B2]. split; congruence. Qed.

Lemma same_at_with_params c c' s ps : c' <> c -> same_at c' s (with_params s c ps).
Proof. intros N. split; [reflexivity|]. now apply with_params_get_other. Qed.

Lemma same_at_with_current c c' s i : c' <> c -> same_at c' s (with_current s c i).
Proof.
  intros N. split; [|reflexivity]. cbn [with_current _current].
  now apply dict_get_set_other.
Qed.

(** A property of the equalizer before and after, kept by each of two
    methods, is kept by the one after the other. *)
Lemma bind_rel {A B} (R : CVEqualizer -> CVEqualizer -> Prop) (m : M A) (k : A -> M B) :
  (forall s1 s2 s3, R s1 s2 -> R s2 s3 -> R s1 s3) ->
  (forall s, R s (snd (m s))) -> (forall a s, R s (snd (k a s))) ->
  forall s, R s (snd (bind m k s)).
Proof.
  intros T Hm Hk s. unfold bind. specialize (Hm s).
  destruct (m s) as [[a|e] s1]; cbn [snd] in *; [|exact Hm].
  eapply T; [exact Hm|apply Hk].
Qed.

Lemma catalog_categories c t : catalog c = Some t -> In c categories.
Proof.
  unfold catalog. destruct (dict_get full_names c) eqn:E; [|discriminate]. intros _.
  apply dict_get_In_keys in E. cbn in E. cbn. tauto.
Qed.

Lemma set_backend_no_catalog `{Runtime} c a self :
  catalog c = None -> set_backend c a self = (Raise KeyError, self).
Proof.
  unfold catalog, set_backend, bind, lift, getitem.
  destruct (dict_get full_names c) as [name|]; [|reflexivity].
  now intros ->.
Qed.

Lemma set_backend_not_in `{Runtime} c t a self :
  catalog c = Some t -> tuple_mem t a = false ->
  set_backend c a self = (Raise ImageFinderMethodError, self).
Proof.
  unfold catalog, set_backend, bind, lift, getitem.
  destruct (dict_get full_names c) as [name|]; [|discriminate].
  now intros -> ->.
Qed.

(** The equalizer that [set_backend] leaves: the one before, or the one
    before with the parameters of the category replaced and, on success,
    its selection set. *)
Lemma set_backend_snd `{Runtime} c a self :
  snd (set_backend c a self) = self
  \/ In c categories /\
     exists ps, snd (set_backend c a self) = with_params self c ps
                \/ exists i, snd (set_backend c a self)
                             = with_current (with_params self c ps) c i.
Proof.
  destruct (catalog c) as [t|] eqn:C.
  - destruct (tuple_mem t a) eqn:I.
    + right. split; [eapply catalog_categories; eauto|].
      destruct (set_backend_run c t a C I) as (r & ps & i & _ & _ & _ & _ & Run).
      exists ps. rewrite Run. destruct r; cbn [snd]; eauto.
    + left. now rewrite (set_backend_not_in c t a self C I).
  - left. now rewrite set_backend_no_catalog.
Qed.

Lemma set_backend_same_at `{Runtime} c a c' self :
  c' <> c -> same_at c' self (snd (set_backend c a self)).
Proof.
  intros N. destruct (set_backend_snd c a self) as [->|(_ & ps & [->|[i ->]])].
  - apply same_at_refl.
  - now apply same_at_with_params.
  - apply (same_at_trans c' self (with_params self c ps));
      [now apply same_at_with_params|now apply same_at_with_current].
Qed.

Lemma new_params_same_at `{Runtime} c a c' self :
  c' <> c -> same_at c' self (snd (_new_params c a self)).
Proof.
  intros N. destruct (new_params_run c a) as (r & ps & _ & Run). rewrite Run.
  now apply same_at_with_params.
Qed.

Lemma same_at_get_backend c s s' :
  same_at c s s' -> fst (get_backend c s') = fst (get_backend c s).
Proof. intros [E _]. now apply get_backend_same. Qed.

(** X6. [set_backend] and [_new_params] touch the category they are called
    for only: every other category keeps its selection and its
    parameters, whatever the outcome of the call. *)
Theorem set_backend_touches_one_category `{Runtime} c a c' self :
  c' <> c ->
  same_at c' self (snd (set_backend c a self))
  /\ same_at c' self (snd (_new_params c a self))
  /\ fst (get_backend c' (snd (set_backend c a self))) = fst (get_backend c' self).
Proof.
  intros N. split; [now apply set_backend_same_at|].
  split; [now apply new_params_same_at|].
  apply same_at_get_backend. now apply set_backend_same_at.
Qed.

Lemma with_params_current self c c' ps i :
  with_params (with_current self c' i) c ps = with_current (with_params self c ps) c' i.
Proof. reflexivity. Qed.

Lemma with_current_twice self c i j :
  with_current (with_current self c i) c j = with_current self c j.
Proof. unfold with_current; cbn [p _current]. now rewrite dict_set_set. Qed.

Lemma set_backend_Ok_catalog `{Runtime} c a self :
  fst (set_backend c a self) = Ok tt ->
  exists t, catalog c = Some t /\ tuple_mem t a = true.
Proof.
  intros E. destruct (catalog c) as [t|] eqn:C.
  - destruct (tuple_mem t a) eqn:I; [eauto|].
    now rewrite (set_backend_not_in c t a self C I) in E.
  - now rewrite set_backend_no_catalog in E.
Qed.

(** X7. The last selection wins: a selection that succeeds leaves the same
    equalizer after any earlier call of [set_backend] for the same
    category, whatever the argument and the outcome of that call were, as
    it leaves alone. *)
Theorem set_backend_last_wins `{Runtime} c a b self :
  fst (set_backend c a self) = Ok tt ->
  set_backend c a (snd (set_backend c b self)) = set_backend c a self.
Proof.
  intros E. destruct (set_backend_Ok_catalog c a self E) as (t & C & I).
  destruct (set_backend_run c t a C I) as (r & ps & i & _ & _ & _ & _ & Run).
  rewrite Run in E. rewrite !Run. destruct r as [[]|e]; [|discriminate].
  destruct (set_backend_snd c b self) as [->|(_ & psb & [->|[j ->]])];
    [reflexivity| |].
  - now rewrite with_params_twice.
  - rewrite with_params_current, with_params_twice.
    now rewrite with_current_twice.
Qed.

(** X8. A selection is not atomic when OpenCV fails: if creating the
    detector or extractor [a] raises, [set_backend] raises the same
    exception, the selection of the category stays what it was, and its
    parameters are gone, but for the two zoom parameters of a detector. *)
Theorem set_backend_wipes_on_cv2_error `{Runtime} c t a e self :
  In c ["fdetect"; "fextract"] ->
  catalog c = Some t -> tuple_mem t a = true -> a <> "oldSURF" ->
  cv2_create (a ++ "_create") = Raise e ->
  exists ps,
    set_backend c a self = (Raise e, with_params self c ps)
    /\ _current (with_params self c ps) = _current self
    /\ dict_keys ps = (if String.eqb c "fdetect" then ["nzoom"; "hzoom"] else []).
Proof.
  intros Ic C I N E.
  destruct (set_backend_run c t a C I) as (r & ps & i & _ & _ & _ & RunN & Run).
  pose proof (RunN CVEqualizer_empty) as R0. unfold _new_params in R0.
  destruct (String.eqb_spec a "oldSURF") as [|_]; [contradiction|].
  destruct (cv2_create (a ++ "_create")) as [|e']; [discriminate|]. injection E as ->.
  exists ps. rewrite Run.
  destruct Ic as [<-|[<-|[]]]; vm_compute in R0; injection R0 as <- <-;
    repeat split; reflexivity.
Qed.

Lemma set_backend_if_same_at `{Runtime} c value c' self :
  c' <> c \/ value = None -> same_at c' self (snd (set_backend_if c value self)).
Proof.
  intros Hc. destruct value as [v|]; cbn [set_backend_if]; [|apply same_at_refl].
  destruct Hc as [N|E]; [|discriminate]. now apply set_backend_same_at.
Qed.

(** X9. [configure_backend] leaves alone every category whose argument is
    [None], whatever its outcome: the selection and the parameters of the
    category are those of before. *)
Theorem configure_backend_leaves_omitted `{Runtime} fi tm fd fe fm c self :
  configured fi tm fd fe fm c = None ->
  same_at c self (snd (configure_backend fi tm fd fe fm self)).
Proof.
  unfold configured, configure_backend. intros Hc.
  repeat (apply bind_rel; [apply same_at_trans| |intros _]); intros s;
    apply set_backend_if_same_at;
    repeat match type of Hc with
           | (if String.eqb c ?k then _ else _) = _ =>
               destruct (String.eqb_spec c k) as [->|?]
           end;
    first [ now right | left; congruence ].
Qed.

Lemma bind_Ok {A B} (m : M A) (k : A -> M B) s :
  is_ok (fst (bind m k s)) = true ->
  exists a s1, m s = (Ok a, s1) /\ bind m k s = k a s1.
Proof.
  unfold bind. destruct (m s) as [[a|e] s1]; [|discriminate]. intros _. eauto.
Qed.

Lemma set_backend_selected `{Runtime} c a s s' :
  set_backend c a s = (Ok tt, s') -> selected c a s'.
Proof.
  intros E.
  assert (fst (set_backend c a s) = Ok tt) as E1 by now rewrite E.
  destruct (set_backend_Ok_catalog c a s E1) as (t & C & I).
  destruct (set_backend_run c t a C I) as (r & ps & i & _ & _ & Gi & RunN & Run).
  rewrite Run in E. destruct r as [[]|e]; [|discriminate]. injection E as <-.
  split.
  - now rewrite (get_backend_with_current c t a i _ C Gi).
  - rewrite RunN. cbn [snd with_current p]. now rewrite !with_params_get.
Qed.

Lemma selected_same `{Runtime} c a s s' : same_at c s s' -> selected c a s -> selected c a s'.
Proof.
  intros S [E G]. split.
  - now rewrite (same_at_get_backend c s s' S).
  - destruct S as [_ ->]. exact G.
Qed.

Lemma set_backend_if_selected `{Runtime} c c' value a s s' :
  set_backend_if c' value s = (Ok tt, s') ->
  (c' = c /\ value = Some a) \/ (c' <> c /\ selected c a s) ->
  selected c a s'.
Proof.
  intros E [[-> ->]|[N S]].
  - now apply (set_backend_selected c a s).
  - eapply selected_same; [|exact S].
    replace s' with (snd (set_backend_if c' value s)) by now rewrite E.
    apply set_backend_if_same_at. left. congruence.
Qed.

(** The five steps of a [configure_backend] that succeeds. *)
Lemma configure_backend_steps `{Runtime} fi tm fd fe fm s s' :
  configure_backend fi tm fd fe fm s = (Ok tt, s') ->
  exists s1 s2 s3 s4,
    set_backend_if "find" fi s = (Ok tt, s1)
    /\ set_backend_if "tmatch" tm s1 = (Ok tt, s2)
    /\ set_backend_if "fdetect" fd s2 = (Ok tt, s3)
    /\ set_backend_if "fextract" fe s3 = (Ok tt, s4)
    /\ set_backend_if "fmatch" fm s4 = (Ok tt, s').
Proof.
  unfold configure_backend, bind. intros E.
  destruct (set_backend_if "find" fi s) as [[[]|] s1] eqn:E1; [|discriminate].
  destruct (set_backend_if "tmatch" tm s1) as [[[]|] s2] eqn:E2; [|discriminate].
  destruct (set_backend_if "fdetect" fd s2) as [[[]|] s3] eqn:E3; [|discriminate].
  destruct (set_backend_if "fextract" fe s3) as [[[]|] s4] eqn:E4; [|discriminate].
  exists s1, s2, s3, s4. repeat split; auto.
Qed.

Lemma configure_backend_selected `{Runtime} fi tm fd fe fm c a s s' :
  configure_backend fi tm fd fe fm s = (Ok tt, s') ->
  configured fi tm fd fe fm c = Some a ->
  selected c a s'.
Proof.
  intros E Hc.
  destruct (configure_backend_steps _ _ _ _ _ _ _ E) as (s1 & s2 & s3 & s4 & E1 & E2 & E3 & E4 & E5).
  unfold configured in Hc.
  repeat match type of Hc with
         | (if String.eqb c ?k then _ else _) = _ =>
             destruct (String.eqb_spec c k) as [->|?]
         end; [..|discriminate]; subst.
  - eapply set_backend_if_selected; [exact E5|right; split; [discriminate|]].
    eapply set_backend_if_selected; [exact E4|right; split; [discriminate|]].
    eapply set_backend_if_selected; [exact E3|right; split; [discriminate|]].
    eapply set_backend_if_selected; [exact E2|right; split; [discriminate|]].
    eapply set_backend_if_selected; [exact E1|left; split; reflexivity].
  - eapply set_backend_if_selected; [exact E5|right; split; [discriminate|]].
    eapply set_backend_if_selected; [exact E4|right; split; [discriminate|]].
    eapply set_backend_if_selected; [exact E3|right; split; [discriminate|]].
    eapply set_backend_if_selected; [exact E2|left; split; reflexivity].
  - eapply set_backend_if_selected; [exact E5|right; split; [discriminate|]].
    eapply set_backend_if_selected; [exact E4|right; split; [discriminate|]].
    eapply set_backend_if_selected; [exact E3|left; split; reflexivity].
  - eapply set_backend_if_selected; [exact E5|right; split; [discriminate|]].
    eapply set_backend_if_selected; [exact E4|left; split; reflexivity].
  - eapply set_backend_if_selected; [exact E5|left; split; reflexivity].
Qed.

(** X10. After a [configure_backend] that succeeded, each category that was
    given an algorithm has it selected, with the parameters that
    [_new_params] makes for it: the later selections of the call have not
    touched them. The algorithm is one of the catalog of the category. *)
Theorem configure_backend_selects `{Runtime} fi tm fd fe fm c a self self' :
  configure_backend fi tm fd fe fm self = (Ok tt, self') ->
  configured fi tm fd fe fm c = Some a ->
  fst (get_backend c self') = Ok a
  /\ dict_get (p self') c = dict_get (p (snd (_new_params c a CVEqualizer_empty))) c
  /\ exists t, catalog c = Some t /\ tuple_mem t a = true.
Proof.
  intros E Hc.
  destruct (configure_backend_selected _ _ _ _ _ c a _ _ E Hc) as [Eb Gp].
  split; [exact Eb|]. split; [exact Gp|].
  now apply (get_backend_in_catalog c self').
Qed.

(** ** The keys of the registry *)

Lemma with_params_keys s c ps :
  In c (dict_keys (p s)) -> dict_keys (p (with_params s c ps)) = dict_keys (p s).
Proof. intros I. cbn [with_params p]. now apply dict_keys_set_present. Qed.

Lemma set_backend_keys `{Runtime} c a s :
  (forall c', In c' categories -> In c' (dict_keys (p s))) ->
  dict_keys (p (snd (set_backend c a s))) = dict_keys (p s).
Proof.
  intros K. destruct (set_backend_snd c a s) as [->|(Ic & ps & [->|[i ->]])];
    [reflexivity| |]; cbn [with_current p]; apply with_params_keys; auto.
Qed.

Lemma p_setitem_keys c n q s :
  dict_keys (p (snd (p_setitem c n q s))) = dict_keys (p s).
Proof.
  unfold p_setitem, bind, read, lift, write, getitem.
  destruct (dict_get (p s) c) as [params|] eqn:G; cbn [snd p]; [|reflexivity].
  apply dict_keys_set_present. eapply dict_get_In_keys; eauto.
Qed.

Lemma keeps_bind {A B} (m : M A) (k : A -> M B) :
  keeps_categories m -> (forall a, keeps_categories (k a)) -> keeps_categories (bind m k).
Proof.
  intros Hm Hk s K. unfold bind. specialize (Hm s K).
  destruct (m s) as [[a|e] s1]; cbn [snd] in *; [|exact Hm].
  rewrite <- Hm. apply Hk. now rewrite Hm.
Qed.

Lemma keeps_lift {A} (r : result A) : keeps_categories (lift r).
Proof. now intros s K. Qed.

Lemma keeps_ret {A} (a : A) : keeps_categories (ret a).
Proof. now intros s K. Qed.

Lemma keeps_get_backend c : keeps_categories (get_backend c).
Proof. intros s K. now rewrite get_backend_state. Qed.

Lemma keeps_set_backend `{Runtime} c a : keeps_categories (set_backend c a).
Proof. intros s K. now apply set_backend_keys. Qed.

Lemma keeps_set_backend_if `{Runtime} c value : keeps_categories (set_backend_if c value).
Proof. destruct value; [apply keeps_set_backend|apply keeps_ret]. Qed.

Lemma keeps_p_setitem c n q : keeps_categories (p_setitem c n q).
Proof. intros s K. now rewrite p_setitem_keys. Qed.

Lemma keeps_read_options `{Runtime} c section options :
  keeps_categories (read_options c section options).
Proof.
  induction options as [|o options IH]; cbn [read_options]; [apply keeps_ret|].
  destruct (String.eqb o "backend"); [exact IH|].
  apply keeps_bind; [apply keeps_lift|intros ?].
  apply keeps_bind; [apply keeps_lift|intros ?].
  apply keeps_bind; [apply keeps_p_setitem|intros _; exact IH].
Qed.

Lemma keeps_read_sections `{Runtime} parser cs :
  keeps_categories (read_sections parser cs).
Proof.
  induction cs as [|c cs IH]; cbn [read_sections]; [apply keeps_ret|].
  apply keeps_bind; [|intros _; exact IH].
  destruct (dict_get parser c) as [section|]; [|apply keeps_ret].
  apply keeps_bind; [apply keeps_lift|intros sb].
  apply keeps_bind; [apply keeps_get_backend|intros cur].
  apply keeps_bind; [|intros _; apply keeps_read_options].
  destruct (negb (String.eqb sb cur)); [apply keeps_set_backend|apply keeps_ret].
Qed.

Lemma keeps_can_calibrate mark c : keeps_categories (can_calibrate mark c).
Proof.
  intros s K. unfold can_calibrate, bind, read, lift, write, getitem, dict_mem.
  destruct (dict_get (p s) c) as [params|] eqn:G; cbn [negb snd p]; [|reflexivity].
  apply dict_keys_set_present. eapply dict_get_In_keys; eauto.
Qed.

Lemma keeps_configure_backend `{Runtime} fi tm fd fe fm :
  keeps_categories (configure_backend fi tm fd fe fm).
Proof.
  unfold configure_backend.
  repeat (apply keeps_bind; [apply keeps_set_backend_if|intros _]).
  apply keeps_set_backend_if.
Qed.

Lemma keeps_from_match_file `{Runtime} name fs :
  keeps_categories (from_match_file name fs).
Proof.
  intros s K. unfold from_match_file.
  destruct (dict_get fs (name ++ ".match")) as [parser|]; [|reflexivity].
  unfold bind at 1, read. now apply keeps_read_sections.
Qed.

Lemma keeps_has_categories {A} (m : M A) s :
  keeps_categories m -> has_categories s -> has_categories (snd (m s)).
Proof.
  intros Hm K c. rewrite (Hm s); [apply K|]. intros c' I. now apply K.
Qed.

(** X11. The keys of the registry are the five categories from the
    constructor on: no method adds or removes a category, whatever its
    arguments and its outcome. *)
Theorem registry_keeps_categories `{Runtime} settings backend self :
  has_categories (snd (CVEqualizer_init settings backend))
  /\ (has_categories self ->
      (forall c a, has_categories (snd (set_backend c a self)))
      /\ (forall fi tm fd fe fm,
             has_categories (snd (configure_backend fi tm fd fe fm self)))
      /\ (forall mark c, has_categories (snd (can_calibrate mark c self)))
      /\ (forall name fs, has_categories (snd (from_match_file name fs self)))).
Proof.
  assert (has_categories CVEqualizer_empty) as K0 by (intros c; reflexivity).
  split.
  - destruct backend as [b|]; cbn [CVEqualizer_init]; [|exact K0].
    apply keeps_has_categories; [apply keeps_configure_backend|exact K0].
  - intros K. split; [|split; [|split]].
    + intros c a. apply keeps_has_categories; [apply keeps_set_backend|exact K].
    + intros fi tm fd fe fm.
      apply keeps_has_categories; [apply keeps_configure_backend|exact K].
    + intros mark c. apply keeps_has_categories; [apply keeps_can_calibrate|exact K].
    + intros name fs.
      apply keeps_has_categories; [apply keeps_from_match_file|exact K].
Qed.

(** X12. [CVEqualizer(backend)] that succeeded has [backend] selected as the
    find method and the four algorithms of the settings in the other
    categories, each with the parameters that [_new_params] makes for
    it. *)
Theorem init_selects `{Runtime} settings b self :
  CVEqualizer_init settings (Some b) = (Ok tt, self) ->
  selected "find" b self
  /\ selected "tmatch" (template_match_backend settings) self
  /\ selected "fdetect" (feature_detect_backend settings) self
  /\ selected "fextract" (feature_extract_backend settings) self
  /\ selected "fmatch" (feature_match_backend settings) self.
Proof.
  cbn [CVEqualizer_init]. intros E.
  repeat split; eapply configure_backend_selected; try exact E; reflexivity.
Qed.

(** ** Marking for calibration *)

(** X13. [can_calibrate] on a category of the registry changes the marks
    [fixed] of its parameters and nothing else: names, order, values,
    ranges, [delta] and [tolerance] stay, and so does the rest of the
    equalizer. The last call decides: a call after another one leaves what
    it leaves alone. *)
Theorem can_calibrate_changes_marks_only mark c self params :
  dict_get (p self) c = Some params ->
  exists params',
    can_calibrate mark c self = (Ok tt, with_params self c params')
    /\ map (fun '(n, q) => (n, unmarked q)) params'
       = map (fun '(n, q) => (n, unmarked q)) params
    /\ forall mark',
         can_calibrate mark' c (with_params self c params') = can_calibrate mark' c self.
Proof.
  intros G. exists (map (fun '(n, q) => (n, set_fixed q (PBool (negb mark)))) params).
  split; [now apply can_calibrate_run|]. split.
  - rewrite map_map. apply map_ext. now intros [n q].
  - intros mark'.
    rewrite (can_calibrate_run mark' c _ _ (with_params_get self c _)).
    rewrite (can_calibrate_run mark' c self params G).
    rewrite with_params_twice, map_map. do 2 f_equal. apply map_ext. now intros [n q].
Qed.

(** ** Loading *)

Lemma p_setitem_same_at c n q c' s :
  c' <> c -> same_at c' s (snd (p_setitem c n q s)).
Proof.
  intros N. unfold p_setitem, bind, read, lift, write, getitem.
  destruct (dict_get (p s) c) as [params|]; cbn [snd]; [|apply same_at_refl].
  now apply (same_at_with_params c c' s).
Qed.

Lemma lift_same_at {A} (r : result A) c s : same_at c s (snd (lift r s)).
Proof. apply same_at_refl. Qed.

Lemma read_options_same_at `{Runtime} c section options c' :
  c' <> c -> forall s, same_at c' s (snd (read_options c section options s)).
Proof.
  intros N. induction options as [|o options IH]; cbn [read_options];
    [intros s; apply same_at_refl|].
  destruct (String.eqb o "backend"); [exact IH|].
  apply bind_rel; [apply same_at_trans|intros s; apply lift_same_at|intros ?].
  apply bind_rel; [apply same_at_trans|intros s; apply lift_same_at|intros ?].
  apply bind_rel; [apply same_at_trans|intros s; now apply p_setitem_same_at|intros _].
  exact IH.
Qed.

Lemma read_sections_same_at `{Runtime} (parser : matchfile) cs c :
  ~ In c cs \/ dict_get parser c = None ->
  forall s, same_at c s (snd (read_sections parser cs s)).
Proof.
  intros G. induction cs as [|c0 cs IH]; cbn [read_sections];
    [intros s; apply same_at_refl|].
  apply bind_rel; [apply same_at_trans| |intros _; apply IH; cbn [In] in G; tauto].
  destruct (dict_get parser c0) as [section|] eqn:G0; [|intros s; apply same_at_refl].
  assert (c <> c0) as N.
  { intros ->. destruct G as [G|G]; [apply G; now left|congruence]. }
  apply bind_rel; [apply same_at_trans|intros s; apply lift_same_at|intros sb].
  apply bind_rel; [apply same_at_trans| |intros cur].
  { intros s. rewrite get_backend_state. apply same_at_refl. }
  apply bind_rel; [apply same_at_trans| |intros _; now apply read_options_same_at].
  intros s. destruct (negb (String.eqb sb cur)); [|apply same_at_refl].
  now apply set_backend_same_at.
Qed.

(** X14. A load leaves alone every category that has no section in the
    file, whatever the other sections hold and whether the load succeeds
    or stops at one of them: the selection and the parameters of the
    category are those of before. *)
Theorem from_match_file_leaves_absent `{Runtime} name (fs : files) (parser : matchfile)
    c self :
  dict_get fs (name ++ ".match") = Some parser ->
  dict_get parser c = None ->
  same_at c self (snd (from_match_file name fs self)).
Proof.
  intros Gf Gc. unfold from_match_file. rewrite Gf. unfold bind at 1, read.
  apply read_sections_same_at. now right.
Qed.

(** ** Saving *)

Lemma write_sections_exact `{Runtime} self (items : dict (dict CVParameter)) :
  forall parser : matchfile,
    NoDup (dict_keys items) ->
    (forall c, In c (dict_keys items) -> ~ In c (dict_keys parser)) ->
    (forall c params, In (c, params) items ->
       is_ok (fst (get_backend c self)) = true /\ dict_get (p self) c = Some params
       /\ NoDup (dict_keys params) /\ ~ In "backend" (dict_keys params)) ->
    write_sections self (dict_keys items) parser
    = Ok (parser ++ map (fun '(c, params) => (c, section_of (backend_name self c) params))
                        items)%list.
Proof.
  induction items as [|[c params] items IH]; intros parser ND Fr Hc.
  - cbn [dict_keys map write_sections]. now rewrite app_nil_r.
  - cbn [dict_keys map fst] in ND, Fr. inversion ND as [|? ? Nc ND']; subst.
    destruct (Hc c params (or_introl eq_refl)) as (Ea & Gp & NDp & Nb).
    cbn [dict_keys map fst write_sections].
    assert (dict_mem parser c = false) as ->.
    { unfold dict_mem. rewrite dict_get_not_In; [reflexivity|]. apply Fr. now left. }
    cbn [negb]. unfold backend_name at 1.
    destruct (fst (get_backend c self)) as [a|]; [|discriminate].
    unfold getitem. rewrite Gp.
    unfold parser_set at 1. rewrite dict_get_set_same, dict_set_set.
    cbn [dict_set].
    rewrite (write_options_run c params _ [("backend", a)]);
      [|apply dict_get_set_same|exact NDp|].
    2:{ intros n I [<-|[]]. contradiction. }
    rewrite dict_set_set. fold (section_of a params).
    rewrite (dict_set_fresh parser c) by (apply Fr; now left).
    change (map fst items) with (dict_keys items).
    rewrite IH.
    + now rewrite <- app_assoc.
    + exact ND'.
    + intros c' I' I''. unfold dict_keys in I''. rewrite map_app in I''.
      apply in_app_or in I''. destruct I'' as [I''|[<-|[]]].
      * apply (Fr c'); [now right|exact I''].
      * contradiction.
    + intros c' params' I'. apply Hc. now right.
Qed.

(** X15. The file that [to_match_file] writes for an equalizer with a
    selection in every category and parameter names that are distinct and
    other than [backend] holds, for each category in the order of the
    registry, also one without parameters, a section with the algorithm
    under [backend] first and then each parameter in its order with the
    text of its [__repr__]. What the file held before is replaced, and no
    other file changes. *)
Theorem to_match_file_layout `{Runtime} self name (fs : files) :
  NoDup (dict_keys (p self)) ->
  (forall c params, In (c, params) (p self) ->
     is_ok (fst (get_backend c self)) = true
     /\ NoDup (dict_keys params) /\ ~ In "backend" (dict_keys params)) ->
  to_match_file self name fs = Ok (dict_set fs (name ++ ".match") (sections_of self))
  /\ dict_keys (sections_of self) = dict_keys (p self)
  /\ forall c params,
       In (c, params) (p self) ->
       exists a, fst (get_backend c self) = Ok a
                 /\ dict_get (sections_of self) c
                    = Some (("backend", a)
                            :: map (fun '(n, q) => (n, CVParameter_repr q)) params).
Proof.
  intros ND Hc. split; [|split].
  - unfold to_match_file.
    rewrite (write_sections_exact self (p self) []); [reflexivity|exact ND|intros c _ []|].
    intros c params I. destruct (Hc c params I) as (Ea & NDp & Nb).
    repeat split; auto. now apply dict_In_get.
  - unfold sections_of, dict_keys. rewrite map_map. apply map_ext. now intros [c params].
  - intros c params I. destruct (Hc c params I) as (Ea & _ & _).
    destruct (fst (get_backend c self)) as [a|] eqn:Eb; [|discriminate].
    exists a. split; [reflexivity|].
    apply dict_In_get.
    + unfold sections_of, dict_keys. rewrite map_map.
      erewrite map_ext; [exact ND|]. now intros [c' params'].
    + assert (backend_name self c = a) as Ea' by (unfold backend_name; now rewrite Eb).
      pose proof (in_map (fun '(c, params) => (c, section_of (backend_name self c) params))
                    _ _ I) as J.
      cbn beta iota in J. rewrite Ea' in J. exact J.
Qed.

(** ** A load that succeeds *)

Lemma holds_section_same `{Runtime} section c s s' :
  same_at c s s' -> holds_section section c s -> holds_section section c s'.
Proof.
  intros S [(a & Ea & Eb) Ho]. split.
  - exists a. split; [exact Ea|]. now rewrite (same_at_get_backend c s s' S).
  - intros o raw N G. destruct (Ho o raw N G) as (params & q & Gp & Eq & Gq).
    exists params, q. destruct S as [_ ->]. auto.
Qed.

Lemma read_options_Ok `{Runtime} c section options :
  forall ps self s',
    read_options c section options (with_params self c ps) = (Ok tt, s') ->
    exists ps',
      s' = with_params self c ps'
      /\ (forall o, In o options -> o <> "backend" ->
            exists raw q, dict_get section o = Some raw /\ from_string raw = Ok q
                          /\ dict_get ps' o = Some q)
      /\ (forall n, ~ In n options -> dict_get ps' n = dict_get ps n).
Proof.
  induction options as [|o options IH]; intros ps self s'; cbn [read_options].
  - intros [= <-]. exists ps. split; [reflexivity|]. split; [intros ? []|reflexivity].
  - destruct (String.eqb_spec o "backend") as [->|No].
    + intros E. destruct (IH ps self s' E) as (ps' & -> & Hin & Hout).
      exists ps'. split; [reflexivity|]. split.
      * intros o' [<-|I] N; [congruence|now apply Hin].
      * intros n Nn. apply Hout. intros I. apply Nn. now right.
    + unfold bind at 1. unfold lift at 1, parser_get.
      destruct (dict_get section o) as [raw|] eqn:G; [|discriminate].
      unfold bind at 1. unfold lift at 1.
      destruct (from_string raw) as [q|] eqn:Eq; [|discriminate].
      unfold bind at 1. rewrite p_setitem_run.
      intros E. destruct (IH _ self s' E) as (ps' & -> & Hin & Hout).
      exists ps'. split; [reflexivity|]. split.
      * intros o' I N. destruct (in_dec string_dec o' options) as [I'|I'];
          [now apply Hin|].
        destruct I as [<-|I]; [|contradiction].
        exists raw, q. split; [exact G|]. split; [exact Eq|].
        rewrite (Hout o I'). apply dict_get_set_same.
      * intros n Nn. rewrite Hout by (intros I; apply Nn; now right).
        apply dict_get_set_other. intros ->. apply Nn. now left.
Qed.

Lemma read_section_Ok `{Runtime} c section s s' :
  In c (dict_keys (p s)) ->
  (section_backend <- lift (parser_get section "backend") ;;
   current <- get_backend c ;;
   (if negb (String.eqb section_backend current)
    then set_backend c section_backend
    else ret tt) ;;
   read_options c section (dict_keys section)) s = (Ok tt, s') ->
  holds_section section c s'.
Proof.
  intros Ic. destruct (dict_keys_In_get _ _ Ic) as [ps Gp].
  unfold bind at 1. unfold lift at 1.
  destruct (parser_get section "backend") as [a|] eqn:Ea; [|discriminate].
  unfold bind at 1. rewrite (get_backend_state c s).
  destruct (fst (get_backend c s)) as [cur|] eqn:Ecur; [|discriminate].
  assert (forall s1 ps1,
            fst (get_backend c s1) = Ok a ->
            read_options c section (dict_keys section) (with_params s1 c ps1) = (Ok tt, s') ->
            holds_section section c s') as Hfin.
  { intros s1 ps1 Eb Er.
    destruct (read_options_Ok c section _ ps1 s1 s' Er) as (ps' & -> & Hin & _).
    split.
    - exists a. split; [exact Ea|].
      now rewrite (get_backend_same c s1) by reflexivity.
    - intros o raw N G. destruct (Hin o) as (raw' & q & G' & Eq & Gq);
        [eapply dict_get_In_keys; eauto|exact N|].
      rewrite G in G'. injection G' as <-.
      exists ps', q. split; [apply with_params_get|]. auto. }
  destruct (String.eqb_spec a cur) as [->|Na]; cbn [negb].
  - unfold bind at 1, ret. rewrite <- (with_params_id s c ps Gp) at 1.
    now apply Hfin.
  - unfold bind at 1.
    destruct (set_backend c a s) as [[[]|] s2] eqn:Es; [|discriminate].
    assert (fst (set_backend c a s) = Ok tt) as Es1 by now rewrite Es.
    destruct (set_backend_Ok_catalog c a s Es1) as (t & C & I).
    destruct (set_backend_run c t a C I) as (r & ps0 & i & _ & _ & Gi & _ & Run).
    rewrite Run in Es. destruct r as [[]|]; [|discriminate]. injection Es as <-.
    rewrite <- with_params_current. apply Hfin.
    now rewrite (get_backend_with_current c t a i s C Gi).
Qed.

Lemma read_sections_one `{Runtime} (parser : matchfile) c s :
  snd (read_sections parser [c] s)
  = snd (match dict_get parser c with
         | Some section =>
             (section_backend <- lift (parser_get section "backend") ;;
              current <- get_backend c ;;
              (if negb (String.eqb section_backend current)
               then set_backend c section_backend
               else ret tt) ;;
              read_options c section (dict_keys section)) s
         | None => (Ok tt, s)
         end).
Proof.
  cbn [read_sections]. unfold bind at 1.
  destruct (dict_get parser c) as [section|]; [|reflexivity].
  match goal with |- snd (match ?m with _ => _ end) = _ => destruct m as [[[]|] s1] end;
    reflexivity.
Qed.

Lemma read_sections_Ok `{Runtime} (parser : matchfile) cs :
  forall s s',
    NoDup cs -> (forall c, In c categories -> In c (dict_keys (p s))) ->
    (forall c, In c cs -> In c (dict_keys (p s))) ->
    read_sections parser cs s = (Ok tt, s') ->
    forall c section, In c cs -> dict_get parser c = Some section ->
                      holds_section section c s'.
Proof.
  induction cs as [|c0 cs IH]; intros s s' ND K Hcs E c section I G; [destruct I|].
  inversion ND as [|? ? N0 ND']; subst.
  pose proof (keeps_read_sections parser [c0] s K) as K1.
  rewrite read_sections_one in K1.
  cbn [read_sections] in E. unfold bind at 1 in E.
  destruct (dict_get parser c0) as [section0|] eqn:G0.
  - match type of E with
    | match ?m with _ => _ end = _ => destruct m as [[[]|] s1] eqn:E1
    end; [|discriminate].
    cbn [snd] in K1.
    destruct I as [<-|I].
    + rewrite G in G0. injection G0 as <-.
      apply (holds_section_same section c0 s1).
      * replace s' with (snd (read_sections parser cs s1)) by now rewrite E.
        apply read_sections_same_at. now left.
      * apply (read_section_Ok c0 section s s1); [|exact E1].
        apply Hcs. now left.
    + apply (IH s1 s' ND'); auto; rewrite K1; auto.
      intros c' I'. apply Hcs. now right.
  - unfold ret in E. destruct I as [<-|I]; [congruence|].
    apply (IH s s' ND' K); auto. intros c' I'. apply Hcs. now right.
Qed.

(** X16. A load that succeeds applies the whole file: for each category
    with a section in the file, the algorithm under [backend] is selected
    and every other option of the section is a parameter of the category,
    with the value that [from_string] reads from its text; a parameter
    that the category did not have is added. *)
Theorem from_match_file_applies_file `{Runtime} name (fs : files) (parser : matchfile)
    self self' c section :
  NoDup (dict_keys (p self)) -> has_categories self ->
  from_match_file name fs self = (Ok tt, self') ->
  dict_get fs (name ++ ".match") = Some parser ->
  In c categories -> dict_get parser c = Some section ->
  (exists a, parser_get section "backend" = Ok a /\ fst (get_backend c self') = Ok a)
  /\ forall o raw,
       o <> "backend" -> dict_get section o = Some raw ->
       exists params q,
         dict_get (p self') c = Some params /\ from_string raw = Ok q
         /\ dict_get params o = Some q.
Proof.
  intros ND K E Gf Ic Gs. unfold from_match_file in E. rewrite Gf in E.
  unfold bind at 1, read in E.
  exact (read_sections_Ok parser (dict_keys (p self)) self self' ND
           (fun c I => proj2 (K c) I) (fun c I => I) E c section
           (proj2 (K c) Ic) Gs).
Qed.

(** ** The introspection of the OpenCV object *)

Lemma only_getter_tail x attrs g v : only_getter (x :: attrs) g v -> only_getter attrs g v.
Proof. intros U g' call I. apply U. now right. Qed.

Lemma examine_Ok c (attrs : backend) :
  is_fdetect_or_fextract c = true ->
  forall ps self s',
    examine c attrs (with_params self c ps) = (Ok tt, s') ->
    exists ps',
      s' = with_params self c ps'
      /\ (forall n,
            (forall g call, In (g, call) attrs -> String.prefix "get" g = true ->
                            remove_get g <> n) ->
            dict_get ps' n = dict_get ps n)
      /\ (forall g v,
            In (g, Ok (Scalar v)) attrs -> is_scalar v = true ->
            String.prefix "get" g = true ->
            only_getter attrs g v ->
            exists q, dict_get ps' (remove_get g) = Some q /\ introspected g v = Ok q).
Proof.
  intros Hc. induction attrs as [|[g0 call0] attrs IH]; intros ps self s'.
  - cbn [examine]. intros [= <-]. exists ps.
    split; [reflexivity|]. split; [reflexivity|intros ? ? []].
  - cbn [examine]. destruct (String.prefix "get" g0) eqn:P0; cbn [negb].
    2:{ intros E. destruct (IH ps self s' E) as (ps' & -> & Hout & Hin).
        exists ps'. split; [reflexivity|]. split.
        - intros n Hn. apply Hout. intros g call I. apply (Hn g call). now right.
        - intros g v [[= -> ->]|I] Sv P U; [congruence|].
          apply Hin; auto. eapply only_getter_tail; eauto. }
    unfold bind at 1. unfold lift at 1.
    destruct call0 as [[val|]|e]; [| |discriminate].
    2:{ intros E. destruct (IH ps self s' E) as (ps' & -> & Hout & Hin).
        exists ps'. split; [reflexivity|]. split.
        - intros n Hn. apply Hout. intros g call I. apply (Hn g call). now right.
        - intros g v [[= -> ->]|I] Sv P U.
          apply Hin; auto. eapply only_getter_tail; eauto. }
    destruct (is_scalar val) eqn:Sval; cbn [negb].
    2:{ intros E. destruct (IH ps self s' E) as (ps' & -> & Hout & Hin).
        exists ps'. split; [reflexivity|]. split.
        - intros n Hn. apply Hout. intros g call I. apply (Hn g call). now right.
        - intros g v [[= -> ->]|I] Sv P U; [congruence|].
          apply Hin; auto. eapply only_getter_tail; eauto. }
    rewrite Hc. cbn [andb].
    assert (forall k : unit -> M unit,
              bind ((if String.eqb (remove_get g0) "firstLevel" then
                       p_new c (remove_get g0)
                         (CVParameter_init val (PInt 0) (PInt 100)
                            default_delta default_tolerance default_fixed)
                     else if String.eqb (remove_get g0) "nFeatures" then
                       p_new c (remove_get g0)
                         (CVParameter_init val PNone PNone
                            (PInt 100) default_tolerance default_fixed)
                     else if String.eqb (remove_get g0) "WTA_K" then
                       p_new c (remove_get g0)
                         (CVParameter_init val (PInt 2) (PInt 4)
                            default_delta default_tolerance default_fixed)
                     else if String.eqb (remove_get g0) "scaleFactor" then
                       p_new c (remove_get g0)
                         (CVParameter_init val (PFloat 1.01) (PFloat 2.0)
                            default_delta default_tolerance default_fixed)
                     else
                       p_new c (remove_get g0)
                         (CVParameter_init val PNone PNone
                            default_delta default_tolerance default_fixed))) k
              = bind (p_new c (remove_get g0) (introspected g0 val)) k) as ->.
    { intros k. unfold introspected, refinement.
      repeat match goal with
             | |- context [String.eqb (remove_get g0) ?n] =>
                 destruct (String.eqb (remove_get g0) n)
             end; reflexivity. }
    unfold bind at 1. unfold p_new, bind at 1, lift at 1.
    destruct (introspected g0 val) as [q0|] eqn:E0; [|discriminate].
    rewrite p_setitem_run.
    intros E. destruct (IH _ self s' E) as (ps' & -> & Hout & Hin).
    exists ps'. split; [reflexivity|]. split.
    + intros n Hn. rewrite Hout by (intros g call I; apply (Hn g call); now right).
      apply dict_get_set_other. intros ->.
      now apply (Hn g0 (Ok (Scalar val)) (or_introl eq_refl)).
    + intros g v [[= -> ->]|I] Sv P U.
      * destruct (existsb (fun x : string * result pyobj =>
                             String.prefix "get" (fst x)
                             && String.eqb (remove_get (fst x)) (remove_get g)) attrs)
          eqn:Ex.
        -- apply existsb_exists in Ex. destruct Ex as ([g' call'] & I' & Hx).
           cbn [fst] in Hx. apply andb_true_iff in Hx. destruct Hx as [P' E'].
           apply String.eqb_eq in E'.
           pose proof (U g' call' (or_intror I') P' E') as [= -> ->].
           apply Hin; auto. eapply only_getter_tail; eauto.
        -- exists q0. split; [|exact E0].
           rewrite Hout; [apply dict_get_set_same|].
           intros g' call' I' P' E'.
           assert (existsb (fun x : string * result pyobj =>
                              String.prefix "get" (fst x)
                              && String.eqb (remove_get (fst x)) (remove_get g)) attrs
                   = true) as Ex'.
           { apply existsb_exists. exists (g', call'). split; [exact I'|].
             cbn [fst]. rewrite P', E'. now rewrite String.eqb_refl. }
           congruence.
      * apply Hin; auto. eapply only_getter_tail; eauto.
Qed.

Lemma new_params_examines `{Runtime} c a attrs self :
  In c ["fdetect"; "fextract"] -> a <> "oldSURF" ->
  cv2_create (a ++ "_create") = Ok attrs ->
  exists ps0, _new_params c a self = examine c attrs (with_params self c ps0).
Proof.
  intros Ic N E. unfold _new_params.
  destruct (String.eqb_spec a "oldSURF") as [|_]; [contradiction|].
  destruct (cv2_create (a ++ "_create")) as [attrs'|]; [|discriminate]. injection E as ->.
  unfold bind at 1. rewrite p_reset_run.
  destruct Ic as [<-|[<-|[]]]; cbn [String.eqb Ascii.eqb Bool.eqb].
  - destruct (CVParameter5 (PFloat 4.0) (PFloat 1.0) (PFloat 10.0) (PFloat 1.0) (PFloat 1.0))
      as [zoom|] eqn:Ez; [|vm_compute in Ez; discriminate].
    unfold bind at 1. unfold p_new at 1. unfold bind at 1, lift at 1.
    rewrite p_setitem_run.
    unfold bind at 1. unfold p_new at 1. unfold bind at 1, lift at 1.
    rewrite p_setitem_run.
    unfold bind at 1, lift at 1. eexists. reflexivity.
  - unfold bind at 1, lift at 1. eexists. reflexivity.
Qed.

(** X17. What the introspection of [_new_params] gives: after a detector
    or extractor other than [oldSURF] was selected, each getter of the
    OpenCV object that returned a [bool], an [int], a [float] or [None]
    has made a parameter, named as the getter without [get], with the
    returned value, excluded from calibration, and with the bounds and the
    [delta] of the defaults of the constructor but under the four names
    that the code knows. *)
Theorem set_backend_introspects `{Runtime} c a attrs self self' g v :
  In c ["fdetect"; "fextract"] -> a <> "oldSURF" ->
  cv2_create (a ++ "_create") = Ok attrs ->
  set_backend c a self = (Ok tt, self') ->
  In (g, Ok (Scalar v)) attrs -> is_scalar v = true ->
  String.prefix "get" g = true ->
  only_getter attrs g v ->
  exists params q,
    dict_get (p self') c = Some params
    /\ dict_get params (remove_get g) = Some q
    /\ introspected g v = Ok q
    /\ value q = v /\ fixed q = PBool true.
Proof.
  intros Ic N Ecv Es Ig Sv P U.
  assert (fst (set_backend c a self) = Ok tt) as Es1 by now rewrite Es.
  destruct (set_backend_Ok_catalog c a self Es1) as (t & C & I).
  destruct (set_backend_run c t a C I) as (r & ps & i & _ & _ & _ & RunN & Run).
  rewrite Run in Es. destruct r as [[]|]; [|discriminate]. injection Es as <-.
  destruct (new_params_examines c a attrs self Ic N Ecv) as (ps0 & En).
  rewrite RunN in En. symmetry in En.
  assert (is_fdetect_or_fextract c = true) as Hc.
  { destruct Ic as [<-|[<-|[]]]; reflexivity. }
  destruct (examine_Ok c attrs Hc ps0 self _ En) as (ps' & Eps & _ & Hin).
  assert (ps' = ps) as ->.
  { apply (f_equal (fun s => dict_get (p s) c)) in Eps.
    rewrite !with_params_get in Eps. congruence. }
  destruct (Hin g v Ig Sv P U) as (q & Gq & Eq).
  exists ps, q. split; [apply with_params_get|]. split; [exact Gq|]. split; [exact Eq|].
  unfold introspected in Eq. destruct (refinement (remove_get g)) as [[lo hi] d].
  pose proof (CVParameter_init_Ok _ _ _ _ _ _ _ Eq) as ->. split; reflexivity.
Qed.

(** ** Synchronizing *)

Lemma edit_value_same c n s params q :
  dict_get (p s) c = Some params -> dict_get params n = Some q ->
  edit_value c n (value q) s = (Ok tt, s).
Proof.
  intros Gp Gq. unfold edit_value, bind, read, lift, getitem. rewrite Gp, Gq.
  unfold p_setitem, bind, read, lift, write, getitem. rewrite Gp.
  replace {| value := value q; delta := delta q; tolerance := tolerance q;
             range := range q; fixed := fixed q |} with q by now destruct q.
  rewrite (dict_set_id params n q Gq), (dict_set_id (p s) c params Gp).
  now destruct s.
Qed.

Lemma sync_attributes_state {object} `{Backend object} c attributes :
  forall (backend : object) s, snd (sync_attributes c attributes backend s) = s.
Proof.
  induction attributes as [|attribute rest IH]; intros backend s; [reflexivity|].
  cbn [sync_attributes].
  destruct (negb (String.prefix "get" attribute)); [apply IH|].
  unfold bind at 1, read. unfold bind at 1, lift at 1, getitem at 1.
  destruct (dict_get (p s) c) as [params|] eqn:Gp; [|reflexivity].
  unfold dict_mem.
  destruct (dict_get params (remove_get attribute)) as [q|] eqn:Gq; [|apply IH].
  unfold bind at 1, lift at 1, getitem at 1. rewrite Gq.
  destruct (negb (hasattr backend (replace_get_set attribute))); [apply IH|].
  unfold bind at 1, lift at 1.
  destruct (call backend (replace_get_set attribute) (value q)) as [backend'|e];
    [|reflexivity].
  unfold bind at 1. rewrite (edit_value_same c _ s params q Gp Gq). apply IH.
Qed.

(** X18. Synchronizing an object of OpenCV never changes the equalizer:
    the value it assigns back to a parameter is the one it read. For the
    find methods and the template matchers the object is handed back as it
    came, without a look at the equalizer; for the feature matchers too,
    once the category has a selection, and no setter is ever called. *)
Theorem sync_backend_to_params_keeps_equalizer {object} `{Backend object}
    (backend : object) category self :
  snd (sync_backend_to_params backend category self) = self
  /\ (In category ["find"; "tmatch"] ->
      fst (sync_backend_to_params backend category self) = Ok backend)
  /\ (category = "fmatch" ->
      fst (sync_backend_to_params backend category self)
      = match fst (get_backend category self) with
        | Ok _ => Ok backend
        | Raise e => Raise e
        end).
Proof.
  split; [|split].
  - unfold sync_backend_to_params.
    destruct (String.eqb category "find" || String.eqb category "tmatch");
      [reflexivity|].
    unfold bind at 1.
    destruct (String.eqb category "fdetect").
    + unfold bind at 1. rewrite (get_backend_state category self).
      destruct (fst (get_backend category self)) as [current|]; [|reflexivity].
      unfold ret at 1. destruct (String.eqb current "oldSURF"); [reflexivity|].
      destruct (String.eqb category "fmatch"); [|apply sync_attributes_state].
      unfold bind. rewrite (get_backend_state category self).
      destruct (fst (get_backend category self)); [|reflexivity].
      now destruct (tuple_mem _ _).
    + unfold ret at 1.
      destruct (String.eqb category "fmatch"); [|apply sync_attributes_state].
      unfold bind. rewrite (get_backend_state category self).
      destruct (fst (get_backend category self)); [|reflexivity].
      now destruct (tuple_mem _ _).
  - intros [<-|[<-|[]]]; reflexivity.
  - intros ->. unfold sync_backend_to_params.
    cbn [String.eqb Ascii.eqb Bool.eqb orb]. unfold bind at 1, ret at 1.
    unfold bind. rewrite (get_backend_state "fmatch" self).
    destruct (fst (get_backend "fmatch" self)); [|reflexivity].
    now destruct (tuple_mem _ _).
Qed.

Lemma sync_attributes_recorder c s params attributes :
  dict_get (p s) c = Some params ->
  forall o : recorder,
    @sync_attributes recorder recorder_backend c attributes o s
    = (Ok {| names := names o;
             calls := (calls o ++ pushes params (names o) attributes)%list |}, s).
Proof.
  intros Gp. induction attributes as [|attribute rest IH]; intros o.
  - cbn [sync_attributes pushes flat_map]. rewrite app_nil_r. now destruct o.
  - cbn [sync_attributes]. unfold pushes. cbn [flat_map]. fold (pushes params (names o) rest).
    destruct (String.prefix "get" attribute); cbn [negb app]; [|apply IH].
    unfold bind at 1, read. unfold bind at 1, lift at 1, getitem at 1. rewrite Gp.
    unfold dict_mem.
    destruct (dict_get params (remove_get attribute)) as [q|] eqn:Gq; [|apply IH].
    unfold bind at 1, lift at 1, getitem at 1. rewrite Gq.
    cbn [hasattr recorder_backend].
    destruct (tuple_mem (names o) (replace_get_set attribute)); cbn [negb app];
      [|apply IH].
    unfold bind at 1, lift at 1. cbn [call recorder_backend].
    unfold bind at 1. rewrite (edit_value_same c _ s params q Gp Gq).
    rewrite IH. cbn [names calls]. now rewrite <- app_assoc.
Qed.

(** X19. What the synchronization gives to an object: for a detector other
    than [oldSURF] and for an extractor, each getter of the object that
    names a parameter of the category and has a setter gets the value of
    the parameter through that setter, in the order of [dir]; nothing else
    is called, and the equalizer stays as it is. *)
Theorem sync_backend_to_params_pushes c self params (o : recorder) :
  In c ["fdetect"; "fextract"] ->
  (c = "fdetect" -> exists a, fst (get_backend c self) = Ok a /\ a <> "oldSURF") ->
  dict_get (p self) c = Some params ->
  @sync_backend_to_params recorder recorder_backend o c self
  = (Ok {| names := names o;
           calls := (calls o ++ pushes params (names o) (names o))%list |}, self).
Proof.
  intros Ic Hsel Gp. unfold sync_backend_to_params.
  destruct Ic as [<-|[<-|[]]]; cbn [String.eqb Ascii.eqb Bool.eqb orb].
  - destruct (Hsel eq_refl) as (a & Ea & Na).
    unfold bind at 1. unfold bind at 1. rewrite (get_backend_state "fdetect" self), Ea.
    unfold ret at 1. destruct (String.eqb_spec a "oldSURF") as [|_]; [contradiction|].
    now apply sync_attributes_recorder.
  - unfold bind at 1, ret at 1. now apply sync_attributes_recorder.
Qed.

(** ** The desktop control *)

(** X20. [DCEqualizer.configure_backend] checks nothing: whatever the name
    and the arguments, the name becomes the current backend, the
    parameters of before are dropped, and the new ones depend on the name
    and the arguments only. Their names are those of the backend, whatever
    the number of arguments; a name outside of [algorithms] leaves the
    equalizer without parameters. The backend of [DCEqualizer(backend)] is
    [backend], also when it is [None]. *)
Theorem dc_configure_backend_checks_nothing name args self self0 backend :
  DC.get_backend (DC.configure_backend name args self) = Some name
  /\ DC.configure_backend name args self = DC.configure_backend name args self0
  /\ dict_keys (DC.p (DC.configure_backend name args self))
     = (if String.eqb name "autopy" then ["os_type"]
        else if String.eqb name "qemu" then ["qemu_monitor"]
        else if String.eqb name "vncdotool" then ["vnc_hostname"; "vnc_port"]
        else [])
  /\ (tuple_mem DC.algorithms name = false ->
      DC.p (DC.configure_backend name args self) = [])
  /\ DC.get_backend (DC.DCEqualizer_init backend) = backend.
Proof.
  assert (forall n a s, DC.get_backend (DC.configure_backend n a s) = Some n) as Hget.
  { intros n a s. unfold DC.configure_backend, DC._new_params, DC.get_backend.
    destruct (String.eqb n "autopy"), (String.eqb n "qemu"), (String.eqb n "vncdotool");
      try reflexivity; destruct a as [|a0 [|a1 [|a2 a]]]; reflexivity. }
  split; [apply Hget|].
  split; [|split; [|split]].
  - unfold DC.configure_backend, DC._new_params. cbn [DC._current DC.p]. reflexivity.
  - unfold DC.configure_backend, DC._new_params.
    destruct (String.eqb_spec name "autopy") as [->|N1]; [reflexivity|].
    destruct (String.eqb_spec name "qemu") as [->|N2].
    { now destruct args as [|a0 [|a1 args]]. }
    destruct (String.eqb_spec name "vncdotool") as [->|N3]; [|reflexivity].
    now destruct args as [|a0 [|a1 [|a2 args]]].
  - unfold DC.configure_backend, DC._new_params, DC.algorithms. cbn [tuple_mem].
    rewrite (String.eqb_sym "autopy"), (String.eqb_sym "qemu"),
      (String.eqb_sym "vncdotool").
    destruct (String.eqb name "autopy"); [discriminate|].
    destruct (String.eqb name "qemu"); [discriminate|].
    destruct (String.eqb name "vncdotool"); [discriminate|reflexivity].
  - destruct backend as [b|]; [|reflexivity]. apply Hget.
Qed.

(** ** The settings *)

Lemma eq_bool_int z :
  Static.eq_bool (Py (PInt z)) true || Static.eq_bool (Py (PInt z)) false
  = ((z =? 0) || (z =? 1))%Z.
Proof.
  unfold Static.eq_bool, py_le. cbn [to_num].
  destruct (Z.leb_spec z 1), (Z.leb_spec 1 z), (Z.leb_spec z 0), (Z.leb_spec 0 z),
    (Z.eqb_spec z 0), (Z.eqb_spec z 1); cbn [andb orb]; try reflexivity; lia.
Qed.

(** X21. The three boolean settings accept more than booleans: the test
    [value == True or value == False] lets the integers 0 and 1 through,
    and the attribute then holds the integer; any other integer, a text
    and an object that compares by identity raise [ValueError] and leave
    the settings as they were; [None] reads the attribute and changes
    nothing. What was accepted is what the next read returns. *)
Theorem boolean_settings_accept_0_and_1 m attribute ns :
  In (m, attribute) boolean_settings ->
  (forall b, m (Py (PBool b)) ns = (Ok (Py PNone), dict_set ns attribute (Py (PBool b))))
  /\ (forall z, m (Py (PInt z)) ns
                = if ((z =? 0) || (z =? 1))%Z
                  then (Ok (Py PNone), dict_set ns attribute (Py (PInt z)))
                  else (Raise ValueError, ns))
  /\ (forall s, m (Text s) ns = (Raise ValueError, ns))
  /\ (forall id, m (Object id) ns = (Raise ValueError, ns))
  /\ snd (m (Py PNone) ns) = ns
  /\ (forall value ns', value <> Py PNone -> m value ns = (Ok (Py PNone), ns') ->
                        fst (m (Py PNone) ns') = Ok value).
Proof.
  intros I.
  assert (m = Static.boolean_property attribute) as ->.
  { destruct I as [[= <- <-]|[[= <- <-]|[[= <- <-]|[]]]]; reflexivity. }
  clear I. unfold Static.boolean_property.
  split; [|split; [|split; [|split; [|split]]]].
  - intros [|]; reflexivity.
  - intros z. rewrite eq_bool_int. now destruct ((z =? 0) || (z =? 1))%Z.
  - reflexivity.
  - reflexivity.
  - reflexivity.
  - intros value ns' N E. unfold Static.getattr. cbn [fst].
    assert (ns' = dict_set ns attribute value) as ->.
    { destruct value as [[| | | |]| |]; try congruence;
        try (destruct (_ || _) in E);
        unfold Static.setattr in E; congruence. }
    now rewrite dict_get_set_same.
Qed.

(** X22. The settings of the algorithms are checked by the equalizer, not
    by their setters: a setter takes any name, and a [CVEqualizer(backend)]
    that is built from the settings afterwards succeeds only if the name is
    in the catalog of its category, which then has it selected. *)
Theorem backend_settings_checked_by_equalizer `{Runtime} m attribute c name ns :
  In (m, attribute, c) backend_settings ->
  m (Text name) ns = (Ok (Py PNone), dict_set ns attribute (Text name))
  /\ forall settings b self,
       settings_of (dict_set ns attribute (Text name)) = Some settings ->
       CVEqualizer_init settings (Some b) = (Ok tt, self) ->
       fst (get_backend c self) = Ok name
       /\ exists t, catalog c = Some t /\ tuple_mem t name = true.
Proof.
  intros I. split.
  - destruct I as [[= <- <- <-]|[[= <- <- <-]|[[= <- <- <-]|[[= <- <- <-]|[]]]]];
      reflexivity.
  - intros settings b self Es Ei.
    assert (configured (Some b) (Some (template_match_backend settings))
              (Some (feature_detect_backend settings))
              (Some (feature_extract_backend settings))
              (Some (feature_match_backend settings)) c = Some name) as Hc.
    { unfold settings_of in Es.
      destruct I as [[= <- <- <-]|[[= <- <- <-]|[[= <- <- <-]|[[= <- <- <-]|[]]]]];
        rewrite dict_get_set_same in Es;
        repeat match type of Es with
               | context [dict_get (dict_set ns ?k ?v) ?k'] =>
                   destruct (dict_get (dict_set ns k v) k') as [[| |]|];
                   try discriminate Es
               end;
        injection Es as <-; reflexivity. }
    cbn [CVEqualizer_init] in Ei.
    destruct (configure_backend_selected _ _ _ _ _ c name _ _ Ei Hc) as [Eb _].
    split; [exact Eb|]. now apply (get_backend_in_catalog c self).
Qed.

(** X23. The names that the setting of the desktop control backend accepts
    are those of [DCEqualizer.algorithms], and they are the names for
    which [DCEqualizer] has parameters: the list of the setter and the
    branches of [_new_params] agree. *)
Theorem desktop_control_backends_agree name ns args self :
  (is_ok (fst (Static.desktop_control_backend (Text name) ns)) = true
   <-> tuple_mem DC.algorithms name = true)
  /\ (tuple_mem DC.algorithms name = true
      <-> DC.p (DC.configure_backend name args self) <> []).
Proof.
  split.
  - unfold Static.desktop_control_backend, DC.algorithms.
    destruct (tuple_mem ["autopy"; "qemu"; "vncdotool"] name); cbn [negb];
      split; intros E; first [exact E | reflexivity | discriminate].
  - unfold DC.configure_backend, DC._new_params, DC.algorithms. cbn [tuple_mem].
    rewrite (String.eqb_sym "autopy"), (String.eqb_sym "qemu"),
      (String.eqb_sym "vncdotool").
    destruct (String.eqb name "autopy"), (String.eqb name "qemu"),
      (String.eqb name "vncdotool"); cbn [orb];
      destruct args as [|a0 [|a1 [|a2 args]]];
      (split;
       [ first [ discriminate | intros _; discriminate ]
       | first [ reflexivity | intros N; now contradiction N ] ]).
Qed.

(** ** The further theorems at work on the examples *)

(** X2: a similarity of 1.5 with the bounds 0.0 and 1.0. *)
Lemma constructor_rejects_out_of_bounds_witness :
  CVParameter_init (PFloat 1.5) (PFloat 0.0) (PFloat 1.0)
    (PFloat 0.1) (PFloat 0.1) (PBool true) = Raise AssertionError.
Proof.
  apply (constructor_rejects_out_of_bounds (PFloat 1.5) (PFloat 0.0) (PFloat 1.0)
           (PFloat 0.1) (PFloat 0.1) (PBool true)).
  right. split; [discriminate|reflexivity].
Defined.

(** X3: a stored similarity. *)
Lemma decoded_parameter_within_bounds_witness :
  exists q,
    @from_string sample_runtime
      "<value='0.75' min='0.0' max='1.0' delta='0.1' tolerance='0.1' fixed='True'>"
    = Ok q
    /\ within (value q) (fst (range q)) (snd (range q)).
Proof.
  eexists. split; [vm_compute; reflexivity|].
  apply (@decoded_parameter_within_bounds sample_runtime
           "<value='0.75' min='0.0' max='1.0' delta='0.1' tolerance='0.1' fixed='True'>").
  vm_compute. reflexivity.
Defined.


(** X5: the text of a registered default, followed by a comment. *)
Lemma from_string_ignores_trailing_text_witness :
  exists q,
    CVParameter_init (PFloat 0.9) (PFloat 0.0) (PFloat 1.0)
      (PFloat 0.1) (PFloat 0.1) (PBool true) = Ok q
    /\ @from_string sample_runtime (@CVParameter_repr sample_runtime q ++ " ; tuned by hand")
       = Ok q.
Proof.
  eexists. split; [reflexivity|].
  apply (@from_string_ignores_trailing_text sample_runtime
           (PFloat 0.9) (PFloat 0.0) (PFloat 1.0) (PFloat 0.1) (PFloat 0.1)
           (PBool true));
    [ reflexivity | | | | | | exact I | reflexivity ];
    cbn [value range delta tolerance fst snd value_ok bound_ok step_ok];
    unfold plain, reads_back; repeat split; vm_compute; reflexivity.
Defined.

(** X6: selecting the template method on the tuned equalizer leaves the
    detectors alone. *)
Lemma set_backend_touches_one_category_witness :
  same_at "fdetect" tuned_equalizer
    (snd (@set_backend sample_runtime "find" "template" tuned_equalizer))
  /\ same_at "fdetect" tuned_equalizer
       (snd (@_new_params sample_runtime "find" "template" tuned_equalizer))
  /\ fst (get_backend "fdetect"
            (snd (@set_backend sample_runtime "find" "template" tuned_equalizer)))
     = fst (get_backend "fdetect" tuned_equalizer).
Proof.
  apply (@set_backend_touches_one_category sample_runtime "find" "template" "fdetect"
           tuned_equalizer).
  discriminate.
Defined.

(** X7: [hybrid] after [template] on the tuned equalizer. *)
Lemma set_backend_last_wins_witness :
  @set_backend sample_runtime "find" "hybrid"
    (snd (@set_backend sample_runtime "find" "template" tuned_equalizer))
  = @set_backend sample_runtime "find" "hybrid" tuned_equalizer.
Proof.
  apply (@set_backend_last_wins sample_runtime "find" "hybrid" "template" tuned_equalizer).
  vm_compute. reflexivity.
Defined.

(** X8: the detector [KAZE], which the OpenCV of the examples lacks. *)
Lemma set_backend_wipes_on_cv2_error_witness :
  exists ps,
    @set_backend sample_runtime "fdetect" "KAZE" hybrid_equalizer
    = (Raise AttributeError, with_params hybrid_equalizer "fdetect" ps)
    /\ _current (with_params hybrid_equalizer "fdetect" ps) = _current hybrid_equalizer
    /\ dict_keys ps = (if String.eqb "fdetect" "fdetect" then ["nzoom"; "hzoom"] else []).
Proof.
  apply (@set_backend_wipes_on_cv2_error sample_runtime "fdetect"
           ["ORB"; "BRISK"; "KAZE"; "AKAZE"; "MSER"; "AgastFeatureDetector";
            "FastFeatureDetector"; "GFTTDetector"; "SimpleBlobDetector"; "oldSURF"]
           "KAZE" AttributeError hybrid_equalizer);
    [now left|reflexivity|reflexivity|discriminate|reflexivity].
Defined.

(** X9: a call that names a template matcher only. *)
Lemma configure_backend_leaves_omitted_witness :
  same_at "find" tuned_equalizer
    (snd (@configure_backend sample_runtime None (Some "sqdiff") None None None
            tuned_equalizer)).
Proof.
  apply (@configure_backend_leaves_omitted sample_runtime None (Some "sqdiff") None None
           None "find" tuned_equalizer).
  reflexivity.
Defined.

(** X10: the find method and the detector are configured together. *)
Lemma configure_backend_selects_witness :
  exists self',
    @configure_backend sample_runtime (Some "template") None (Some "oldSURF") None None
      hybrid_equalizer = (Ok tt, self')
    /\ fst (get_backend "find" self') = Ok "template"
    /\ dict_get (p self') "find"
       = dict_get (p (snd (@_new_params sample_runtime "find" "template"
                             CVEqualizer_empty))) "find"
    /\ exists t, catalog "find" = Some t /\ tuple_mem t "template" = true.
Proof.
  eexists. split; [vm_compute; reflexivity|].
  eapply (@configure_backend_selects sample_runtime (Some "template") None
            (Some "oldSURF") None None "find" "template" hybrid_equalizer);
    [vm_compute; reflexivity|reflexivity].
Defined.

(** X11: the keys of a fresh [CVEqualizer("hybrid")] and of what the
    methods make of it. *)
Lemma registry_keeps_categories_witness :
  has_categories hybrid_equalizer
  /\ (forall c a, has_categories (snd (@set_backend sample_runtime c a hybrid_equalizer)))
  /\ (forall fi tm fd fe fm,
         has_categories
           (snd (@configure_backend sample_runtime fi tm fd fe fm hybrid_equalizer)))
  /\ (forall mark c, has_categories (snd (can_calibrate mark c hybrid_equalizer)))
  /\ (forall name fs,
         has_categories (snd (@from_match_file sample_runtime name fs hybrid_equalizer))).
Proof.
  destruct (@registry_keeps_categories sample_runtime Settings_default (Some "hybrid")
              hybrid_equalizer) as [K Hk].
  split; [exact K|]. apply Hk. exact K.
Defined.

(** X12: [CVEqualizer("hybrid")] with the settings nobody changed. *)
Lemma init_selects_witness :
  @selected sample_runtime "find" "hybrid" hybrid_equalizer
  /\ @selected sample_runtime "tmatch" "ccoeff_normed" hybrid_equalizer
  /\ @selected sample_runtime "fdetect" "ORB" hybrid_equalizer
  /\ @selected sample_runtime "fextract" "ORB" hybrid_equalizer
  /\ @selected sample_runtime "fmatch" "BruteForce-Hamming" hybrid_equalizer.
Proof.
  apply (@init_selects sample_runtime Settings_default "hybrid" hybrid_equalizer).
  vm_compute. reflexivity.
Defined.

(** X13: the parameters of the find method are marked for calibration. *)
Lemma can_calibrate_changes_marks_only_witness :
  exists params,
    dict_get (p hybrid_equalizer) "find" = Some params
    /\ exists params',
         can_calibrate true "find" hybrid_equalizer
         = (Ok tt, with_params hybrid_equalizer "find" params')
         /\ map (fun '(n, q) => (n, unmarked q)) params'
            = map (fun '(n, q) => (n, unmarked q)) params
         /\ forall mark',
              can_calibrate mark' "find" (with_params hybrid_equalizer "find" params')
              = can_calibrate mark' "find" hybrid_equalizer.
Proof.
  eexists. split; [vm_compute; reflexivity|].
  apply (can_calibrate_changes_marks_only true "find" hybrid_equalizer).
  vm_compute. reflexivity.
Defined.

(** X14: the match file with a section for the extractors only. *)
Lemma from_match_file_leaves_absent_witness :
  same_at "find" tuned_equalizer
    (snd (@from_match_file sample_runtime "brief" bytes_files tuned_equalizer)).
Proof.
  eapply (@from_match_file_leaves_absent sample_runtime "brief" bytes_files _ "find"
            tuned_equalizer); reflexivity.
Defined.

(** X15: the match file of the tuned equalizer. *)
Lemma to_match_file_layout_witness :
  @to_match_file sample_runtime tuned_equalizer "cfg" []
  = Ok (dict_set [] ("cfg" ++ ".match") (@sections_of sample_runtime tuned_equalizer))
  /\ dict_keys (@sections_of sample_runtime tuned_equalizer) = dict_keys (p tuned_equalizer)
  /\ forall c params,
       In (c, params) (p tuned_equalizer) ->
       exists a, fst (get_backend c tuned_equalizer) = Ok a
                 /\ dict_get (@sections_of sample_runtime tuned_equalizer) c
                    = Some (("backend", a)
                            :: map (fun '(n, q) => (n, @CVParameter_repr sample_runtime q))
                                 params).
Proof.
  apply (@to_match_file_layout sample_runtime tuned_equalizer "cfg" []).
  - vm_compute. repeat (constructor; [cbn [In]; intuition discriminate|]). constructor.
  - intros c params I. vm_compute in I. split_In I; injection I as <- <-;
      (split; [reflexivity|]);
      (split;
       [ cbn [dict_keys map fst];
         repeat first [ apply NoDup_nil
                      | apply NoDup_cons; [cbn [In]; intuition discriminate|] ]
       | cbn [dict_keys map fst In]; intuition discriminate ]).
Defined.

(** X16: the match file with the option [bytes] is loaded into a fresh
    [CVEqualizer("hybrid")]. *)
Lemma from_match_file_applies_file_witness :
  exists self',
    @from_match_file sample_runtime "brief" bytes_files hybrid_equalizer = (Ok tt, self')
    /\ (exists a,
          parser_get
            [ ("backend", "ORB");
              ("bytes",
               "<value='32' min='None' max='None' delta='1' tolerance='0.9' fixed='True'>") ]
            "backend" = Ok a
          /\ fst (get_backend "fextract" self') = Ok a)
    /\ forall o raw,
         o <> "backend" ->
         dict_get
           [ ("backend", "ORB");
             ("bytes",
              "<value='32' min='None' max='None' delta='1' tolerance='0.9' fixed='True'>") ]
           o = Some raw ->
         exists params q,
           dict_get (p self') "fextract" = Some params
           /\ @from_string sample_runtime raw = Ok q
           /\ dict_get params o = Some q.
Proof.
  eexists. split; [vm_compute; reflexivity|].
  eapply (@from_match_file_applies_file sample_runtime "brief" bytes_files _
            hybrid_equalizer _ "fextract");
    [ exact NoDup_categories | intros c; reflexivity | vm_compute; reflexivity
    | reflexivity | cbn [categories In]; auto | reflexivity ].
Defined.

(** X17: the getter [getMaxFeatures] of the detector [ORB]. *)
Lemma set_backend_introspects_witness :
  exists self' params q,
    @set_backend sample_runtime "fdetect" "ORB" hybrid_equalizer = (Ok tt, self')
    /\ dict_get (p self') "fdetect" = Some params
    /\ dict_get params (remove_get "getMaxFeatures") = Some q
    /\ introspected "getMaxFeatures" (PInt 500) = Ok q
    /\ value q = PInt 500 /\ fixed q = PBool true.
Proof.
  eexists.
  assert (exists params q,
             dict_get (p (snd (@set_backend sample_runtime "fdetect" "ORB" hybrid_equalizer)))
               "fdetect" = Some params
             /\ dict_get params (remove_get "getMaxFeatures") = Some q
             /\ introspected "getMaxFeatures" (PInt 500) = Ok q
             /\ value q = PInt 500 /\ fixed q = PBool true) as (params & q & Hq).
  { eapply (@set_backend_introspects sample_runtime "fdetect" "ORB" _ hybrid_equalizer _
              "getMaxFeatures" (PInt 500));
      [ now left | discriminate | reflexivity | vm_compute; reflexivity
      | cbn [In]; auto 10 | reflexivity | reflexivity | ].
    intros g' call I P E. split_In I; injection I as <- <-;
      first [ discriminate P | discriminate E | reflexivity ]. }
  exists params, q. split; [vm_compute; reflexivity|exact Hq].
Defined.

(** X21: [Settings.screen_autoconnect] on the settings nobody changed. *)
Lemma boolean_settings_accept_0_and_1_witness :
  (forall b, Static.screen_autoconnect (Py (PBool b)) Static.initial
             = (Ok (Py PNone),
                dict_set Static.initial "_screen_autoconnect" (Py (PBool b))))
  /\ (forall z, Static.screen_autoconnect (Py (PInt z)) Static.initial
                = if ((z =? 0) || (z =? 1))%Z
                  then (Ok (Py PNone),
                        dict_set Static.initial "_screen_autoconnect" (Py (PInt z)))
                  else (Raise ValueError, Static.initial))
  /\ (forall s, Static.screen_autoconnect (Text s) Static.initial
                = (Raise ValueError, Static.initial))
  /\ (forall id, Static.screen_autoconnect (Object id) Static.initial
                 = (Raise ValueError, Static.initial))
  /\ snd (Static.screen_autoconnect (Py PNone) Static.initial) = Static.initial
  /\ (forall value ns',
         value <> Py PNone ->
         Static.screen_autoconnect value Static.initial = (Ok (Py PNone), ns') ->
         fst (Static.screen_autoconnect (Py PNone) ns') = Ok value).
Proof.
  apply (boolean_settings_accept_0_and_1 Static.screen_autoconnect "_screen_autoconnect"
           Static.initial).
  now left.
Defined.

(** X19: the detector [ORB] of a fresh [CVEqualizer("hybrid")] is
    synchronized with an object that has setters for two of its
    parameters. *)
Lemma sync_backend_to_params_pushes_witness :
  exists params,
    dict_get (p hybrid_equalizer) "fdetect" = Some params
    /\ @sync_backend_to_params recorder recorder_backend
         {| names := ["getEdgeThreshold"; "getMaxFeatures"; "getWTA_K";
                      "setEdgeThreshold"; "setMaxFeatures"];
            calls := [] |}
         "fdetect" hybrid_equalizer
       = (Ok {| names := ["getEdgeThreshold"; "getMaxFeatures"; "getWTA_K";
                          "setEdgeThreshold"; "setMaxFeatures"];
                calls := ([] ++ pushes params
                                  ["getEdgeThreshold"; "getMaxFeatures"; "getWTA_K";
                                   "setEdgeThreshold"; "setMaxFeatures"]
                                  ["getEdgeThreshold"; "getMaxFeatures"; "getWTA_K";
                                   "setEdgeThreshold"; "setMaxFeatures"])%list |},
          hybrid_equalizer)
    /\ pushes params
         ["getEdgeThreshold"; "getMaxFeatures"; "getWTA_K";
          "setEdgeThreshold"; "setMaxFeatures"]
         ["getEdgeThreshold"; "getMaxFeatures"; "getWTA_K";
          "setEdgeThreshold"; "setMaxFeatures"]
       = [("setEdgeThreshold", PInt 31); ("setMaxFeatures", PInt 500)].
Proof.
  eexists. split; [vm_compute; reflexivity|]. split.
  - apply (sync_backend_to_params_pushes "fdetect" hybrid_equalizer _
             {| names := ["getEdgeThreshold"; "getMaxFeatures"; "getWTA_K";
                          "setEdgeThreshold"; "setMaxFeatures"];
                calls := [] |}).
    + now left.
    + intros _. exists "ORB". split; [reflexivity|discriminate].
    + vm_compute. reflexivity.
  - vm_compute. reflexivity.
Defined.

(** X22: the template matcher is set to [sqdiff] before an equalizer is
    built. *)
Lemma backend_settings_checked_by_equalizer_witness :
  exists settings self,
    Static.template_match_backend (Text "sqdiff") Static.initial
    = (Ok (Py PNone), dict_set Static.initial "_template_match_backend" (Text "sqdiff"))
    /\ settings_of (dict_set Static.initial "_template_match_backend" (Text "sqdiff"))
       = Some settings
    /\ @CVEqualizer_init sample_runtime settings (Some "hybrid") = (Ok tt, self)
    /\ fst (get_backend "tmatch" self) = Ok "sqdiff"
    /\ exists t, catalog "tmatch" = Some t /\ tuple_mem t "sqdiff" = true.
Proof.
  pose proof (@backend_settings_checked_by_equalizer sample_runtime
                Static.template_match_backend "_template_match_backend" "tmatch" "sqdiff"
                Static.initial (or_introl eq_refl)) as [Hset Hinit].
  do 2 eexists. split; [exact Hset|].
  split; [vm_compute; reflexivity|]. split; [vm_compute; reflexivity|].
  eapply (Hinit _ "hybrid"); [vm_compute; reflexivity|].
  vm_compute. reflexivity.
Defined.
